(** * A shallow embedding of abn-amro-statement-parser

    Covers [src/abnamroparser/tsvparser.py] (batched, rejoin_description,
    parse_nr_datetime, parse_description, money_format, Transaction.__eq__,
    Transaction.desc, filter_comments, read_tsv),
    [src/src/abnamroparser/icspdfparser.py] (Page.convert_date,
    Page.convert_amount, Page.convert_bij_af, Page.convert_cell_text,
    Page.table_as_list, Page.table_as_string, group_related_rows,
    get_transactions_from_pages) and the copies of filter_comments and
    money_format in [src/src/abnamroparser/util.py].

    Python strings are modelled as Rocq [string] (ASCII characters).
    A Python exception is an [Err] of the [result] monad, carrying the
    exception class that the Python code would raise. *)

From Stdlib Require Import String Ascii List ZArith Lia Bool Arith Sorting.Sorted Sorting.Permutation.
Import ListNotations.

Local Open Scope string_scope.
Local Open Scope bool_scope.

(** ** Exceptions and the error monad *)

Inductive py_error :=
| IndexError
| KeyError
| ValueError
| AssertionError
| AttributeError
| TypeError.

Inductive result (A : Type) : Type :=
| Ok (a : A)
| Err (e : py_error).
Arguments Ok {A} a.
Arguments Err {A} e.

Definition bind {A B} (m : result A) (k : A -> result B) : result B :=
  match m with
  | Ok a => k a
  | Err e => Err e
  end.

Notation "'let*' x ':=' m 'in' k" := (bind m (fun x => k))
  (at level 200, x name, m at level 100, k at level 200).

(** Python's [assert cond]. *)
Definition py_assert (b : bool) : result unit :=
  if b then Ok tt else Err AssertionError.

(** ** Characters and strings *)

Definition newline : ascii := "010"%char.

(** [str.isspace] on an ASCII character: \t \n \v \f \r, \x1c-\x1f and space. *)
Definition is_space (c : ascii) : bool :=
  let n := nat_of_ascii c in
  (  ((9 <=? n) && (n <=? 13)) || ((28 <=? n) && (n <=? 31)) || (n =? 32))%nat.

(** [s[:n]] *)
Fixpoint str_take (n : nat) (s : string) : string :=
  match n, s with
  | O, _ => EmptyString
  | S n', String c s' => String c (str_take n' s')
  | S _, EmptyString => EmptyString
  end.

(** [s[n:]] *)
Fixpoint str_drop (n : nat) (s : string) : string :=
  match n, s with
  | O, _ => s
  | S n', String _ s' => str_drop n' s'
  | S _, EmptyString => EmptyString
  end.

(** [s.rstrip()] *)
Fixpoint rstrip (s : string) : string :=
  match s with
  | EmptyString => EmptyString
  | String c s' =>
      match rstrip s' with
      | EmptyString => if is_space c then EmptyString else String c EmptyString
      | r => String c r
      end
  end.

(** [s.lstrip()] *)
Fixpoint lstrip (s : string) : string :=
  match s with
  | EmptyString => EmptyString
  | String c s' => if is_space c then lstrip s' else s
  end.

(** [s.strip()] *)
Definition strip (s : string) : string := lstrip (rstrip s).

(** No character of [s] is a newline (the regex [.] does not match one). *)
Fixpoint no_newline (s : string) : bool :=
  match s with
  | EmptyString => true
  | String c s' => negb (Ascii.eqb c newline) && no_newline s'
  end.

(** ** [re.findall(r".{1,n}", s)] and [re.findall(r".{1,n} ?", s)] *)

(** Greedy [.{0,n}]: the longest prefix of at most [n] non-newline characters. *)
Fixpoint take_dots (n : nat) (s : string) : string * string :=
  match n, s with
  | S n', String c s' =>
      if Ascii.eqb c newline then (EmptyString, s)
      else let (m, rest) := take_dots n' s' in (String c m, rest)
  | _, _ => (EmptyString, s)
  end.

(** The optional trailing [" ?"] of the pattern. *)
Definition opt_space (sp : bool) (m rest : string) : string * string :=
  match sp, rest with
  | true, String c r => if Ascii.eqb c " "%char then (m ++ " ", r) else (m, rest)
  | _, _ => (m, rest)
  end.

(** The scan of [re.findall]: no match can start at a newline, so the
    scanner moves one character on; otherwise it takes the greedy match
    and continues after it. [fuel] bounds the number of steps; each step
    consumes a character, so [length s] steps suffice. *)
Fixpoint findall_fuel (fuel n : nat) (sp : bool) (s : string) : list string :=
  match fuel with
  | O => []
  | S fuel' =>
      match s with
      | EmptyString => []
      | String c s' =>
          if Ascii.eqb c newline then findall_fuel fuel' n sp s'
          else
            let (m, rest) := take_dots n s in
            let (m', rest') := opt_space sp m rest in
            m' :: findall_fuel fuel' n sp rest'
      end
  end.

Definition findall_dots (n : nat) (sp : bool) (s : string) : list string :=
  findall_fuel (String.length s) n sp s.

(** ** rejoin_description (tsvparser.py, lines 225-271) *)

Definition rejoin_description (s : string) : result string :=
  if prefix "/" s then Ok s
  else
    let head := str_take 32 s in
    match get 32 s with
    | None => Err IndexError
    | Some c =>
        let* _ := py_assert (Ascii.eqb c " "%char) in
        let parts := findall_dots 64 true (rstrip (str_drop 33 s)) in
        let* _ := py_assert (forallb (fun p => (String.length p =? 65)%nat) (removelast parts)) in
        Ok (head ++ String.concat "" (map (str_take 64) parts))
    end.

(** The spacing pattern the upstream system inserts, written from the
    spec's words: a 32-character head, a space, then the rest cut into
    64-character display lines joined by single spaces. *)
Fixpoint chunks_fuel (fuel n : nat) (s : string) : list string :=
  match fuel with
  | O => []
  | S fuel' =>
      match s with
      | EmptyString => []
      | _ => str_take n s :: chunks_fuel fuel' n (str_drop n s)
      end
  end.

Definition chunks64 (s : string) : list string := chunks_fuel (String.length s) 64 s.

Definition spaced (u : string) : string :=
  str_take 32 u ++ " " ++ String.concat " " (chunks64 (str_drop 32 u)).

(** Marks the display lines the way the rejoiner's regex cuts them: every
    line but the last keeps its trailing separator space. *)
Fixpoint mark_lines (l : list string) : list string :=
  match l with
  | [] => []
  | [c] => [c]
  | c :: l' => (c ++ " ") :: mark_lines l'
  end.

(** ** Python dicts

    A dict is an association list in insertion order. Assigning an
    existing key replaces its value in place; a new key goes at the end. *)

Definition pydict := list (string * string).

Fixpoint dict_set (k v : string) (d : pydict) : pydict :=
  match d with
  | [] => [(k, v)]
  | (k', v') :: d' =>
      if String.eqb k k' then (k', v) :: d' else (k', v') :: dict_set k v d'
  end.

Fixpoint dict_get (k : string) (d : pydict) : option string :=
  match d with
  | [] => None
  | (k', v') :: d' => if String.eqb k k' then Some v' else dict_get k d'
  end.

(** [{**base, **d}] and [dict(pairs)]. *)
Definition dict_update (base : pydict) (pairs : list (string * string)) : pydict :=
  fold_left (fun acc kv => dict_set (fst kv) (snd kv) acc) pairs base.

Definition dict_of (pairs : list (string * string)) : pydict := dict_update [] pairs.

(** Raising variants of [map]. *)
Fixpoint map_result {A B} (f : A -> result B) (l : list A) : result (list B) :=
  match l with
  | [] => Ok []
  | x :: l' => let* y := f x in let* ys := map_result f l' in Ok (y :: ys)
  end.

(** ** More string operations *)

(** [s.split(sep)] for a one-character separator. *)
Fixpoint split_on (sep : ascii) (s : string) : list string :=
  match s with
  | EmptyString => [""]
  | String c s' =>
      if Ascii.eqb c sep then "" :: split_on sep s'
      else match split_on sep s' with
           | [] => [String c ""]
           | x :: xs => String c x :: xs
           end
  end.

(** [re.split("[-:./]", s)]: splitting at any character of a class. *)
Fixpoint split_on_any (seps : list ascii) (s : string) : list string :=
  match s with
  | EmptyString => [""]
  | String c s' =>
      if existsb (Ascii.eqb c) seps then "" :: split_on_any seps s'
      else match split_on_any seps s' with
           | [] => [String c ""]
           | x :: xs => String c x :: xs
           end
  end.

(** [s.partition(sep)] *)
Fixpoint partition (sep s : string) : string * string * string :=
  if prefix sep s then ("", sep, str_drop (String.length sep) s)
  else match s with
       | EmptyString => ("", "", "")
       | String c s' =>
           let '(a, b, r) := partition sep s' in
           match b with
           | EmptyString => (s, "", "")
           | _ => (String c a, b, r)
           end
       end.

(** [s.replace(old, new)] for one-character [old] and [new]. *)
Fixpoint replace_char (o n : ascii) (s : string) : string :=
  match s with
  | EmptyString => EmptyString
  | String c s' => String (if Ascii.eqb c o then n else c) (replace_char o n s')
  end.

(** [re.sub(r" +", " ", s)] *)
Fixpoint collapse_spaces (s : string) : string :=
  match s with
  | EmptyString => EmptyString
  | String c s' =>
      let r := collapse_spaces s' in
      if Ascii.eqb c " "%char then
        match r with
        | String d _ => if Ascii.eqb d " "%char then r else String c r
        | EmptyString => String c r
        end
      else String c r
  end.

(** [re.fullmatch("A|B|...", p)] for a list of literal alternatives. *)
Definition fullmatch_any (alts : list string) (p : string) : bool :=
  existsb (String.eqb p) alts.

(** ** The slash-separated format (tsvparser.py, lines 765-795) *)

Definition slash_tags : list string :=
  ["TRTP"; "CSID"; "NAME"; "REMI"; "MARF"; "EREF"; "IBAN"; "BIC"; "ORDP"; "ID"].

(** The loop over [s[1:].split("/")]. The Python list [parts] is kept
    reversed, so that [parts.append] and [parts.pop()] work on its head. *)
Fixpoint slash_loop (rparts : list string) (segs : list string) : result (list string) :=
  match segs with
  | [] => Ok rparts
  | p :: segs' =>
      if Nat.even (length rparts) then
        if fullmatch_any slash_tags p then slash_loop (p :: rparts) segs'
        else match rparts with
             | [] => Err IndexError
             | last :: rest => slash_loop ((last ++ "/" ++ p) :: rest) segs'
             end
      else slash_loop (p :: rparts) segs'
  end.

(** [key_map[k]] *)
Definition key_map (k : string) : result string :=
  if String.eqb k "TRTP" then Ok "type"
  else if String.eqb k "CSID" then Ok "Incassant"
  else if String.eqb k "NAME" then Ok "Naam"
  else if String.eqb k "REMI" then Ok "Omschrijving"
  else if String.eqb k "MARF" then Ok "Machtiging"
  else if String.eqb k "EREF" then Ok "Kenmerk"
  else if String.eqb k "IBAN" then Ok "IBAN"
  else if String.eqb k "BIC" then Ok "BIC"
  else if String.eqb k "ORDP" then Ok ""
  else if String.eqb k "ID" then Ok ""
  else Err KeyError.

(** [batched(parts, 2)] *)
Fixpoint batched2 (l : list string) : list (list string) :=
  match l with
  | [] => []
  | [x] => [[x]]
  | x :: y :: l' => [x; y] :: batched2 l'
  end.

(** The generator [((key_map[k], v.rstrip()) for (k, v) in batched(parts, 2)
    if key_map[k] != "")]: unpacking a one-element batch raises [ValueError]. *)
Fixpoint slash_pairs (bs : list (list string)) : result (list (string * string)) :=
  match bs with
  | [] => Ok []
  | [k; v] :: bs' =>
      let* km := key_map k in
      let* rest := slash_pairs bs' in
      Ok (if String.eqb km "" then rest else (km, rstrip v) :: rest)
  | _ :: _ => Err ValueError
  end.

Definition parse_slash (s : string) : result pydict :=
  let* rparts := slash_loop [] (split_on "/"%char (str_drop 1 s)) in
  let* pairs := slash_pairs (batched2 (rev rparts)) in
  let data := dict_of pairs in
  match dict_get "type" data with
  | None => Err KeyError
  | Some t =>
      if String.eqb t "iDEAL" then Ok (dict_set "type" "SEPA iDEAL" data)
      else Ok data
  end.

(** ** Character classes and scanning helpers for the fixed regexes *)

Definition is_sp (c : ascii) : bool := Ascii.eqb c " "%char.

Definition is_digit (c : ascii) : bool :=
  let n := nat_of_ascii c in ((48 <=? n) && (n <=? 57))%nat.

(** [[-0-9,.]] *)
Definition is_amount_char (c : ascii) : bool :=
  is_digit c || Ascii.eqb c "-"%char || Ascii.eqb c ","%char || Ascii.eqb c "."%char.

(** [[0-9./:]] *)
Definition is_dt_char (c : ascii) : bool :=
  is_digit c || Ascii.eqb c "."%char || Ascii.eqb c "/"%char || Ascii.eqb c ":"%char.

(** The longest prefix whose characters satisfy [f], and the rest. *)
Fixpoint span (f : ascii -> bool) (s : string) : string * string :=
  match s with
  | EmptyString => (EmptyString, EmptyString)
  | String c s' =>
      if f c then let (a, b) := span f s' in (String c a, b) else (EmptyString, s)
  end.

Fixpoint all_chars (f : ascii -> bool) (s : string) : bool :=
  match s with
  | EmptyString => true
  | String c s' => f c && all_chars f s'
  end.

Definition nonempty (s : string) : bool :=
  match s with EmptyString => false | _ => true end.

Fixpoint str_rev (s : string) : string :=
  match s with
  | EmptyString => EmptyString
  | String c s' => str_rev s' ++ String c EmptyString
  end.

(** [re.fullmatch(r"^(.*[^ ]) +([-0-9,.]+)$", p).groups()]: the greedy
    groups leave the amount as the longest suffix of amount characters,
    preceded by at least one space, preceded by a label that ends in a
    non-space and has no newline before its last character. *)
Definition fee_match (p : string) : option (string * string) :=
  let (ramt, r1) := span is_amount_char (str_rev p) in
  let (rsp, rname) := span is_sp r1 in
  match ramt, rsp, rname with
  | String _ _, String _ _, String _ rinit =>
      if no_newline rinit then Some (str_rev rname, str_rev ramt) else None
  | _, _, _ => None
  end.

(** [re.fullmatch(r"^(BEA) +NR:([^ ]+) +([0-9./:]+)$", head).groups()] *)
Definition bea_legacy_match (h : string) : option (string * string * string) :=
  if prefix "BEA" h then
    let (sp1, r1) := span is_sp (str_drop 3 h) in
    if nonempty sp1 && prefix "NR:" r1 then
      let (nr, r2) := span (fun c => negb (is_sp c)) (str_drop 3 r1) in
      let (sp2, dt) := span is_sp r2 in
      if nonempty nr && nonempty sp2 && nonempty dt && all_chars is_dt_char dt
      then Some ("BEA", nr, dt) else None
    else None
  else None.

(** [re.fullmatch(r"^NR:([^, ]+)[, ]+([0-9./:]+) *", nr_and_date).groups()] *)
Definition bea_nr_match (t : string) : option (string * string) :=
  if prefix "NR:" t then
    let (nr, r1) := span (fun c => negb (is_sp c || Ascii.eqb c ","%char)) (str_drop 3 t) in
    let (sep, r2) := span (fun c => is_sp c || Ascii.eqb c ","%char) r1 in
    let (dt, r3) := span is_dt_char r2 in
    if nonempty nr && nonempty sep && nonempty dt && all_chars is_sp r3
    then Some (nr, dt) else None
  else None.

(** ** int() and datetime *)

Definition digit_of (c : ascii) : option Z :=
  if is_digit c then Some (Z.of_nat (nat_of_ascii c - 48)) else None.

(** Decimal digits with single underscores between digits, as [int()] reads them. *)
Fixpoint digits_val (acc : Z) (after_digit : bool) (s : string) : option Z :=
  match s with
  | EmptyString => if after_digit then Some acc else None
  | String c s' =>
      match digit_of c with
      | Some d => digits_val (acc * 10 + d)%Z true s'
      | None =>
          if Ascii.eqb c "_"%char && after_digit then digits_val acc false s' else None
      end
  end.

(** The number of decimal digits in [s]. *)
Fixpoint count_digits (s : string) : nat :=
  match s with
  | EmptyString => O
  | String c s' => (if is_digit c then 1 else 0) + count_digits s'
  end.

(** [sys.get_int_max_str_digits()] at its default. *)
Definition int_max_str_digits : nat := 4300.

(** [int(s)] on a string (base 10); a number written with more than
    [int_max_str_digits] digits (leading zeros included) raises
    [ValueError]. *)
Definition py_int (s : string) : result Z :=
  let r :=
    match strip s with
    | EmptyString => None
    | String c t =>
        if Ascii.eqb c "-"%char then option_map Z.opp (digits_val 0 false t)
        else if Ascii.eqb c "+"%char then digits_val 0 false t
        else digits_val 0 false (String c t)
    end in
  match r with
  | Some z => if (count_digits s <=? int_max_str_digits)%nat then Ok z else Err ValueError
  | None => Err ValueError
  end.

Record date := mkdate { year : Z; month : Z; day : Z }.

Record datetime := mkdatetime {
  dt_date : date; dt_hour : Z; dt_minute : Z }.

Definition is_leap (y : Z) : bool :=
  ((y mod 4 =? 0) && negb (y mod 100 =? 0) || (y mod 400 =? 0))%Z.

Definition days_in_month (y m : Z) : Z :=
  if (m =? 2)%Z then (if is_leap y then 29 else 28)%Z
  else if existsb (Z.eqb m) [4; 6; 9; 11]%Z then 30%Z
  else 31%Z.

(** [datetime.date(y, m, d)]: [ValueError] outside the calendar. *)
Definition mk_date (y m d : Z) : result date :=
  if ((1 <=? y) && (y <=? 9999) && (1 <=? m) && (m <=? 12) &&
      (1 <=? d) && (d <=? days_in_month y m))%Z
  then Ok (mkdate y m d) else Err ValueError.

(** [datetime.datetime(y, m, d, H, M)] *)
Definition mk_datetime (y m d hh mi : Z) : result datetime :=
  let* dd := mk_date y m d in
  if ((0 <=? hh) && (hh <=? 23) && (0 <=? mi) && (mi <=? 59))%Z
  then Ok (mkdatetime dd hh mi) else Err ValueError.

Definition digit_char (n : N) : ascii := ascii_of_N (48 + n).

Fixpoint dec_fuel (fuel : nat) (n : N) (acc : string) : string :=
  match fuel with
  | O => acc
  | S f =>
      let acc' := String (digit_char (n mod 10)) acc in
      if (n <? 10)%N then acc' else dec_fuel f (n / 10)%N acc'
  end.

(** The decimal digits of [n], without leading zeros. *)
Definition dec_string (n : N) : string := dec_fuel (S (N.size_nat n)) n "".

(** ["%0*d" % (w, n)] for [n >= 0]. *)
Definition zpad (w : nat) (n : Z) : string :=
  let s := dec_string (Z.to_N n) in
  String.concat "" (repeat "0" (w - String.length s)) ++ s.

Definition isoformat (t : datetime) : string :=
  zpad 4 (year (dt_date t)) ++ "-" ++ zpad 2 (month (dt_date t)) ++ "-" ++
  zpad 2 (day (dt_date t)) ++ "T" ++ zpad 2 (dt_hour t) ++ ":" ++
  zpad 2 (dt_minute t) ++ ":00".

(** parse_nr_datetime (tsvparser.py, lines 274-287) *)
Definition parse_nr_datetime (s : string) : result datetime :=
  let parts := split_on_any ["-"; ":"; "."; "/"]%char (strip s) in
  let* ns := map_result py_int parts in
  match ns with
  | [dd; mm; yy; hh; mi] => mk_datetime (2000 + yy)%Z mm dd hh mi
  | _ => Err ValueError
  end.

(** ** The fixed-width formats (tsvparser.py, lines 796-905) *)

(** Bank fees: 32-character bands of label and right-aligned amount. *)
Definition parse_bank_fees (head tail : string) : result pydict :=
  let parts := findall_dots 32 false tail in
  let* groups := map_result (fun p => match fee_match p with
                                      | Some kv => Ok kv
                                      | None => Err AttributeError
                                      end) parts in
  let costs := dict_of (map (fun kv => (fst kv, replace_char ","%char "."%char (snd kv))) groups) in
  Ok (dict_update [("type", head)] costs).

(** Legacy card payments: ["BEA   NR:<nr> <datetime>"] head. *)
Definition parse_bea_legacy (head tail : string) : result pydict :=
  let name_and_card := str_take 32 tail in
  let location := str_take 32 (str_drop 32 tail) in
  let suffix := str_drop 64 tail in
  match bea_legacy_match head with
  | None => Err AttributeError
  | Some (ty, nr, dtstr) =>
      let '(name, _, pas) := partition ",PAS" name_and_card in
      let* dt := parse_nr_datetime dtstr in
      Ok [("type", ty); ("datetime", isoformat dt); ("NR", nr);
          ("Naam", rstrip name); ("card", rstrip pas);
          ("location", rstrip location); ("suffix", rstrip suffix)]
  end.

(** Newer card payments and ATM withdrawals: ["BEA, "] or ["GEA, "] head. *)
Definition parse_bea (head tail : string) : result pydict :=
  let name_and_card := str_take 32 tail in
  let nr_and_date := str_take 32 (str_drop 32 tail) in
  let location := str_take 32 (str_drop 64 tail) in
  let suffix := str_drop 96 tail in
  let '(name, _, pas) := partition ",PAS" name_and_card in
  match bea_nr_match nr_and_date with
  | None => Err AttributeError
  | Some (nr, dtstr) =>
      let* dt := parse_nr_datetime dtstr in
      Ok [("type", head); ("datetime", isoformat dt); ("NR", nr);
          ("Naam", rstrip name); ("card", rstrip pas);
          ("location", rstrip location); ("suffix", rstrip suffix)]
  end.

Definition sepa_keys : list string :=
  ["Incassant"; "BIC"; "Naam"; "Machtiging"; "Omschrijving"; "IBAN"; "Kenmerk"; "Voor"].

(** [re.fullmatch(r"^(Incassant|...|Voor): (.+)", t)] *)
Fixpoint sepa_match_keys (keys : list string) (t : string) : option (string * string) :=
  match keys with
  | [] => None
  | k :: ks =>
      let rest := str_drop (String.length k + 2) t in
      if prefix (k ++ ": ") t && nonempty rest && no_newline rest then Some (k, rest)
      else sepa_match_keys ks t
  end.

(** The loop over the 32-character bands; [parts] kept reversed. *)
Fixpoint sepa_loop (rparts : list (string * string)) (bands : list string)
  : result (list (string * string)) :=
  match bands with
  | [] => Ok rparts
  | t :: bs =>
      match sepa_match_keys sepa_keys t with
      | Some kv => sepa_loop (kv :: rparts) bs
      | None =>
          match rparts with
          | [] => Err IndexError
          | (k, v) :: rest => sepa_loop ((k, v ++ t) :: rest) bs
          end
      end
  end.

Definition parse_sepa (head tail : string) : result pydict :=
  let* rparts := sepa_loop [] (findall_dots 32 false tail) in
  Ok (dict_update [("type", head)]
        (dict_of (map (fun kv => (fst kv, strip (snd kv))) (rev rparts)))).

(** parse_description (tsvparser.py, lines 290-905). The fallback also
    prints a diagnostic line, which is not modelled. *)
Definition parse_description (s : string) : result pydict :=
  if prefix "/" s then parse_slash s
  else
    let head := rstrip (str_take 32 s) in
    let tail := rstrip (str_drop 32 s) in
    if prefix "ABN AMRO Bank" s then parse_bank_fees head tail
    else if prefix "BEA " head then parse_bea_legacy head tail
    else if prefix "BEA, " head || prefix "GEA, " head then parse_bea head tail
    else if prefix "SEPA " head then parse_sepa head tail
    else if prefix "CREDIT INTEREST" head then
      Ok [("type", "Basic interest"); ("description", tail)]
    else if prefix "Basic interest" head then
      Ok [("type", head); ("description", collapse_spaces tail)]
    else if prefix "Maandpremie " head || prefix "Uitbetaling pakketkorting" head
            || prefix "PAKKETVERZ. POLISNR." head then
      Ok [("type", "legacy insurance"); ("description", collapse_spaces (head ++ " " ++ tail))]
    else
      Ok [("type", head); ("description", tail)].

(** The doctests' [test_it]: rejoin, then parse. *)
Definition test_it (s : string) : result pydict :=
  let* r := rejoin_description s in parse_description r.

Definition dict_same (d e : pydict) : bool :=
  (length d =? length e)%nat &&
  forallb (fun kv => match dict_get (fst kv) d with
                    | Some v => String.eqb v (snd kv)
                    | None => false end) e.

(** The sub-format triggers named by the spec's dispatch table, as
    prefixes of the description. *)
Definition description_triggers : list string :=
  ["ABN AMRO Bank"; "BEA "; "BEA, "; "GEA, "; "SEPA "; "CREDIT INTEREST";
   "Basic interest"; "Maandpremie "; "Uitbetaling pakketkorting";
   "PAKKETVERZ. POLISNR."].

(** A slash-format description written out from its (tag, value) pairs:
    ["/tag/value/tag/value..."]. *)
Definition slash_encode (ps : list (string * string)) : string :=
  "/" ++ String.concat "/" (flat_map (fun tv => [fst tv; snd tv]) ps).

(** A value whose "/"-pieces after the first are not tags, so that none
    of them is read as the start of a new pair. *)
Definition value_ok (v : string) : bool :=
  forallb (fun p => negb (fullmatch_any slash_tags p)) (tl (split_on "/"%char v)).

(** The last value given for tag [t], right-stripped. *)
Definition last_value (t : string) (ps : list (string * string)) : option string :=
  fold_left (fun acc tv => if String.eqb (fst tv) t then Some (rstrip (snd tv)) else acc)
    ps None.

(** The tags that are kept, with the key each one is stored under
    ("TRTP" apart, which becomes "type"). *)
Definition slash_field_names : list (string * string) :=
  [("CSID", "Incassant"); ("NAME", "Naam"); ("REMI", "Omschrijving");
   ("MARF", "Machtiging"); ("EREF", "Kenmerk"); ("IBAN", "IBAN"); ("BIC", "BIC")].

Definition ideal_fix (v : string) : string :=
  if String.eqb v "iDEAL" then "SEPA iDEAL" else v.

(** The elements of a list at even (tag) positions when [at_tag] is
    [true]. *)
Fixpoint tag_positions (at_tag : bool) (l : list string) : list string :=
  match l with
  | [] => []
  | x :: l' => if at_tag then x :: tag_positions false l' else tag_positions true l'
  end.

Definition slash_table : list (string * string) := ("TRTP", "type") :: slash_field_names.

(** ** Money and the TSV Transaction (tsvparser.py, lines 88-176)

    A [decimal.Decimal] is a sign, a coefficient and an exponent; its
    value is [(-1)^sign * coef * 10^exp]. [Decimal.__eq__] compares
    values, so that [Decimal("1.0") == Decimal("1.00")] and [-0 == 0]. *)
Record decimal := mkdecimal { dec_sign : bool; dec_coef : N; dec_exp : Z }.

Definition dec_int (d : decimal) : Z :=
  if dec_sign d then (- Z.of_N (dec_coef d))%Z else Z.of_N (dec_coef d).

Definition dec_eqb (a b : decimal) : bool :=
  let e := Z.min (dec_exp a) (dec_exp b) in
  Z.eqb (dec_int a * 10 ^ (dec_exp a - e)) (dec_int b * 10 ^ (dec_exp b - e)).

(** [moneyed.Money]: an amount and a currency, given here by its code;
    [Money.__eq__] compares both, [Currency.__eq__] compares codes. *)
Record money := mkmoney { m_amount : decimal; m_currency : string }.

Definition money_eqb (a b : money) : bool :=
  dec_eqb (m_amount a) (m_amount b) && String.eqb (m_currency a) (m_currency b).

Definition date_eqb (a b : date) : bool :=
  Z.eqb (year a) (year b) && Z.eqb (month a) (month b) && Z.eqb (day a) (day b).

(** The dataclass [Transaction]; its field [date] is [tx_date] here, as
    [date] names the type of dates. *)
Record Transaction := mkTransaction {
  account : Z;
  tx_date : date;
  order : Z;
  currency : string;
  amount : money;
  start_saldo : money;
  end_saldo : money;
  description : string }.

(** [Transaction.__eq__] *)
Definition Transaction_eq (self other : Transaction) : bool :=
  Z.eqb (account self) (account other)
  && date_eqb (tx_date self) (tx_date other)
  && String.eqb (currency self) (currency other)
  && money_eqb (amount self) (amount other)
  && money_eqb (start_saldo self) (start_saldo other)
  && money_eqb (end_saldo self) (end_saldo other).

(** A transaction with one field replaced. *)
Definition set_order_description (t : Transaction) (o : Z) (d : string) : Transaction :=
  mkTransaction (account t) (tx_date t) o (currency t) (amount t) (start_saldo t) (end_saldo t) d.
Definition set_account (t : Transaction) (v : Z) : Transaction :=
  mkTransaction v (tx_date t) (order t) (currency t) (amount t) (start_saldo t) (end_saldo t) (description t).
Definition set_date (t : Transaction) (v : date) : Transaction :=
  mkTransaction (account t) v (order t) (currency t) (amount t) (start_saldo t) (end_saldo t) (description t).
Definition set_currency (t : Transaction) (v : string) : Transaction :=
  mkTransaction (account t) (tx_date t) (order t) v (amount t) (start_saldo t) (end_saldo t) (description t).
Definition set_amount (t : Transaction) (v : money) : Transaction :=
  mkTransaction (account t) (tx_date t) (order t) (currency t) v (start_saldo t) (end_saldo t) (description t).
Definition set_start_saldo (t : Transaction) (v : money) : Transaction :=
  mkTransaction (account t) (tx_date t) (order t) (currency t) (amount t) v (end_saldo t) (description t).
Definition set_end_saldo (t : Transaction) (v : money) : Transaction :=
  mkTransaction (account t) (tx_date t) (order t) (currency t) (amount t) (start_saldo t) v (description t).

(** ** money_format (tsvparser.py, lines 62-86; util.py, lines 69-93)

    ["{:.2f}".format(m.amount)] on a finite [Decimal]: the value is
    rescaled to exponent -2 with the rounding of the default context,
    [ROUND_HALF_EVEN], and written as the sign (kept on a zero), the
    integer part, a point and two digits. *)
Definition round_half_even_div (c d : Z) : Z :=
  let q := (c / d)%Z in
  let r := (c mod d)%Z in
  if (2 * r <? d)%Z then q
  else if (d <? 2 * r)%Z then (q + 1)%Z
  else if Z.even q then q else (q + 1)%Z.

(** The coefficient of the value rescaled to exponent -2. *)
Definition quantize_cents (d : decimal) : Z :=
  let c := Z.of_N (dec_coef d) in
  if (0 <=? dec_exp d + 2)%Z then (c * 10 ^ (dec_exp d + 2))%Z
  else round_half_even_div c (10 ^ (- (dec_exp d + 2)))%Z.

Definition format_2f (d : decimal) : string :=
  let q := quantize_cents d in
  (if dec_sign d then "-" else "") ++ dec_string (Z.to_N (q / 100)%Z) ++ "." ++ zpad 2 (q mod 100)%Z.

Definition money_format (m : money) : string := format_2f (m_amount m).

(** [q] is the number of cents nearest to [c * 10^e], a tie going to the
    even one. *)
Definition nearest_even_cents (c e q : Z) : Prop :=
  if (0 <=? e + 2)%Z then q = (c * 10 ^ (e + 2))%Z
  else let D := (10 ^ (- (e + 2)))%Z in
       (2 * Z.abs (c - q * D) < D \/ (2 * Z.abs (c - q * D) = D /\ Z.even q = true))%Z.

(** ** read_tsv (tsvparser.py, lines 908-956) *)

(** filter_comments: the test applied to each line. *)
Definition is_comment_or_blank (line : string) : bool :=
  prefix "#" (lstrip line) || String.eqb (strip line) "".

Fixpoint filter_comments (lines : list string) : list string :=
  match lines with
  | [] => []
  | line :: lines' =>
      if prefix "#" (lstrip line) then filter_comments lines'
      else if String.eqb (strip line) "" then filter_comments lines'
      else line :: filter_comments lines'
  end.

(** [RowTuple], the named tuple of the eight TSV columns. *)
Record RowTuple := mkRowTuple {
  accountNumber : string; mutationcode : string; transactiondate : string;
  startsaldo : string; endsaldo : string; valuedate : string;
  row_amount : string; row_description : string }.

(** [RowTuple( *r)] raises [TypeError] unless [r] has eight fields. *)
Definition make_row (r : list string) : result RowTuple :=
  match r with
  | [a; b; c; d; e; f; g; h] => Ok (mkRowTuple a b c d e f g h)
  | _ => Err TypeError
  end.

Section ReadTsv.
(** The library parts read_tsv calls: [csv.reader] with the [excel-tab]
    dialect (from the lines to the records), [datetime.strptime(_,
    "%Y%m%d").date()], [Currency] and [Money]; each may raise. *)
Variable csv_reader : list string -> list (list string).
Variable strptime_date : string -> result date.
Variable Currency : string -> result string.
Variable Money : string -> string -> result money.

(** The arguments of [Transaction(...)], in the order Python evaluates
    them. *)
Definition build_transaction (order : Z) (row : RowTuple) : result Transaction :=
  let* cur := Currency (mutationcode row) in
  let* acc := py_int (accountNumber row) in
  let* dt := strptime_date (transactiondate row) in
  let* amt := Money (replace_char ","%char "."%char (row_amount row)) cur in
  let* st := Money (replace_char ","%char "."%char (startsaldo row)) cur in
  let* en := Money (replace_char ","%char "."%char (endsaldo row)) cur in
  let* desc := rejoin_description (row_description row) in
  Ok (mkTransaction acc dt order cur amt st en desc).

(** The generator's loop: the transactions it yields, and the exception
    that ends it, if any. *)
Fixpoint read_rows (order : Z) (rows : list (list string))
    : list Transaction * option py_error :=
  match rows with
  | [] => ([], None)
  | r :: rows' =>
      match make_row r with
      | Err e => ([], Some e)
      | Ok row =>
          let order' := (order + 1)%Z in
          match build_transaction order' row with
          | Err e => ([], Some e)
          | Ok t => let '(ts, err) := read_rows order' rows' in (t :: ts, err)
          end
      end
  end.

Definition read_tsv (file : list string) : list Transaction * option py_error :=
  read_rows 0 (csv_reader (filter_comments file)).

End ReadTsv.

(** ** Page.convert_date (icspdfparser.py, lines 327-400) *)

(** [s.split(sep)] at every character satisfying [f]. *)
Fixpoint split_on_pred (f : ascii -> bool) (s : string) : list string :=
  match s with
  | EmptyString => [""]
  | String c s' =>
      if f c then "" :: split_on_pred f s'
      else match split_on_pred f s' with
           | [] => [String c ""]
           | x :: xs => String c x :: xs
           end
  end.

(** [s.split()]: the words between runs of whitespace. *)
Definition py_split (s : string) : list string :=
  filter (fun w => negb (String.eqb w "")) (split_on_pred is_space s).

Definition MONTHS_SHORT : list (string * Z) :=
  [("jan", 1); ("feb", 2); ("mrt", 3); ("apr", 4); ("mei", 5); ("jun", 6);
   ("jul", 7); ("aug", 8); ("sep", 9); ("okt", 10); ("nov", 11); ("dec", 12)]%Z.

Fixpoint assoc_get {A} (k : string) (l : list (string * A)) : result A :=
  match l with
  | [] => Err KeyError
  | (k', v) :: l' => if String.eqb k k' then Ok v else assoc_get k l'
  end.

(** [date.toordinal()], as the datetime module computes it: day 1 is
    0001-01-01. *)
Definition days_before_year (y : Z) : Z :=
  let y' := (y - 1)%Z in (y' * 365 + y' / 4 - y' / 100 + y' / 400)%Z.

Definition days_before_month (y m : Z) : Z :=
  (nth (Z.to_nat (m - 1)) [0; 31; 59; 90; 120; 151; 181; 212; 243; 273; 304; 334]%Z 0%Z
   + (if (2 <? m)%Z && is_leap y then 1 else 0))%Z.

Definition toordinal (d : date) : Z :=
  (days_before_year (year d) + days_before_month (year d) (month d) + day d)%Z.

(** [(a - b).days] for two dates. *)
Definition date_diff_days (a b : date) : Z := (toordinal a - toordinal b)%Z.

(** [Page.convert_date], with [self.date] passed as [page_date]. *)
Definition convert_date (page_date : date) (text : string) : result date :=
  match py_split text with
  | [dd; mmm] =>
      let* d := py_int dd in
      let* m := assoc_get mmm MONTHS_SHORT in
      let y1 := year page_date in
      let y2 := (year page_date - 1)%Z in
      let* dt1 := mk_date y1 m d in
      let* dt2 := mk_date y2 m d in
      let diff1 := date_diff_days page_date dt1 in
      let diff2 := date_diff_days page_date dt2 in
      if (Z.abs diff1 <? Z.abs diff2)%Z then Ok dt1 else Ok dt2
  | _ => Err ValueError
  end.

(** ** The ICS PDF pipeline (icspdfparser.py, lines 152-292 and 303-465) *)

Module Ics.

(** A table cell after conversion: a [datetime.date] or a [str]. *)
Inductive cell := CDate (d : date) | CStr (s : string).

Definition cell_eqb (a b : cell) : bool :=
  match a, b with
  | CDate x, CDate y => date_eqb x y
  | CStr x, CStr y => String.eqb x y
  | _, _ => false
  end.

(** Truth value of a cell: a date is true, a string when non-empty. *)
Definition truthy (c : cell) : bool :=
  match c with CDate _ => true | CStr s => nonempty s end.

(** [str(d)] for a date. *)
Definition date_isoformat (d : date) : string :=
  zpad 4 (year d) ++ "-" ++ zpad 2 (month d) ++ "-" ++ zpad 2 (day d).

(** ["{}".format(c)] *)
Definition fmt_cell (c : cell) : string :=
  match c with CDate d => date_isoformat d | CStr s => s end.

(** [a + b]: adding a date and a string raises [TypeError]. *)
Definition str_add (a b : cell) : result cell :=
  match a, b with
  | CStr x, CStr y => Ok (CStr (x ++ y))
  | _, _ => Err TypeError
  end.

(** [Page.COLUMNS]: the convert method of each column; the first column
    is 6 characters wide. *)
Inductive convert_method := convert_date_m | convert_amount_m | convert_bij_af_m.

Definition COLUMNS : list (option convert_method) :=
  [Some convert_date_m; Some convert_date_m; None; None; None; Some convert_amount_m; None;
   Some convert_amount_m; Some convert_bij_af_m].

Definition COLUMN0_max_length : nat := 6.

Fixpoint remove_char (o : ascii) (s : string) : string :=
  match s with
  | EmptyString => EmptyString
  | String c s' => if Ascii.eqb c o then remove_char o s' else String c (remove_char o s')
  end.

Definition convert_amount (text : string) : string :=
  replace_char ","%char "."%char (remove_char "."%char text).

Definition convert_bij_af (text : string) : result string :=
  assoc_get text [("Bij", "+"); ("Af", "-")].

(** [Page]: the fields the pipeline reads. [date] and [page_nr] are the
    ones the PDF reader sets on every page; [table] maps a vertical
    position to a row of raw cells. *)
Record Page := mkPage {
  page_date : date;
  page_nr : Z;
  table : list (Z * list string) }.

Fixpoint insert_desc (x : Z * list string) (l : list (Z * list string)) :=
  match l with
  | [] => [x]
  | y :: l' => if (fst y <? fst x)%Z then x :: l else y :: insert_desc x l'
  end.

(** [Page.table_as_list]: the rows by decreasing position. *)
Definition table_as_list (p : Page) : list (list string) :=
  map snd (fold_right insert_desc [] (table p)).

Definition convert_cell_text (p : Page) (text : string) (method : option convert_method)
    : result cell :=
  let text := strip text in
  if String.eqb text "" then Ok (CStr "")
  else match method with
       | None => Ok (CStr text)
       | Some convert_date_m => let* d := convert_date (page_date p) text in Ok (CDate d)
       | Some convert_amount_m => Ok (CStr (convert_amount text))
       | Some convert_bij_af_m => let* r := convert_bij_af text in Ok (CStr r)
       end.

(** The conversion of one raw row in Part 1. *)
Definition convert_row (p : Page) (raw_row : list string) : result (list cell) :=
  match raw_row with
  | [] => Err IndexError
  | c0 :: rest =>
      if (COLUMN0_max_length <? String.length c0)%nat then
        let* _ := py_assert (forallb (fun t => String.eqb (strip t) "") rest) in
        Ok [CStr (strip c0)]
      else map_result (fun cc => convert_cell_text p (fst cc) (snd cc)) (combine raw_row COLUMNS)
  end.

(** Part 1: the rows of all pages, converted, with the sanity checks on
    the page numbers and dates. *)
Fixpoint part1 (nr : Z) (statement_date : option date) (pages : list Page)
    : result (list (list cell)) :=
  match pages with
  | [] => Ok []
  | page :: pages' =>
      let* _ := py_assert (Z.eqb nr (page_nr page)) in
      let* sd :=
        if Z.eqb nr 1 then Ok (Some (page_date page))
        else let* _ := py_assert (match statement_date with
                                  | Some d => date_eqb d (page_date page)
                                  | None => false
                                  end) in
             Ok statement_date in
      let* rows := map_result (convert_row page) (table_as_list page) in
      let* rest := part1 (nr + 1)%Z sd pages' in
      Ok (rows ++ rest)%list
  end.

(** [group_related_rows]: the groups it yields, then the exception that
    ends it, if any. *)
Fixpoint group_rows (buffer : list (list cell)) (rows : list (list cell))
    : list (list (list cell)) * option py_error :=
  match rows with
  | [] => (if (0 <? length buffer)%nat then [buffer] else [], None)
  | row :: rows' =>
      match row with
      | [] => ([], Some IndexError)
      | c0 :: _ =>
          if match c0 with CDate _ => true | CStr s => prefix "Uw Card" s end then
            let '(gs, e) := group_rows [row] rows' in
            ((if (0 <? length buffer)%nat then [buffer] else []) ++ gs, e)%list
          else group_rows (buffer ++ [row])%list rows'
      end
  end.

Definition group_related_rows (table : list (list cell)) := group_rows [] table.

(** [re.match(r"Uw Card met als laatste vier cijfers ([0-9]+)", c).group(1)] *)
Definition card_number_of (c : cell) : result string :=
  match c with
  | CDate _ => Err TypeError
  | CStr s =>
      let pre := "Uw Card met als laatste vier cijfers" ++ " " in
      if prefix pre s then
        let ds := fst (span is_digit (str_drop (String.length pre) s)) in
        if nonempty ds then Ok ds else Err AttributeError
      else Err AttributeError
  end.

Section Pipeline.
(** [Money(amount, currency)] and [float(s)] from the libraries, over
    types of their own. *)
Variable money_t : Type.
Variable Money : cell -> cell -> result money_t.
Variable pyfloat : Type.
Variable py_float : string -> result pyfloat.

(** The ICS [Transaction] dataclass; its field [date] is [tdate] here. *)
Record Transaction := mkTransaction {
  card_number : option string;
  tdate : cell;
  descriptions : list cell;
  country_code : cell;
  foreign_amount : option money_t;
  exchange_rate : option pyfloat;
  amount : money_t }.

(** Both set or both unset. *)
Definition foreign_pair_ok (t : Transaction) : Prop :=
  match foreign_amount t, exchange_rate t with
  | Some _, Some _ | None, None => True
  | _, _ => False
  end.

Definition cell_at (l : list cell) (i : nat) : cell := nth i l (CStr "").

(** One iteration of Part 2's loop: the new card number and the
    transaction it yields, if any. [cell_at] is used only below length
    checks, so its default is never read. *)
Definition process_group (card : option string) (rows : list (list cell))
    : result (option string * option Transaction) :=
  let* _ := py_assert ((0 <? length rows)%nat && (length rows <=? 2)%nat) in
  let first := hd [] rows in
  let second := match rows with _ :: s :: _ => s | _ => [] end in
  let f := cell_at first in
  let g := cell_at second in
  if (length first =? 1)%nat && (length second =? 1)%nat then
    let* cn := card_number_of (f 0) in
    Ok (Some cn, None)
  else if (length first =? 9)%nat && ((length second =? 0)%nat || (length second =? 9)%nat) then
    if cell_eqb (f 5) (f 6) && cell_eqb (f 6) (CStr "") && (length second =? 0)%nat then
      let* a := str_add (f 8) (f 7) in
      let* amt := Money a (CStr "EUR") in
      Ok (card, Some (mkTransaction card (f 0) [f 2; f 3] (f 4) None None amt))
    else if truthy (f 5) && truthy (f 6) && (length second =? 9)%nat then
      let* _ := py_assert (cell_eqb (CStr "") (g 0) && cell_eqb (g 0) (g 1) && cell_eqb (g 1) (g 4)
                           && cell_eqb (g 4) (g 5) && cell_eqb (g 5) (g 6) && cell_eqb (g 6) (g 7)
                           && cell_eqb (g 7) (g 8)) in
      let* _ := py_assert (cell_eqb (g 2) (CStr ("Wisselkoers " ++ fmt_cell (f 6)))) in
      let* a := str_add (f 8) (f 7) in
      let* amt := Money a (CStr "EUR") in
      let* fa := Money (f 5) (f 6) in
      let* r := match g 3 with
                | CStr s => py_float (replace_char ","%char "."%char s)
                | CDate _ => Err AttributeError
                end in
      Ok (card, Some (mkTransaction card (f 0) [f 2; f 3] (f 4) (Some fa) (Some r) amt))
    else Err AssertionError
  else Err AssertionError.

Fixpoint part2 (card : option string) (groups : list (list (list cell)))
    : list Transaction * option py_error :=
  match groups with
  | [] => ([], None)
  | rows :: groups' =>
      match process_group card rows with
      | Err e => ([], Some e)
      | Ok (card', None) => part2 card' groups'
      | Ok (card', Some t) => let '(ts, e) := part2 card' groups' in (t :: ts, e)
      end
  end.

(** [get_transactions_from_pages]: the transactions it yields, then the
    exception that ends it, if any. Part 1 runs to the end before the
    first transaction is yielded. *)
Definition get_transactions_from_pages (pages : list Page) : list Transaction * option py_error :=
  match part1 1 None pages with
  | Err e => ([], Some e)
  | Ok tbl =>
      let '(groups, gerr) := group_related_rows tbl in
      let '(ts, err) := part2 None groups in
      (ts, match err with Some e => Some e | None => gerr end)
  end.

End Pipeline.

(** A string with neither a point nor a comma. *)
Definition no_point_comma (s : string) : bool :=
  all_chars (fun c => negb (Ascii.eqb c ".") && negb (Ascii.eqb c ",")) s.

(** The order of [table_as_list]: by decreasing position. *)
Definition pos_ge (a b : Z * list string) : Prop := (fst b <= fst a)%Z.

(** The test of [group_related_rows] on a row: its first cell is a date or
    starts with "Uw Card". *)
Definition starts_group (row : list cell) : bool :=
  match row with
  | [] => false
  | c0 :: _ => match c0 with CDate _ => true | CStr s => prefix "Uw Card" s end
  end.

(** A group as [group_related_rows] yields it: not empty, and no row but
    the first starts a group. *)
Definition group_ok (g : list (list cell)) : Prop :=
  g <> [] /\ Forall (fun r => starts_group r = false) (tl g).

(** A card number as [Transaction.card_number] may hold it: none, or a
    nonempty string of digits. *)
Definition card_ok (c : option string) : Prop :=
  match c with None => True | Some cn => nonempty cn = true /\ all_chars is_digit cn = true end.

(** The [max_length] of each of [Page.COLUMNS]. *)
Definition COLUMNS_max_length : list nat := [6; 6; 24; 13; 3; 8; 3; 8; 3].

(** [s.ljust(w, " ")] *)
Definition ljust (s : string) (w : nat) : string :=
  s ++ String.concat "" (repeat " " (w - String.length s)).

(** ** Page.table_as_string (icspdfparser.py, lines 466-521)

    One line of the table, before [prefix] and [suffix]. The width of
    column [i] is read only with [padding], so only then does a row longer
    than [COLUMNS] raise [IndexError]. *)
Definition table_line (sep : string) (padding : bool) (row : list string) : result string :=
  let total_width := (list_sum COLUMNS_max_length + length COLUMNS_max_length - 1)%nat in
  match row with
  | [] => Err IndexError
  | c0 :: rest =>
      if (COLUMN0_max_length <? String.length c0)%nat then
        let* _ := py_assert (forallb (fun t => String.eqb t "") rest) in
        Ok (ljust c0 (if padding then total_width else 0))
      else
        let* cells :=
          map_result (fun ic =>
                        if padding then
                          match nth_error COLUMNS_max_length (fst ic) with
                          | Some w => Ok (ljust (snd ic) w)
                          | None => Err IndexError
                          end
                        else Ok (ljust (snd ic) 0))
                     (combine (seq 0 (length row)) row) in
        Ok (String.concat sep cells)
  end.

(** [Page.table_as_string]: the lines joined by newlines. *)
Definition table_as_string (p : Page) (sep prefix suffix : string) (padding : bool) : result string :=
  let* lines := map_result (table_line sep padding) (table_as_list p) in
  Ok (String.concat (String newline "") (map (fun line => prefix ++ line ++ suffix) lines)).


(** The page of the docstring's examples. *)
Definition doctest_page : Page :=
  mkPage (mkdate 2023 1 1) 1
    [(789, ["09 dec"; "09 dec"; "GEINCASSEERD VORIG SALDO"; ""; ""; ""; ""; "500,00"; "Bij"]);
     (678, ["Uw Card met als laatste vier cijfers 1234"; ""; ""; ""; ""; ""; ""; ""; ""]);
     (567, ["J SMITH VAN DE FOOBAR"; ""; ""; ""; ""; ""; ""; ""; ""]);
     (456, ["02 jan"; "03 jan"; "Description here"; "Foobar"; "NLD"; ""; ""; "100,00"; "Af"]);
     (345, ["03 jan"; "03 jan"; "Foreign purchase"; "Whatever"; "USA"; "6,05"; "USD"; "5,59"; "Af"]);
     (234, [""; ""; "Wisselkoers USD"; "1,08229"; ""; ""; ""; ""; ""]);
     (123, ["04 jan"; "04 jan"; "Blah blah blah"; "Fizzbuzz"; "LUX"; ""; ""; "6,99"; "Af"])]%Z.

End Ics.

Definition slash_ok (ps : list (string * string)) : bool :=
  forallb (fun tv => fullmatch_any slash_tags (fst tv) && value_ok (snd tv)) ps.

Definition lookup_step (k : string) (acc : option string) (kv : string * string) :=
  if String.eqb k (fst kv) then Some (snd kv) else acc.

Definition last_step (t : string) (acc : option string) (tv : string * string) :=
  if String.eqb (fst tv) t then Some (rstrip (snd tv)) else acc.

Definition all_tags (l : list string) : bool := forallb (fullmatch_any slash_tags) l.

(** [k] zeros, and the separators [parse_nr_datetime] splits on. *)
Definition zeros (k : nat) : string := String.concat "" (repeat "0" k).

Definition nr_seps : list ascii := ["-"; ":"; "."; "/"]%char.

(** ** batched (tsvparser.py, lines 17-31)

    The fallback for Python before 3.12, as a list of its batches: the
    [ValueError] on [n < 1] is raised when the first batch is asked for.
    Each round takes [islice(it, n)], at most [n] items, and the loop ends
    on the first empty batch; the fuel, the length of the list, is never
    short, as each round takes at least one item. *)
Fixpoint batched_fuel {A} (fuel n : nat) (l : list A) : list (list A) :=
  match fuel with
  | O => []
  | S f =>
      match l with
      | [] => []
      | _ => firstn n l :: batched_fuel f n (skipn n l)
      end
  end.

Definition batched {A} (l : list A) (n : Z) : result (list (list A)) :=
  if (n <? 1)%Z then Err ValueError
  else Ok (batched_fuel (length l) (Z.to_nat n) l).

(** ** Transaction.desc (tsvparser.py, lines 119-121 and 183-203)

    The property caches the parsed description. Strings are objects: a
    string object is named by a number [o], its text is [content o], and
    [is] compares the numbers. The cache is the pair of attributes
    [_desc_str] and [_desc], both [None] after [__post_init__]; [desc]
    returns [self._desc], a dict or [None]. *)
Record desc_cache := mkDescCache { _desc_str : option nat; _desc : option pydict }.

Definition desc_init : desc_cache := mkDescCache None None.

(** [self._desc_str is self.description] *)
Definition is_obj (a : option nat) (b : nat) : bool :=
  match a with Some o => Nat.eqb o b | None => false end.

Definition desc (content : nat -> string) (st : desc_cache) (description : nat)
    : result (option pydict) * desc_cache :=
  if is_obj (_desc_str st) description then (Ok (_desc st), st)
  else
    let st1 := mkDescCache (Some description) (_desc st) in
    match parse_description (content description) with
    | Ok d => (Ok (Some d), mkDescCache (Some description) (Some d))
    | Err e => (Err e, st1)
    end.

(** The cache holds the parse of the string object it names. *)
Definition cache_ok (content : nat -> string) (st : desc_cache) : Prop :=
  forall o, _desc_str st = Some o -> exists d, _desc st = Some d /\ parse_description (content o) = Ok d.

(** * Proofs *)

(** ** String lemmas *)

Lemma slen_app : forall x y, String.length (x ++ y) = String.length x + String.length y.
Proof. induction x; simpl; auto. Qed.

Lemma get_none_len : forall n s, String.length s <= n -> get n s = None.
Proof.
  induction n; destruct s; simpl; intros H; auto; try lia.
  apply IHn; lia.
Qed.

Lemma get_app : forall x y, get (String.length x) (x ++ y) = get 0 y.
Proof. induction x; simpl; auto. Qed.

Lemma str_take_app : forall x y, str_take (String.length x) (x ++ y) = x.
Proof. induction x; simpl; intros; [reflexivity | now rewrite IHx]. Qed.

Lemma str_drop_app : forall x y, str_drop (String.length x) (x ++ y) = y.
Proof. induction x; simpl; auto. Qed.

Lemma get_app_n : forall n x y, String.length x = n -> get n (x ++ y) = get 0 y.
Proof. intros n x y <-. apply get_app. Qed.

Lemma str_take_app_n : forall n x y, String.length x = n -> str_take n (x ++ y) = x.
Proof. intros n x y <-. apply str_take_app. Qed.

Lemma str_drop_app_n : forall n x y, String.length x = n -> str_drop n (x ++ y) = y.
Proof. intros n x y <-. apply str_drop_app. Qed.

Lemma str_take_short : forall n s, String.length s <= n -> str_take n s = s.
Proof.
  induction n; destruct s; simpl; intros; auto; try lia.
  rewrite IHn; auto; lia.
Qed.

Lemma str_drop_short : forall n s, String.length s <= n -> str_drop n s = "".
Proof.
  induction n; destruct s; simpl; intros; auto; try lia.
  apply IHn; lia.
Qed.

Lemma str_take_drop : forall n s, str_take n s ++ str_drop n s = s.
Proof. induction n; destruct s; simpl; auto. now rewrite IHn. Qed.

Lemma str_take_length : forall n s, n <= String.length s -> String.length (str_take n s) = n.
Proof.
  induction n; destruct s; simpl; intros; auto; try lia.
  rewrite IHn; auto; lia.
Qed.

Lemma str_take_length_le : forall n s, String.length (str_take n s) <= n.
Proof. induction n; destruct s; simpl; auto; try lia. specialize (IHn s). lia. Qed.

Lemma str_drop_length : forall n s, String.length (str_drop n s) = String.length s - n.
Proof. induction n; destruct s; simpl; auto. Qed.

Lemma rstrip_app : forall x y,
  rstrip (x ++ y) = match rstrip y with EmptyString => rstrip x | r => x ++ r end.
Proof.
  induction x as [|a x IH]; intros y; simpl.
  - destruct (rstrip y); reflexivity.
  - rewrite IH. destruct (rstrip y) eqn:E; [reflexivity|].
    destruct x; reflexivity.
Qed.

Lemma rstrip_length : forall s, String.length (rstrip s) <= String.length s.
Proof.
  induction s as [|a s IH]; simpl; auto.
  destruct (rstrip s) eqn:E; simpl in *; [destruct (is_space a); simpl|]; lia.
Qed.

Lemma no_newline_app : forall x y,
  no_newline (x ++ y) = no_newline x && no_newline y.
Proof.
  induction x; simpl; intros; auto. rewrite IHx. now rewrite andb_assoc.
Qed.

Lemma no_newline_take : forall n s, no_newline s = true -> no_newline (str_take n s) = true.
Proof.
  induction n; destruct s; simpl; auto.
  intros H. apply andb_prop in H as [H1 H2]. rewrite H1, IHn; auto.
Qed.

Lemma no_newline_drop : forall n s, no_newline s = true -> no_newline (str_drop n s) = true.
Proof.
  induction n; destruct s; simpl; auto.
  intros H. apply andb_prop in H as [_ H2]. auto.
Qed.

(** ** The display-line cutting *)

Lemma chunks_fuel_enough : forall n f1 f2 s, 0 < n ->
  String.length s <= f1 -> String.length s <= f2 ->
  chunks_fuel f1 n s = chunks_fuel f2 n s.
Proof.
  intros n f1; induction f1 as [|f1 IH]; intros f2 s Hn H1 H2.
  - destruct s; simpl in H1; [destruct f2; reflexivity | lia].
  - destruct f2 as [|f2]; [destruct s; simpl in H2; [reflexivity | lia]|].
    destruct s as [|a s]; [reflexivity|].
    cbn [chunks_fuel]. f_equal. apply IH; auto;
    rewrite str_drop_length; simpl String.length in *; lia.
Qed.

Lemma chunks64_nil : chunks64 "" = [].
Proof. reflexivity. Qed.

Lemma chunks64_cons : forall s, s <> "" ->
  chunks64 s = str_take 64 s :: chunks64 (str_drop 64 s).
Proof.
  intros [|a s] H; [congruence|].
  unfold chunks64. simpl String.length at 1. cbn [chunks_fuel]. f_equal.
  apply chunks_fuel_enough; try lia. rewrite str_drop_length. simpl; lia.
Qed.

Lemma chunks64_short : forall s, s <> "" -> String.length s <= 64 -> chunks64 s = [s].
Proof.
  intros s Hs Hl. rewrite chunks64_cons by auto.
  rewrite str_take_short, str_drop_short by auto. reflexivity.
Qed.

Lemma concat_chunks_short : forall s, String.length s <= 64 ->
  String.concat " " (chunks64 s) = s.
Proof.
  intros s Hl. destruct s as [|a s]; [reflexivity|].
  rewrite chunks64_short by (auto; discriminate). reflexivity.
Qed.

Lemma chunks64_nonempty : forall s, s <> "" -> String.concat " " (chunks64 s) <> "".
Proof.
  intros s Hs. rewrite chunks64_cons by auto.
  destruct s as [|a s]; [congruence|]. simpl str_take.
  destruct (chunks64 (str_drop 64 (String a s))); simpl; discriminate.
Qed.

Lemma length_wf_ind : forall (P : string -> Prop),
  (forall s, (forall t, String.length t < String.length s -> P t) -> P s) ->
  forall s, P s.
Proof.
  intros P H s. induction s as [s IH] using
    (well_founded_induction (Wf_nat.well_founded_ltof _ String.length)).
  apply H. exact IH.
Qed.

(** Cutting into display lines commutes with [rstrip]. *)
Lemma rstrip_concat_chunks : forall r,
  rstrip (String.concat " " (chunks64 r)) = String.concat " " (chunks64 (rstrip r)).
Proof.
  induction r as [r IH] using length_wf_ind.
  destruct (Nat.le_gt_cases (String.length r) 64) as [Hs|Hl].
  - rewrite concat_chunks_short by auto.
    rewrite concat_chunks_short; auto. pose proof (rstrip_length r); lia.
  - pose proof (str_take_drop 64 r) as Hr.
    set (a := str_take 64 r) in *. set (b := str_drop 64 r) in *.
    assert (Ha : String.length a = 64) by (apply str_take_length; lia).
    assert (Hb : b <> "").
    { intros E. rewrite <- Hr, slen_app, E in Hl. simpl in Hl. lia. }
    assert (Hlb : String.length b < String.length r).
    { unfold b. rewrite str_drop_length. lia. }
    rewrite chunks64_cons by (destruct r; simpl in Hl; [lia|discriminate]).
    fold a b.
    destruct (chunks64 b) as [|c l] eqn:Ecb.
    { exfalso. apply (chunks64_nonempty b Hb). now rewrite Ecb. }
    change (String.concat " " (a :: c :: l)) with (a ++ " " ++ String.concat " " (c :: l)).
    rewrite <- Ecb. rewrite rstrip_app, rstrip_app, (IH b Hlb).
    rewrite <- Hr, (rstrip_app a b).
    destruct (rstrip b) as [|d rb] eqn:Erb.
    + simpl. rewrite concat_chunks_short; auto.
      pose proof (rstrip_length a); lia.
    + rewrite (chunks64_cons (a ++ String d rb)) by (destruct a; simpl in Ha; [lia|discriminate]).
      rewrite <- Ha. rewrite str_take_app, str_drop_app.
      assert (Hne := chunks64_nonempty (String d rb) ltac:(discriminate)).
      destruct (String.concat " " (chunks64 (String d rb))) as [|x y] eqn:Ec;
        [congruence|].
      change (a ++ " " ++ String x y = String.concat " " (a :: chunks64 (String d rb))).
      rewrite <- Ec.
      destruct (chunks64 (String d rb)) as [|e l'] eqn:Ecl; [discriminate|].
      reflexivity.
Qed.

Lemma str_app_empty_r : forall x, x ++ "" = x.
Proof. induction x; simpl; congruence. Qed.

Lemma str_app_assoc : forall x y z, x ++ (y ++ z) = (x ++ y) ++ z.
Proof. induction x; simpl; congruence. Qed.

Lemma prefix_slash_cons : forall c x y, prefix "/" (String c x) = prefix "/" (String c y).
Proof. intros. cbn [prefix]. destruct (ascii_dec "/"%char c); destruct x, y; reflexivity. Qed.

(** ** The scan of [re.findall] *)

Lemma take_dots_app : forall n x y, String.length x = n -> no_newline x = true ->
  take_dots n (x ++ y) = (x, y).
Proof.
  induction n; destruct x as [|a x]; simpl; intros y Hl Hn; try discriminate; auto.
  apply andb_prop in Hn as [H1 H2]. apply negb_true_iff in H1. rewrite H1.
  rewrite IHn; auto.
Qed.

Lemma take_dots_short : forall n x, String.length x <= n -> no_newline x = true ->
  take_dots n x = (x, "").
Proof.
  induction n; destruct x as [|a x]; simpl; intros Hl Hn; auto; try lia.
  apply andb_prop in Hn as [H1 H2]. apply negb_true_iff in H1. rewrite H1.
  rewrite IHn; auto; lia.
Qed.

Lemma take_dots_split : forall n s m rest, take_dots n s = (m, rest) -> s = m ++ rest.
Proof.
  induction n; destruct s as [|a s]; simpl; intros m rest E; try (inversion E; reflexivity).
  destruct (Ascii.eqb a newline); [inversion E; reflexivity|].
  destruct (take_dots n s) as [m0 r0] eqn:E0. inversion E; subst.
  simpl. f_equal. eauto.
Qed.

Lemma opt_space_split : forall sp m rest m' rest',
  opt_space sp m rest = (m', rest') -> m ++ rest = m' ++ rest'.
Proof.
  intros [|] m [|c r] m' rest' E; simpl in E; try (inversion E; reflexivity).
  destruct (Ascii.eqb c " "%char) eqn:Ec; inversion E; subst; [|reflexivity].
  apply Ascii.eqb_eq in Ec; subst. rewrite <- str_app_assoc. reflexivity.
Qed.

Lemma opt_space_rest_le : forall sp m rest m' rest',
  opt_space sp m rest = (m', rest') -> String.length rest' <= String.length rest.
Proof.
  intros [|] m [|c r] m' rest' E; simpl in E; try (inversion E; subst; simpl; lia).
  destruct (Ascii.eqb c " "%char); inversion E; subst; simpl; lia.
Qed.

Lemma findall_fuel_enough : forall n sp f1 f2 s, 0 < n ->
  String.length s <= f1 -> String.length s <= f2 ->
  findall_fuel f1 n sp s = findall_fuel f2 n sp s.
Proof.
  intros n sp f1; induction f1 as [|f1 IH]; intros f2 s Hn H1 H2.
  - destruct s; simpl in H1; [destruct f2; reflexivity | lia].
  - destruct f2 as [|f2]; [destruct s; simpl in H2; [reflexivity | lia]|].
    destruct s as [|a s]; [reflexivity|].
    cbn [findall_fuel]. simpl String.length in *.
    destruct (Ascii.eqb a newline) eqn:Ea; [apply IH; lia|].
    destruct n as [|n]; [lia|].
    cbn [take_dots]. rewrite Ea.
    destruct (take_dots n s) as [m0 r0] eqn:E0.
    destruct (opt_space sp (String a m0) r0) as [m' rest'] eqn:Eo.
    f_equal. apply take_dots_split in E0. apply opt_space_rest_le in Eo.
    assert (String.length r0 <= String.length s) by (rewrite E0, slen_app; lia).
    apply IH; lia.
Qed.

Lemma findall_step : forall n sp c s', 0 < n -> Ascii.eqb c newline = false ->
  findall_dots n sp (String c s') =
  (let (m, rest) := take_dots n (String c s') in
   let (m', rest') := opt_space sp m rest in
   m' :: findall_dots n sp rest').
Proof.
  intros n sp c s' Hn Hc. unfold findall_dots. simpl String.length at 1.
  cbn [findall_fuel]. rewrite Hc.
  destruct (take_dots n (String c s')) as [m rest] eqn:Et.
  destruct (opt_space sp m rest) as [m' rest'] eqn:Eo.
  f_equal. apply findall_fuel_enough; auto.
  apply opt_space_rest_le in Eo.
  destruct n as [|n]; [lia|]. cbn [take_dots] in Et. rewrite Hc in Et.
  destruct (take_dots n s') as [m0 r0] eqn:E0. inversion Et; subst.
  apply take_dots_split in E0.
  assert (String.length rest <= String.length s') by (rewrite E0, slen_app; lia).
  simpl. lia.
Qed.

Lemma findall_step_app : forall n sp x y, 0 < n -> x <> "" ->
  no_newline x = true -> String.length x = n ->
  findall_dots n sp (x ++ y) =
  (let (m', rest') := opt_space sp x y in m' :: findall_dots n sp rest').
Proof.
  intros n sp [|c x'] y Hn Hx Hnl Hl; [congruence|].
  pose proof Hnl as Hc. simpl in Hc. apply andb_prop in Hc as [Hc _].
  apply negb_true_iff in Hc.
  change (String c x' ++ y) with (String c (x' ++ y)).
  rewrite findall_step by auto.
  change (String c (x' ++ y)) with (String c x' ++ y).
  rewrite take_dots_app by auto. reflexivity.
Qed.

(** Facts about the cut of a string longer than one display line. *)
Lemma chunks64_long : forall s, 64 < String.length s ->
  exists a b c l,
    s = a ++ b /\ String.length a = 64 /\ b <> "" /\
    String.length b < String.length s /\
    chunks64 s = a :: chunks64 b /\ chunks64 b = c :: l.
Proof.
  intros s Hl. exists (str_take 64 s), (str_drop 64 s).
  pose proof (str_take_drop 64 s) as Hr.
  assert (Ha : String.length (str_take 64 s) = 64) by (apply str_take_length; lia).
  assert (Hb : str_drop 64 s <> "").
  { intros E. rewrite <- Hr, slen_app, E, Ha in Hl. cbn in Hl. lia. }
  destruct (chunks64 (str_drop 64 s)) as [|c l] eqn:Ecb.
  { exfalso. apply (chunks64_nonempty _ Hb). now rewrite Ecb. }
  exists c, l. repeat split; auto.
  - rewrite str_drop_length. lia.
  - rewrite chunks64_cons, Ecb; [reflexivity|]. destruct s; simpl in Hl; [lia|discriminate].
Qed.

Lemma findall_chunks : forall s, no_newline s = true ->
  findall_dots 64 true (String.concat " " (chunks64 s)) = mark_lines (chunks64 s).
Proof.
  induction s as [s IH] using length_wf_ind. intros Hn.
  destruct s as [|c0 s0] eqn:Es; [reflexivity|]. rewrite <- Es in *.
  assert (Hne : s <> "") by (rewrite Es; discriminate).
  destruct (Nat.le_gt_cases (String.length s) 64) as [Hs|Hl].
  - rewrite chunks64_short by auto. simpl String.concat.
    pose proof Hn as Hn'. rewrite Es in Hn'. simpl in Hn'.
    apply andb_prop in Hn' as [Hc _]. apply negb_true_iff in Hc.
    rewrite Es. rewrite findall_step by (auto; lia).
    rewrite <- Es. rewrite take_dots_short by auto. reflexivity.
  - destruct (chunks64_long s Hl) as (a & b & c & l & Hab & Ha & Hb & Hlb & E1 & E2).
    rewrite E1, E2.
    change (String.concat " " (a :: c :: l)) with (a ++ " " ++ String.concat " " (c :: l)).
    rewrite <- E2.
    assert (Hna : no_newline a = true /\ no_newline b = true).
    { rewrite Hab, no_newline_app in Hn. apply andb_prop in Hn. exact Hn. }
    destruct Hna as [Hna Hnb].
    rewrite findall_step_app by first [lia | assumption | (destruct a; simpl in Ha; [lia|discriminate])].
    simpl opt_space. cbv beta iota. rewrite (IH b Hlb Hnb), E2. reflexivity.
Qed.

Lemma mark_lines_ok : forall s,
  forallb (fun p => (String.length p =? 65)%nat) (removelast (mark_lines (chunks64 s))) = true.
Proof.
  induction s as [s IH] using length_wf_ind.
  destruct s as [|c0 s0] eqn:Es; [reflexivity|]. rewrite <- Es in *.
  destruct (Nat.le_gt_cases (String.length s) 64) as [Hs|Hl].
  - rewrite chunks64_short by (auto; rewrite Es; discriminate). reflexivity.
  - destruct (chunks64_long s Hl) as (a & b & c & l & Hab & Ha & Hb & Hlb & E1 & E2).
    specialize (IH b Hlb). rewrite E2 in IH. rewrite E1, E2.
    change (mark_lines (a :: c :: l)) with ((a ++ " ") :: mark_lines (c :: l)).
    destruct (mark_lines (c :: l)) as [|m ms] eqn:Em; [destruct l; discriminate|].
    change (removelast ((a ++ " ") :: m :: ms)) with ((a ++ " ") :: removelast (m :: ms)).
    change (forallb ?f (?x :: ?l)) with (f x && forallb f l).
    rewrite IH, slen_app, Ha. reflexivity.
Qed.

Lemma mark_lines_take : forall s,
  String.concat "" (map (str_take 64) (mark_lines (chunks64 s))) = s.
Proof.
  induction s as [s IH] using length_wf_ind.
  destruct s as [|c0 s0] eqn:Es; [reflexivity|]. rewrite <- Es in *.
  destruct (Nat.le_gt_cases (String.length s) 64) as [Hs|Hl].
  - rewrite chunks64_short by (auto; rewrite Es; discriminate).
    change (str_take 64 s = s). apply str_take_short; auto.
  - destruct (chunks64_long s Hl) as (a & b & c & l & Hab & Ha & Hb & Hlb & E1 & E2).
    specialize (IH b Hlb). rewrite E2 in IH. rewrite E1, E2.
    change (mark_lines (a :: c :: l)) with ((a ++ " ") :: mark_lines (c :: l)).
    destruct (mark_lines (c :: l)) as [|m ms] eqn:Em; [destruct l; discriminate|].
    change (String.concat "" (map (str_take 64) ((a ++ " ") :: m :: ms)))
      with (str_take 64 (a ++ " ") ++ "" ++ String.concat "" (map (str_take 64) (m :: ms))).
    rewrite IH, <- Ha, str_take_app. simpl. now rewrite Hab.
Qed.

Example parse_description_doctest_0 :
  match test_it "/TRTP/SEPA Incasso algemeen doorlopend/CSID/NL00ZZZ123456789012/NAME/Albert Heijn B.V./MARF/AH012345678901234567890123456789012/REMI/Foobarment Foobar Fobar - AB012345678/IBAN/NL00INGB0123456789/BIC/INGBNL2A/EREF/AB0123456789" with
  | Ok d => dict_same d [("BIC", "INGBNL2A"); ("IBAN", "NL00INGB0123456789"); ("Incassant", "NL00ZZZ123456789012"); ("Kenmerk", "AB0123456789"); ("Machtiging", "AH012345678901234567890123456789012"); ("Naam", "Albert Heijn B.V."); ("Omschrijving", "Foobarment Foobar Fobar - AB012345678"); ("type", "SEPA Incasso algemeen doorlopend")]
  | Err _ => false
  end = true.
Proof. vm_compute. reflexivity. Qed.

Example parse_description_doctest_1 :
  match test_it "/TRTP/SEPA OVERBOEKING/IBAN/NL01INGB0123456789/BIC/INGBNL2A/NAME/Foobar-Fizzbuzz/REMI/EXCNR: 012345678 AB 1.234,56 CD 1.234,56 EFG 12,34. Na het einde van de maand vind je de specificatie op foo.bar.nl/EREF/012345678901/ORDP//ID/99999999               " with
  | Ok d => dict_same d [("BIC", "INGBNL2A"); ("IBAN", "NL01INGB0123456789"); ("Kenmerk", "012345678901"); ("Naam", "Foobar-Fizzbuzz"); ("Omschrijving", "EXCNR: 012345678 AB 1.234,56 CD 1.234,56 EFG 12,34. Na het einde van de maand vind je de specificatie op foo.bar.nl"); ("type", "SEPA OVERBOEKING")]
  | Err _ => false
  end = true.
Proof. vm_compute. reflexivity. Qed.

Example parse_description_doctest_2 :
  match test_it "/TRTP/iDEAL/IBAN/NL01ABNA0123456789/BIC/ABNANL2A/NAME/Tikkie Zakelijk/REMI/B20230101X00ABCD012345678901 0123456789012345 Fizzbuzz Foo Bar NL02ABNA1234567890 Tikkie Zakelijk/EREF/01-01-2023 13:37 0123456789012345                                               " with
  | Ok d => dict_same d [("BIC", "ABNANL2A"); ("IBAN", "NL01ABNA0123456789"); ("Kenmerk", "01-01-2023 13:37 0123456789012345"); ("Naam", "Tikkie Zakelijk"); ("Omschrijving", "B20230101X00ABCD012345678901 0123456789012345 Fizzbuzz Foo Bar NL02ABNA1234567890 Tikkie Zakelijk"); ("type", "SEPA iDEAL")]
  | Err _ => false
  end = true.
Proof. vm_compute. reflexivity. Qed.

Example parse_description_doctest_3 :
  match test_it "ABN AMRO Bank N.V.               Credit Card                 1,70CreditCard(2)               1,00 Basic Package               1,70Debit card                  1,40 Debit card                  1,40" with
  | Ok d => dict_same d [("Basic Package", "1.70"); ("Credit Card", "1.70"); ("CreditCard(2)", "1.00"); ("Debit card", "1.40"); ("type", "ABN AMRO Bank N.V.")]
  | Err _ => false
  end = true.
Proof. vm_compute. reflexivity. Qed.

Example parse_description_doctest_4 :
  match test_it "ABN AMRO Bank N.V.               CreditCard                  1,70Cr.CardExtra                1,00 Basic Package               2,95Debit card                  1,40                                 " with
  | Ok d => dict_same d [("Basic Package", "2.95"); ("Cr.CardExtra", "1.00"); ("CreditCard", "1.70"); ("Debit card", "1.40"); ("type", "ABN AMRO Bank N.V.")]
  | Err _ => false
  end = true.
Proof. vm_compute. reflexivity. Qed.

Example parse_description_doctest_5 :
  match test_it "Basic interest                   over the period from            31-12-2022 to 31-12-2023         For interest rates please visit www.abnamro.nl/rente                                             " with
  | Ok d => dict_same d [("description", "over the period from 31-12-2022 to 31-12-2023 For interest rates please visit www.abnamro.nl/rente"); ("type", "Basic interest")]
  | Err _ => false
  end = true.
Proof. vm_compute. reflexivity. Qed.

Example parse_description_doctest_6 :
  match test_it "CREDIT INTEREST                                                  " with
  | Ok d => dict_same d [("description", ""); ("type", "Basic interest")]
  | Err _ => false
  end = true.
Proof. vm_compute. reflexivity. Qed.

Example parse_description_doctest_7 :
  match test_it "Maandpremie juni 2021            van verzekering 123456789       " with
  | Ok d => dict_same d [("description", "Maandpremie juni 2021 van verzekering 123456789"); ("type", "legacy insurance")]
  | Err _ => false
  end = true.
Proof. vm_compute. reflexivity. Qed.

Example parse_description_doctest_8 :
  match test_it "Uitbetaling pakketkorting        van verzekering 123456789       " with
  | Ok d => dict_same d [("description", "Uitbetaling pakketkorting van verzekering 123456789"); ("type", "legacy insurance")]
  | Err _ => false
  end = true.
Proof. vm_compute. reflexivity. Qed.

Example parse_description_doctest_9 :
  match test_it "Uitbetaling pakketkorting        van verzekering 123456789       " with
  | Ok d => dict_same d [("description", "Uitbetaling pakketkorting van verzekering 123456789"); ("type", "legacy insurance")]
  | Err _ => false
  end = true.
Proof. vm_compute. reflexivity. Qed.

Example parse_description_doctest_10 :
  match test_it "PAKKETVERZ. POLISNR.   123456789 MAANDPREMIE 02-17               " with
  | Ok d => dict_same d [("description", "PAKKETVERZ. POLISNR. 123456789 MAANDPREMIE 02-17"); ("type", "legacy insurance")]
  | Err _ => false
  end = true.
Proof. vm_compute. reflexivity. Qed.

Example parse_description_doctest_11 :
  match test_it "PAKKETVERZ. POLISNR.   123456789 VERZEKERINGSBEWIJS DD 13-02-17  " with
  | Ok d => dict_same d [("description", "PAKKETVERZ. POLISNR. 123456789 VERZEKERINGSBEWIJS DD 13-02-17"); ("type", "legacy insurance")]
  | Err _ => false
  end = true.
Proof. vm_compute. reflexivity. Qed.

Example parse_description_doctest_12 :
  match test_it "SEPA iDEAL                       IBAN: NL01RABO0123456789        BIC: RABONL2U                    Naam: Next to Pay via Mollie    Omschrijving: M01234567ABCDE0F 0 123456789012345 Foobar Pizza Delivery Order 123456               Kenmerk: 31-12-2023 17:01 0123456789012345                                                       " with
  | Ok d => dict_same d [("BIC", "RABONL2U"); ("IBAN", "NL01RABO0123456789"); ("Kenmerk", "31-12-2023 17:01 0123456789012345"); ("Naam", "Next to Pay via Mollie"); ("Omschrijving", "M01234567ABCDE0F 0123456789012345 Foobar Pizza Delivery Order 123456"); ("type", "SEPA iDEAL")]
  | Err _ => false
  end = true.
Proof. vm_compute. reflexivity. Qed.

Example parse_description_doctest_13 :
  match test_it "SEPA Incasso algemeen doorlopend Incassant: NL01ZZZ012345678901  Naam: FOO BAR FIZZ BUZZ FOOBAR   Machtiging: 012345678901        Omschrijving: Factuur: 012345678 901                             IBAN: NL01ABNA0123456789         Kenmerk: 012345678901           Voor: J SMITH VAN DE FOOBAR CJ                                    " with
  | Ok d => dict_same d [("IBAN", "NL01ABNA0123456789"); ("Incassant", "NL01ZZZ012345678901"); ("Kenmerk", "012345678901"); ("Machtiging", "012345678901"); ("Naam", "FOO BAR FIZZ BUZZ FOOBAR"); ("Omschrijving", "Factuur: 012345678901"); ("Voor", "J SMITH VAN DE FOOBAR CJ"); ("type", "SEPA Incasso algemeen doorlopend")]
  | Err _ => false
  end = true.
Proof. vm_compute. reflexivity. Qed.

Example parse_description_doctest_14 :
  match test_it "SEPA Incasso algemeen doorlopend Incassant: GB98NFXSDDCHAS01234567890123                          Naam: NETFLIX INTERNATIONAL B.V.Machtiging: DD-01234567890123456 7-890-123456                    Omschrijving: Netflix Monthly Su bscription                      IBAN: LU012345678901234567                                       " with
  | Ok d => dict_same d [("IBAN", "LU012345678901234567"); ("Incassant", "GB98NFXSDDCHAS01234567890123"); ("Machtiging", "DD-012345678901234567-890-123456"); ("Naam", "NETFLIX INTERNATIONAL B.V."); ("Omschrijving", "Netflix Monthly Subscription"); ("type", "SEPA Incasso algemeen doorlopend")]
  | Err _ => false
  end = true.
Proof. vm_compute. reflexivity. Qed.

Example parse_description_doctest_15 :
  match test_it "SEPA Incasso algemeen eenmalig   Incassant: NL01ZZZ012345678901  Naam: Association Foobar fiz BUZ Z by Fobar                      Machtiging: A0B1C2D3E4F5G6H7     Omschrijving: Association Foobar fiz BUZZ 01234567 89ab cdef 012 3 456789abcdef:01234567 89ab cdef 0123 456789abcdef                                              " with
  | Ok d => dict_same d [("Incassant", "NL01ZZZ012345678901"); ("Machtiging", "A0B1C2D3E4F5G6H7"); ("Naam", "Association Foobar fiz BUZZ by Fobar"); ("Omschrijving", "Association Foobar fiz BUZZ 01234567 89ab cdef 0123 456789abcdef:01234567 89ab cdef 0123 456789abcdef"); ("type", "SEPA Incasso algemeen eenmalig")]
  | Err _ => false
  end = true.
Proof. vm_compute. reflexivity. Qed.

Example parse_description_doctest_16 :
  match test_it "SEPA Overboeking                 IBAN: NL01ABNA0123456789        BIC: ABNANL2A                    Naam: J SMITH VAN DE FOOBAR CJ  " with
  | Ok d => dict_same d [("BIC", "ABNANL2A"); ("IBAN", "NL01ABNA0123456789"); ("Naam", "J SMITH VAN DE FOOBAR CJ"); ("type", "SEPA Overboeking")]
  | Err _ => false
  end = true.
Proof. vm_compute. reflexivity. Qed.

Example parse_description_doctest_17 :
  match test_it "SEPA Overboeking                 IBAN: NL01RABO0123456789        BIC: RABONL2U                    Naam: Praktijk Foobar           Omschrijving: nota nr 0123456789 0 - Fizzbuzz                    " with
  | Ok d => dict_same d [("BIC", "RABONL2U"); ("IBAN", "NL01RABO0123456789"); ("Naam", "Praktijk Foobar"); ("Omschrijving", "nota nr 01234567890 - Fizzbuzz"); ("type", "SEPA Overboeking")]
  | Err _ => false
  end = true.
Proof. vm_compute. reflexivity. Qed.

Example parse_description_doctest_18 :
  match test_it "SEPA Overboeking                 IBAN: NL01INGB2345678901        BIC: INGBNL2A                    Naam: FOO                       Omschrijving: P00001000000000001 23456789012345 FOO/BAR 01-01-23/31-01-23 Foobar                  Kenmerk: AB01 234567CD-01234567890                                                               " with
  | Ok d => dict_same d [("BIC", "INGBNL2A"); ("IBAN", "NL01INGB2345678901"); ("Kenmerk", "AB01 234567CD-01234567890"); ("Naam", "FOO"); ("Omschrijving", "P0000100000000000123456789012345 FOO/BAR 01-01-23/31-01-23 Foobar"); ("type", "SEPA Overboeking")]
  | Err _ => false
  end = true.
Proof. vm_compute. reflexivity. Qed.

Example parse_description_doctest_19 :
  match test_it "BEA   NR:AB012345 31.12.21/12.34 CCV TRAVERSE P1,PAS123          LUCHTH SCHIPH" with
  | Ok d => dict_same d [("NR", "AB012345"); ("Naam", "CCV TRAVERSE P1"); ("card", "123"); ("datetime", "2021-12-31T12:34:00"); ("location", "LUCHTH SCHIPH"); ("suffix", ""); ("type", "BEA")]
  | Err _ => false
  end = true.
Proof. vm_compute. reflexivity. Qed.

Example parse_description_doctest_20 :
  match test_it "BEA   NR:A1B23C   31.12.21/01.02 Hema EV123,PAS456               ZAANDAM                          TERUGBOEKING-BEA-TRANSACTIE" with
  | Ok d => dict_same d [("NR", "A1B23C"); ("Naam", "Hema EV123"); ("card", "456"); ("datetime", "2021-12-31T01:02:00"); ("location", "ZAANDAM"); ("suffix", "TERUGBOEKING-BEA-TRANSACTIE"); ("type", "BEA")]
  | Err _ => false
  end = true.
Proof. vm_compute. reflexivity. Qed.

Example parse_description_doctest_21 :
  match test_it "GEA, Betaalpas                   Geldmaat Somewhere 22,PAS456    NR:012345, 25.12.23/12:21        Somewhere                       " with
  | Ok d => dict_same d [("NR", "012345"); ("Naam", "Geldmaat Somewhere 22"); ("card", "456"); ("datetime", "2023-12-25T12:21:00"); ("location", "Somewhere"); ("suffix", ""); ("type", "GEA, Betaalpas")]
  | Err _ => false
  end = true.
Proof. vm_compute. reflexivity. Qed.

Example parse_description_doctest_22 :
  match test_it "BEA, Betaalpas                   IKEA Amsterdam,PAS123           NR:0ABC0D, 01.02.23/14:15        AMSTERDAM                       TERUGBOEKING BEA-TRANSACTIE                                      " with
  | Ok d => dict_same d [("NR", "0ABC0D"); ("Naam", "IKEA Amsterdam"); ("card", "123"); ("datetime", "2023-02-01T14:15:00"); ("location", "AMSTERDAM"); ("suffix", "TERUGBOEKING BEA-TRANSACTIE"); ("type", "BEA, Betaalpas")]
  | Err _ => false
  end = true.
Proof. vm_compute. reflexivity. Qed.

Example parse_description_doctest_23 :
  match test_it "BEA, Betaalpas                   Zettle_*The Whatever S,PAS123   NR:01234567, 03.04.23/14:25      Eindhoven, No                   " with
  | Ok d => dict_same d [("NR", "01234567"); ("Naam", "Zettle_*The Whatever S"); ("card", "123"); ("datetime", "2023-04-03T14:25:00"); ("location", "Eindhoven, No"); ("suffix", ""); ("type", "BEA, Betaalpas")]
  | Err _ => false
  end = true.
Proof. vm_compute. reflexivity. Qed.

Example parse_description_doctest_24 :
  match test_it "BEA, Betaalpas                   TUIFLY NL,PAS123                NR:01234567, 21.12.23/12:21      SCHIPHOL RIJK, Land: IRL        " with
  | Ok d => dict_same d [("NR", "01234567"); ("Naam", "TUIFLY NL"); ("card", "123"); ("datetime", "2023-12-21T12:21:00"); ("location", "SCHIPHOL RIJK, Land: IRL"); ("suffix", ""); ("type", "BEA, Betaalpas")]
  | Err _ => false
  end = true.
Proof. vm_compute. reflexivity. Qed.

Example parse_description_doctest_25 :
  match test_it "BEA, Betaalpas                   AB CDEFGHIJ,PAS123              NR:76543210, 05.04.23/06:07      KLEOPATRAS 5, Land: GRC         " with
  | Ok d => dict_same d [("NR", "76543210"); ("Naam", "AB CDEFGHIJ"); ("card", "123"); ("datetime", "2023-04-05T06:07:00"); ("location", "KLEOPATRAS 5, Land: GRC"); ("suffix", ""); ("type", "BEA, Betaalpas")]
  | Err _ => false
  end = true.
Proof. vm_compute. reflexivity. Qed.

Example parse_description_doctest_26 :
  match test_it "BEA, Betaalpas                   SSP FOOBAR BURGER KI,PAS456     NR:76543210 22.01.23/22.23       KRATIKOS AERO,Land: GR          NAGEKOMEN VERREKENING                                            " with
  | Ok d => dict_same d [("NR", "76543210"); ("Naam", "SSP FOOBAR BURGER KI"); ("card", "456"); ("datetime", "2023-01-22T22:23:00"); ("location", "KRATIKOS AERO,Land: GR"); ("suffix", "NAGEKOMEN VERREKENING"); ("type", "BEA, Betaalpas")]
  | Err _ => false
  end = true.
Proof. vm_compute. reflexivity. Qed.

Example parse_description_doctest_27 :
  match test_it "BEA, Google Pay                  NLOVAB1C2D3E4F5G6H,PAS123       NR:AB12CD34, 11.12.23/11:12      www.ovpay.nl                    " with
  | Ok d => dict_same d [("NR", "AB12CD34"); ("Naam", "NLOVAB1C2D3E4F5G6H"); ("card", "123"); ("datetime", "2023-12-11T11:12:00"); ("location", "www.ovpay.nl"); ("suffix", ""); ("type", "BEA, Google Pay")]
  | Err _ => false
  end = true.
Proof. vm_compute. reflexivity. Qed.

Example parse_description_doctest_28 :
  match test_it "BEA, Google Pay                  SumUp  *European Fooba,PAS123   NR:12345678, 30.03.23/03:30      Gateshead, Land: GBR            GBP 10,00 1EUR=0,8539 GBP        KOSTEN EUR0,15 ACHTERAF BEREKEND" with
  | Ok d => dict_same d [("NR", "12345678"); ("Naam", "SumUp  *European Fooba"); ("card", "123"); ("datetime", "2023-03-30T03:30:00"); ("location", "Gateshead, Land: GBR"); ("suffix", "GBP 10,00 1EUR=0,8539 GBP       KOSTEN EUR0,15 ACHTERAF BEREKEND"); ("type", "BEA, Google Pay")]
  | Err _ => false
  end = true.
Proof. vm_compute. reflexivity. Qed.

Example parse_description_doctest_29 :
  match test_it "BEA, Google Pay                  PiPi H'dorp De Brug Li,PAS123   NR:AB123C, 20.02.23/20:02        HOOFDDORP                       " with
  | Ok d => dict_same d [("NR", "AB123C"); ("Naam", "PiPi H'dorp De Brug Li"); ("card", "123"); ("datetime", "2023-02-20T20:02:00"); ("location", "HOOFDDORP"); ("suffix", ""); ("type", "BEA, Google Pay")]
  | Err _ => false
  end = true.
Proof. vm_compute. reflexivity. Qed.

Example parse_description_doctest_30 :
  match test_it "BEA, Betaalpas                   WS Wormerveer\Wandelwe,PAS123   NR:01234567 22.02.23/02.22        96\Wormervee                   TERUGBOEKING-BEA-TRANSACTIE                                      " with
  | Ok d => dict_same d [("NR", "01234567"); ("Naam", "WS Wormerveer\Wandelwe"); ("card", "123"); ("datetime", "2023-02-22T02:22:00"); ("location", " 96\Wormervee"); ("suffix", "TERUGBOEKING-BEA-TRANSACTIE"); ("type", "BEA, Betaalpas")]
  | Err _ => false
  end = true.
Proof. vm_compute. reflexivity. Qed.

Example rejoin_doctest :
  rejoin_description
    (String.concat " " [
      "SEPA iDEAL                      ";
      "IBAN: NL01RABO0123456789        BIC: RABONL2U                   ";
      "Naam: Next to Pay via Mollie    Omschrijving: M01234567ABCDE0F 0";
      "123456789012345 Foobar Pizza Delivery Order 123456              ";
      "Kenmerk: 31-12-2023 17:01 0123456789012345                      ";
      "                                "])
  = Ok (rstrip (String.concat "" [
      "SEPA iDEAL                      ";
      "IBAN: NL01RABO0123456789        BIC: RABONL2U                   ";
      "Naam: Next to Pay via Mollie    Omschrijving: M01234567ABCDE0F 0";
      "123456789012345 Foobar Pizza Delivery Order 123456              ";
      "Kenmerk: 31-12-2023 17:01 0123456789012345                      ";
      "                                "])).
Proof. vm_compute. reflexivity. Qed.

(** ** Claims about rejoin_description *)

(** C10: a non-slash input of at most 32 characters makes
    [rejoin_description] fail on the unguarded index [s[32]]: an
    [IndexError], not the assertion. *)
Theorem rejoin_description_short_index_error : forall s,
  prefix "/" s = false -> String.length s <= 32 ->
  rejoin_description s = Err IndexError.
Proof.
  intros s Hp Hl. unfold rejoin_description. rewrite Hp.
  rewrite get_none_len by exact Hl. reflexivity.
Qed.

Lemma rejoin_description_short_index_error_witness :
  prefix "/" "zzz this is not a known format" = false /\
  String.length "zzz this is not a known format" <= 32 /\
  rejoin_description "zzz this is not a known format" = Err IndexError.
Proof.
  split; [reflexivity|]. split; [simpl; lia|].
  apply rejoin_description_short_index_error; [reflexivity | simpl; lia].
Defined.

(** C2, counterexample: a string whose last display line ends in a space
    does not survive the round trip, since the rejoiner right-strips. *)
Lemma rejoin_roundtrip_trailing_space :
  let u := "aaaaaaaaaaaaaaaaaaaaaaaaaaaaaaaab " in
  prefix "/" u = false /\ rejoin_description (spaced u) <> Ok u.
Proof.
  split; [reflexivity|]. vm_compute. congruence.
Qed.

(** C2 (amended): for every string [u] not starting with "/", of at
    least 32 characters, whose part after the head has no newline before
    its trailing whitespace, inserting the display-line spacing and
    rejoining gives back the head followed by the rest with its trailing
    whitespace removed (so [u] itself when [u] has no trailing whitespace
    after the head); and slash-prefixed strings are returned unchanged. *)
Theorem rejoin_description_roundtrip :
  (forall u, prefix "/" u = false -> 32 <= String.length u ->
     no_newline (rstrip (str_drop 32 u)) = true ->
     rejoin_description (spaced u) = Ok (str_take 32 u ++ rstrip (str_drop 32 u))) /\
  (forall s, prefix "/" s = true -> rejoin_description s = Ok s).
Proof.
  split.
  - intros u Hp Hl Hn. unfold rejoin_description, spaced.
    set (h := str_take 32 u). set (r := str_drop 32 u).
    assert (Hh : String.length h = 32) by (apply str_take_length; auto).
    assert (Hp' : prefix "/" (h ++ " " ++ String.concat " " (chunks64 r)) = false).
    { rewrite <- (str_take_drop 32 u) in Hp. fold h r in Hp.
      destruct h as [|c h']; [discriminate|].
      etransitivity; [apply (prefix_slash_cons c _ (h' ++ r)) | exact Hp]. }
    rewrite Hp'. rewrite (get_app_n 32 h) by exact Hh.
    change (get 0 (" " ++ ?X)) with (Some " "%char). cbv beta iota.
    change (py_assert (Ascii.eqb " "%char " "%char)) with (Ok (A:=unit) tt). cbn [bind].
    rewrite str_app_assoc, (str_drop_app_n 33 (h ++ " ")) by (rewrite slen_app, Hh; reflexivity).
    rewrite rstrip_concat_chunks, findall_chunks by exact Hn.
    rewrite mark_lines_ok. cbn [py_assert bind]. rewrite mark_lines_take.
    rewrite <- str_app_assoc, (str_take_app_n 32 h) by exact Hh. reflexivity.
  - intros s Hp. unfold rejoin_description. now rewrite Hp.
Qed.

Lemma rejoin_description_roundtrip_witness :
  let example :=
      ["SEPA iDEAL                      ";
       "IBAN: NL01RABO0123456789        BIC: RABONL2U                   ";
       "Naam: Next to Pay via Mollie    Omschrijving: M01234567ABCDE0F 0";
       "123456789012345 Foobar Pizza Delivery Order 123456              ";
       "Kenmerk: 31-12-2023 17:01 0123456789012345                      ";
       "                                "] in
  let u := String.concat "" example in
  spaced u = String.concat " " example /\
  prefix "/" u = false /\ 32 <= String.length u /\
  no_newline (rstrip (str_drop 32 u)) = true /\
  rejoin_description (spaced u) = Ok (str_take 32 u ++ rstrip (str_drop 32 u)) /\
  str_take 32 u ++ rstrip (str_drop 32 u) = rstrip u /\
  rejoin_description "/TRTP/iDEAL" = Ok "/TRTP/iDEAL".
Proof.
  intros example u. split; [vm_compute; reflexivity|].
  split; [reflexivity|]. split; [vm_compute; lia|]. split; [vm_compute; reflexivity|].
  split; [|split].
  - apply (proj1 rejoin_description_roundtrip); [reflexivity | vm_compute; lia | vm_compute; reflexivity].
  - vm_compute. reflexivity.
  - apply (proj2 rejoin_description_roundtrip). reflexivity.
Defined.

(** ** Claims about parse_description *)

Lemma prefix_nil : forall s, prefix "" s = true.
Proof. destruct s; reflexivity. Qed.

Lemma prefix_trans : forall t x s, prefix t x = true -> prefix x s = true -> prefix t s = true.
Proof.
  induction t as [|a t IH]; intros x s H1 H2; [destruct s; reflexivity|].
  destruct x as [|b x]; [discriminate|]. destruct s as [|c s]; [discriminate|].
  cbn [prefix] in *.
  destruct (ascii_dec a b); [|discriminate]. destruct (ascii_dec b c); [|discriminate].
  subst. destruct (ascii_dec c c); [|congruence]. eauto.
Qed.

Lemma prefix_refl : forall s, prefix s s = true.
Proof.
  induction s as [|a s IH]; [reflexivity|]. cbn [prefix].
  destruct (ascii_dec a a); [exact IH | congruence].
Qed.

Lemma prefix_rstrip : forall s, prefix (rstrip s) s = true.
Proof.
  induction s as [|a s IH]; [reflexivity|]. simpl rstrip.
  destruct (rstrip s) as [|b r] eqn:E.
  - destruct (is_space a); [reflexivity|]. cbn [prefix].
    destruct (ascii_dec a a); [apply prefix_nil | congruence].
  - cbn [prefix]. destruct (ascii_dec a a); [exact IH | congruence].
Qed.

Lemma prefix_take : forall n s, prefix (str_take n s) s = true.
Proof.
  induction n; destruct s as [|a s]; try reflexivity. cbn [str_take prefix].
  destruct (ascii_dec a a); [apply IHn | congruence].
Qed.

(** A prefix of the head is a prefix of the description. *)
Lemma prefix_head : forall t s, prefix t (rstrip (str_take 32 s)) = true -> prefix t s = true.
Proof.
  intros t s H. eapply prefix_trans; [exact H|].
  eapply prefix_trans; [apply prefix_rstrip | apply prefix_take].
Qed.

Lemma prefix_head_false : forall t s, prefix t s = false ->
  prefix t (rstrip (str_take 32 s)) = false.
Proof.
  intros t s H. destruct (prefix t (rstrip (str_take 32 s))) eqn:E; [|reflexivity].
  apply prefix_head in E. congruence.
Qed.

(** C1: an input that does not start with "/" and matches none of the
    sub-format triggers is decoded, without raising, into exactly the two
    keys "type" (the first 32 characters, right-stripped) and
    "description" (the rest, right-stripped). *)
Theorem parse_description_fallback : forall s,
  prefix "/" s = false ->
  forallb (fun t => negb (prefix t s)) description_triggers = true ->
  parse_description s =
  Ok [("type", rstrip (str_take 32 s)); ("description", rstrip (str_drop 32 s))].
Proof.
  intros s Hs Ht. unfold description_triggers in Ht. simpl forallb in Ht.
  repeat match type of Ht with
         | _ && _ = true => apply andb_prop in Ht as [?H Ht]
         end.
  repeat match goal with
         | H : negb _ = true |- _ => apply negb_true_iff in H
         end.
  unfold parse_description. rewrite Hs. rewrite H. clear H Hs.
  repeat match goal with
         | H : prefix ?t s = false |- _ =>
             pose proof (prefix_head_false t s H); clear H
         end.
  repeat match goal with
         | H : prefix ?t _ = false |- _ => rewrite H; clear H
         end.
  reflexivity.
Qed.

Lemma parse_description_fallback_witness :
  let s := "zzz this is not a known format" in
  prefix "/" s = false /\
  forallb (fun t => negb (prefix t s)) description_triggers = true /\
  parse_description s = Ok [("type", "zzz this is not a known format"); ("description", "")].
Proof.
  intros s. split; [reflexivity|]. split; [reflexivity|].
  rewrite (parse_description_fallback s); reflexivity.
Defined.

(** ** The slash format *)

Lemma split_on_nonempty : forall sep s, split_on sep s <> [].
Proof.
  intros sep s. destruct s as [|c s]; simpl; [discriminate|].
  destruct (Ascii.eqb c sep); [discriminate|].
  destruct (split_on sep s); discriminate.
Qed.

Lemma split_on_app_sep : forall sep x y,
  split_on sep (x ++ String sep y) = (split_on sep x ++ split_on sep y)%list.
Proof.
  intros sep x y. induction x as [|c x IH]; simpl.
  - rewrite Ascii.eqb_refl. reflexivity.
  - rewrite IH. destruct (Ascii.eqb c sep); [reflexivity|].
    destruct (split_on sep x) as [|a r] eqn:E; [exfalso; exact (split_on_nonempty sep x E)|].
    reflexivity.
Qed.

Lemma split_on_concat : forall sep l, l <> [] ->
  split_on sep (String.concat (String sep "") l) = flat_map (split_on sep) l.
Proof.
  intros sep l. induction l as [|x l IH]; intros Hl; [congruence|].
  destruct l as [|y l].
  - simpl. rewrite app_nil_r. reflexivity.
  - change (String.concat (String sep "") (x :: y :: l))
      with (x ++ String sep (String.concat (String sep "") (y :: l))).
    rewrite split_on_app_sep, IH by discriminate. reflexivity.
Qed.

Lemma concat_cons_string : forall sep c a rest,
  String.concat sep (String c a :: rest) = String c (String.concat sep (a :: rest)).
Proof. intros sep c a rest. destruct rest; reflexivity. Qed.

Lemma concat_split_on : forall sep s, String.concat (String sep "") (split_on sep s) = s.
Proof.
  intros sep s. induction s as [|c s IH]; [reflexivity|]. simpl split_on.
  destruct (Ascii.eqb c sep) eqn:E.
  - apply Ascii.eqb_eq in E. subst c.
    destruct (split_on sep s) as [|a r] eqn:Es; [exfalso; exact (split_on_nonempty sep s Es)|].
    change (String.concat (String sep "") ("" :: a :: r))
      with (String sep (String.concat (String sep "") (a :: r))).
    rewrite IH. reflexivity.
  - destruct (split_on sep s) as [|a r] eqn:Es; [exfalso; exact (split_on_nonempty sep s Es)|].
    rewrite concat_cons_string, IH. reflexivity.
Qed.

Lemma concat_app_head : forall sep x z l,
  String.concat sep ((x ++ z) :: l) = x ++ String.concat sep (z :: l).
Proof.
  intros sep x z l. destruct l; [reflexivity|].
  cbn [String.concat]. rewrite <- str_app_assoc. reflexivity.
Qed.

Lemma tag_no_slash : forall t, fullmatch_any slash_tags t = true -> split_on "/"%char t = [t].
Proof.
  intros t H. unfold fullmatch_any in H. apply existsb_exists in H as [x [Hin Hx]].
  apply String.eqb_eq in Hx. subst x.
  simpl in Hin. repeat destruct Hin as [<- | Hin]; try reflexivity. contradiction.
Qed.

Lemma slash_loop_tag : forall rp p segs,
  Nat.even (length rp) = true -> fullmatch_any slash_tags p = true ->
  slash_loop rp (p :: segs) = slash_loop (p :: rp) segs.
Proof. intros rp p segs H1 H2. cbn [slash_loop]. rewrite H1, H2. reflexivity. Qed.

Lemma slash_loop_merge : forall last rest p segs,
  Nat.even (length (last :: rest)) = true -> fullmatch_any slash_tags p = false ->
  slash_loop (last :: rest) (p :: segs) = slash_loop ((last ++ "/" ++ p) :: rest) segs.
Proof. intros last rest p segs H1 H2. cbn [slash_loop]. rewrite H1, H2. reflexivity. Qed.

Lemma slash_loop_pop_empty : forall p segs,
  fullmatch_any slash_tags p = false -> slash_loop [] (p :: segs) = Err IndexError.
Proof. intros p segs H. cbn [slash_loop]. simpl length. cbv beta iota. rewrite H. reflexivity. Qed.

Lemma slash_loop_odd : forall rp p segs,
  Nat.even (length rp) = false -> slash_loop rp (p :: segs) = slash_loop (p :: rp) segs.
Proof. intros rp p segs H. cbn [slash_loop]. rewrite H. reflexivity. Qed.

Lemma even_SS : forall {A} (x y : A) l, Nat.even (length (x :: y :: l)) = Nat.even (length l).
Proof. reflexivity. Qed.

Lemma even_S : forall {A} (x : A) l, Nat.even (length (x :: l)) = negb (Nat.even (length l)).
Proof. intros A x l. simpl length. rewrite Nat.even_succ, <- Nat.negb_even. reflexivity. Qed.

(** The pieces of a value after the first are all merged back into it. *)
Lemma slash_loop_merge_all : forall rest acc rp segs,
  Nat.even (length rp) = false ->
  forallb (fun p => negb (fullmatch_any slash_tags p)) rest = true ->
  slash_loop (acc :: rp) (rest ++ segs)%list =
  slash_loop (String.concat "/" (acc :: rest) :: rp) segs.
Proof.
  induction rest as [|y rest IH]; intros acc rp segs Hrp Hr; [reflexivity|].
  simpl in Hr. apply andb_prop in Hr as [Hy Hr]. apply negb_true_iff in Hy.
  rewrite <- app_comm_cons, slash_loop_merge by (rewrite ?even_S, ?Hrp; first [reflexivity | assumption]).
  rewrite IH by assumption.
  rewrite concat_app_head. change ("/" ++ y) with (String "/" y).
  rewrite concat_cons_string. reflexivity.
Qed.

Lemma slash_loop_pair : forall rp t v segs,
  Nat.even (length rp) = true -> fullmatch_any slash_tags t = true -> value_ok v = true ->
  slash_loop rp (t :: split_on "/"%char v ++ segs)%list = slash_loop (v :: t :: rp) segs.
Proof.
  intros rp t v segs Hrp Ht Hv. unfold value_ok in Hv.
  destruct (split_on "/"%char v) as [|x rest] eqn:Ev; [exfalso; exact (split_on_nonempty _ v Ev)|].
  rewrite slash_loop_tag by assumption.
  rewrite <- app_comm_cons, slash_loop_odd by (rewrite even_S, Hrp; reflexivity).
  rewrite slash_loop_merge_all by (rewrite ?even_S, ?Hrp; first [reflexivity | exact Hv]).
  rewrite <- Ev, concat_split_on. reflexivity.
Qed.

Lemma slash_loop_pairs : forall ps rp,
  Nat.even (length rp) = true -> slash_ok ps = true ->
  slash_loop rp (flat_map (fun tv => fst tv :: split_on "/"%char (snd tv)) ps) =
  Ok (rev (flat_map (fun tv => [fst tv; snd tv]) ps) ++ rp)%list.
Proof.
  induction ps as [|[t v] ps IH]; intros rp Hrp Hok; [reflexivity|].
  unfold slash_ok in Hok. simpl in Hok.
  apply andb_prop in Hok as [Htv Hok]. apply andb_prop in Htv as [Ht Hv].
  simpl flat_map. rewrite slash_loop_pair by assumption.
  rewrite IH by first [exact Hok | rewrite even_SS; exact Hrp].
  simpl rev. rewrite <- !app_assoc. reflexivity.
Qed.

Lemma slash_encode_split : forall ps, ps <> [] -> slash_ok ps = true ->
  split_on "/"%char (str_drop 1 (slash_encode ps)) =
  flat_map (fun tv => fst tv :: split_on "/"%char (snd tv)) ps.
Proof.
  intros ps Hne Hok. unfold slash_encode. change (str_drop 1 ("/" ++ ?X)) with X.
  rewrite split_on_concat by (destruct ps; [congruence | discriminate]).
  clear Hne. induction ps as [|[t v] ps IH]; [reflexivity|].
  unfold slash_ok in Hok. simpl in Hok.
  apply andb_prop in Hok as [Htv Hok]. apply andb_prop in Htv as [Ht Hv].
  simpl flat_map. rewrite tag_no_slash by exact Ht. rewrite ?app_nil_r.
  rewrite IH by exact Hok. reflexivity.
Qed.

Lemma batched2_pairs : forall ps,
  batched2 (flat_map (fun tv => [fst tv; snd tv]) ps) = map (fun tv => [fst tv; snd tv]) ps.
Proof. induction ps as [|tv ps IH]; simpl; [reflexivity | rewrite IH; reflexivity]. Qed.

Lemma dict_get_set : forall k k' v d,
  dict_get k (dict_set k' v d) = if String.eqb k k' then Some v else dict_get k d.
Proof.
  intros k k' v d. induction d as [|[k2 v2] d IH]; simpl.
  - destruct (String.eqb k k'); reflexivity.
  - destruct (String.eqb k' k2) eqn:E.
    + apply String.eqb_eq in E. subst k2. simpl. destruct (String.eqb k k'); reflexivity.
    + simpl. rewrite IH. destruct (String.eqb k k2) eqn:E2; [|reflexivity].
      apply String.eqb_eq in E2. subst k2.
      destruct (String.eqb k k') eqn:E3; [|reflexivity].
      apply String.eqb_eq in E3. subst k'. rewrite String.eqb_refl in E. discriminate.
Qed.

Lemma dict_get_update : forall k l base,
  dict_get k (dict_update base l) = fold_left (lookup_step k) l (dict_get k base).
Proof.
  intros k l. induction l as [|[k' v] l IH]; intros base; [reflexivity|].
  unfold dict_update in *. simpl fold_left. rewrite IH, dict_get_set. reflexivity.
Qed.

Lemma dict_set_keys : forall (P : string -> Prop) k v d,
  Forall (fun kv => P (fst kv)) d -> P k -> Forall (fun kv => P (fst kv)) (dict_set k v d).
Proof.
  intros P k v d Hd Hk. induction d as [|[k2 v2] d IH]; simpl.
  - constructor; [exact Hk | constructor].
  - inversion Hd; subst. destruct (String.eqb k k2); constructor; auto.
Qed.

Lemma dict_update_keys : forall (P : string -> Prop) l base,
  Forall (fun kv => P (fst kv)) base -> Forall (fun kv => P (fst kv)) l ->
  Forall (fun kv => P (fst kv)) (dict_update base l).
Proof.
  intros P l. induction l as [|[k v] l IH]; intros base Hb Hl; [exact Hb|].
  inversion Hl; subst. unfold dict_update in *. simpl fold_left.
  apply IH; [apply dict_set_keys|]; assumption.
Qed.

Lemma key_map_tag : forall t', fullmatch_any slash_tags t' = true ->
  exists kn, key_map t' = Ok kn /\ (kn = "" \/ In kn (map snd slash_table)) /\
  forall t k, In (t, k) slash_table ->
  (negb (String.eqb kn "") && String.eqb k kn) = String.eqb t' t.
Proof.
  intros t' H. unfold fullmatch_any in H. apply existsb_exists in H as [x [Hin Hx]].
  apply String.eqb_eq in Hx. subst x. simpl in Hin.
  repeat destruct Hin as [<- | Hin]; try contradiction;
  (eexists; split; [reflexivity|]; split;
   [simpl; intuition
   | intros t k H; simpl in H; repeat destruct H as [H | H]; try contradiction;
     injection H as <- <-; reflexivity]).
Qed.

Lemma slash_pairs_ok : forall ps, slash_ok ps = true -> exists l,
  slash_pairs (map (fun tv => [fst tv; snd tv]) ps) = Ok l /\
  Forall (fun kv => In (fst kv) (map snd slash_table)) l /\
  forall t k acc, In (t, k) slash_table ->
  fold_left (lookup_step k) l acc = fold_left (last_step t) ps acc.
Proof.
  induction ps as [|[t' v] ps IH]; intros Hok.
  - exists []. split; [reflexivity|]. split; [constructor | reflexivity].
  - unfold slash_ok in Hok. simpl in Hok.
    apply andb_prop in Hok as [Htv Hok]. apply andb_prop in Htv as [Ht _].
    destruct (key_map_tag t' Ht) as [kn [Hkm [Hkn Hf]]].
    destruct (IH Hok) as [l [Hl [Hkeys Hfold]]].
    exists (if String.eqb kn "" then l else (kn, rstrip v) :: l).
    split; [simpl; rewrite Hkm; cbn [bind]; rewrite Hl; reflexivity|].
    destruct (String.eqb kn "") eqn:E0; split.
    + exact Hkeys.
    + intros t k acc Hin. specialize (Hf t k Hin). simpl in Hf.
      simpl fold_left. unfold last_step at 2. simpl fst. rewrite <- Hf. apply Hfold, Hin.
    + constructor; [|exact Hkeys]. destruct Hkn as [Hkn|Hkn]; [|exact Hkn].
      subst kn. discriminate.
    + intros t k acc Hin. specialize (Hf t k Hin). simpl in Hf.
      simpl fold_left. unfold lookup_step at 2, last_step at 2. simpl fst. simpl snd.
      rewrite Hf. apply Hfold, Hin.
Qed.

Lemma last_step_some : forall t ps acc,
  existsb (fun tv => String.eqb (fst tv) t) ps = true -> exists v, fold_left (last_step t) ps acc = Some v.
Proof.
  intros t ps. induction ps as [|tv ps IH]; intros acc H; [discriminate|].
  simpl in H. simpl fold_left. destruct (String.eqb (fst tv) t) eqn:E.
  - unfold last_step at 2. rewrite E.
    destruct (existsb (fun tv => String.eqb (fst tv) t) ps) eqn:E2; [apply IH; reflexivity|].
    clear IH H. exists (rstrip (snd tv)). generalize (rstrip (snd tv)) as w. revert E2.
    induction ps as [|tv' ps IH']; intros E2 w; [reflexivity|].
    simpl in E2. apply orb_false_iff in E2 as [E3 E2]. simpl fold_left.
    unfold last_step at 2. rewrite E3. apply IH'. exact E2.
  - apply IH. exact H.
Qed.

Lemma last_value_fold : forall t ps, last_value t ps = fold_left (last_step t) ps None.
Proof. reflexivity. Qed.

Lemma field_not_type : forall t k, In (t, k) slash_field_names -> String.eqb k "type" = false.
Proof.
  intros t k H. simpl in H.
  repeat destruct H as [H | H]; try contradiction; injection H as <- <-; reflexivity.
Qed.

(** C3: a slash-format description made of (tag, value) pairs, where the
    "/"-pieces of a value after its first are not tags, is decoded into a
    mapping whose "type" is the last TRTP value (with "iDEAL" rewritten to
    "SEPA iDEAL"), whose other keys hold the last value of their tag, and
    which holds no other key, so ORDP and ID values are dropped; a value
    containing "/" followed by non-tags is kept whole. On the example of
    the spec, type, Incassant and BIC are the stated values. *)
Theorem parse_description_slash :
  (forall ps, slash_ok ps = true ->
   existsb (fun tv => String.eqb (fst tv) "TRTP") ps = true ->
   exists d, parse_description (slash_encode ps) = Ok d /\
     dict_get "type" d = option_map ideal_fix (last_value "TRTP" ps) /\
     (forall t k, In (t, k) slash_field_names -> dict_get k d = last_value t ps) /\
     Forall (fun kv => In (fst kv) (map snd slash_table)) d) /\
  match parse_description ("/TRTP/SEPA Incasso algemeen doorlopend/CSID/NL00ZZZ123456789012"
      ++ "/NAME/Albert Heijn B.V./MARF/AH0.../REMI/Foobarment/IBAN/NL00INGB0123456789"
      ++ "/BIC/INGBNL2A/EREF/AB0123456789") with
  | Ok d => dict_get "type" d = Some "SEPA Incasso algemeen doorlopend" /\
            dict_get "Incassant" d = Some "NL00ZZZ123456789012" /\
            dict_get "BIC" d = Some "INGBNL2A"
  | Err _ => False
  end.
Proof.
  split; [|vm_compute; auto].
  intros ps Hok Htr.
  assert (Hne : ps <> []) by (destruct ps; [discriminate | congruence]).
  unfold parse_description.
  replace (prefix "/" (slash_encode ps)) with true
    by (unfold slash_encode; simpl; symmetry; apply prefix_nil).
  unfold parse_slash.
  rewrite slash_encode_split, slash_loop_pairs by first [exact Hne | exact Hok | reflexivity].
  cbn [bind]. rewrite app_nil_r, rev_involutive, batched2_pairs.
  destruct (slash_pairs_ok ps Hok) as [l [Hl [Hkeys Hfold]]].
  rewrite Hl. cbn [bind]. unfold dict_of. rewrite dict_get_update.
  change (dict_get "type" []) with (@None string).
  rewrite (Hfold "TRTP" "type" None) by (left; reflexivity).
  destruct (last_step_some "TRTP" ps None Htr) as [w Hw]. rewrite Hw.
  assert (Hk : Forall (fun kv => In (fst kv) (map snd slash_table)) (dict_update [] l))
    by (apply (dict_update_keys (fun k => In k (map snd slash_table))); [constructor | exact Hkeys]).
  rewrite last_value_fold, Hw. simpl option_map. unfold ideal_fix.
  destruct (String.eqb w "iDEAL") eqn:Ei; eexists; (split; [reflexivity|]).
  - rewrite dict_get_set. split; [reflexivity|]. split.
    + intros t k Hin. rewrite dict_get_set, (field_not_type t k Hin), dict_get_update, last_value_fold.
      change (dict_get k []) with (@None string). apply Hfold. right. exact Hin.
    + apply (dict_set_keys (fun k => In k (map snd slash_table))); [exact Hk | left; reflexivity].
  - rewrite dict_get_update. change (dict_get "type" []) with (@None string).
    rewrite (Hfold "TRTP" "type" None), Hw by (left; reflexivity).
    split; [reflexivity|]. split; [|exact Hk].
    intros t k Hin. rewrite dict_get_update, last_value_fold.
    change (dict_get k []) with (@None string). apply Hfold. right. exact Hin.
Qed.

Lemma parse_description_slash_witness :
  let ps := [("TRTP", "iDEAL"); ("NAME", "A/B"); ("ORDP", "x"); ("NAME", "C ")] in
  slash_ok ps = true /\ existsb (fun tv => String.eqb (fst tv) "TRTP") ps = true /\
  exists d, parse_description (slash_encode ps) = Ok d /\
    dict_get "type" d = option_map ideal_fix (last_value "TRTP" ps) /\
    (forall t k, In (t, k) slash_field_names -> dict_get k d = last_value t ps) /\
    Forall (fun kv => In (fst kv) (map snd slash_table)) d.
Proof.
  intros ps. split; [reflexivity|]. split; [reflexivity|].
  apply (proj1 parse_description_slash ps); reflexivity.
Defined.

Lemma tag_positions_snoc : forall l b x,
  tag_positions b (l ++ [x])%list =
  (tag_positions b l ++ (if Bool.eqb b (Nat.even (length l)) then [x] else []))%list.
Proof.
  induction l as [|y l IH]; intros b x.
  - destruct b; reflexivity.
  - rewrite even_S. simpl app. cbn [tag_positions].
    destruct b; rewrite IH; destruct (Nat.even (length l)); reflexivity.
Qed.

(** The elements of [parts] at even positions are always tags. *)
Lemma slash_loop_tags : forall segs rp rp',
  slash_loop rp segs = Ok rp' ->
  all_tags (tag_positions true (rev rp)) = true ->
  all_tags (tag_positions true (rev rp')) = true.
Proof.
  unfold all_tags. induction segs as [|p segs IH]; intros rp rp' H Hrp.
  - injection H as <-. exact Hrp.
  - cbn [slash_loop] in H. destruct (Nat.even (length rp)) eqn:Ev.
    + destruct (fullmatch_any slash_tags p) eqn:Ep.
      * apply (IH _ _ H). simpl rev. rewrite tag_positions_snoc, length_rev, Ev.
        rewrite forallb_app, Hrp. cbn [Bool.eqb forallb andb]. rewrite Ep. reflexivity.
      * destruct rp as [|last rest]; [discriminate|].
        apply (IH _ _ H). simpl rev in *. rewrite tag_positions_snoc, length_rev in *.
        rewrite even_S in Ev. destruct (Nat.even (length rest)); [discriminate|].
        exact Hrp.
    + apply (IH _ _ H). simpl rev. rewrite tag_positions_snoc, length_rev, Ev.
      rewrite app_nil_r. exact Hrp.
Qed.

Lemma list_ind2 {A} (P : list A -> Prop) (H0 : P []) (H1 : forall x, P [x])
  (H2 : forall x y l, P l -> P (x :: y :: l)) : forall l, P l.
Proof.
  fix IH 1. intros [|x [|y l]]; [exact H0 | apply H1 | apply H2, IH].
Qed.

Lemma slash_pairs_no_trtp : forall L,
  all_tags (tag_positions true L) = true ->
  existsb (String.eqb "TRTP") (tag_positions true L) = false ->
  if Nat.even (length L)
  then exists l, slash_pairs (batched2 L) = Ok l /\
                 Forall (fun kv => String.eqb "type" (fst kv) = false) l
  else slash_pairs (batched2 L) = Err ValueError.
Proof.
  unfold all_tags. apply (list_ind2 (fun L => _ -> _ -> _)).
  - intros _ _. exists []. split; [reflexivity | constructor].
  - intros x _ _. reflexivity.
  - intros x y L IH Ht Hn. cbn [tag_positions forallb existsb] in Ht, Hn.
    apply andb_prop in Ht as [Hx Ht]. apply orb_false_iff in Hn as [Hxn Hn].
    destruct (key_map_tag x Hx) as [kn [Hkm [_ Hf]]].
    specialize (Hf "TRTP" "type" (or_introl eq_refl)).
    rewrite String.eqb_sym in Hxn. rewrite Hxn in Hf.
    specialize (IH Ht Hn). rewrite even_SS. cbn [batched2 slash_pairs].
    rewrite Hkm. cbn [bind].
    destruct (Nat.even (length L)).
    + destruct IH as [l [Hl Hk]]. rewrite Hl. cbn [bind].
      eexists. split; [reflexivity|].
      destruct (String.eqb kn "") eqn:E0; [exact Hk|].
      simpl in Hf. constructor; [exact Hf | exact Hk].
    + rewrite IH. reflexivity.
Qed.

Lemma fold_lookup_absent : forall k l acc,
  Forall (fun kv => String.eqb k (fst kv) = false) l -> fold_left (lookup_step k) l acc = acc.
Proof.
  intros k l. induction l as [|kv l IH]; intros acc H; [reflexivity|].
  inversion H; subst. simpl. unfold lookup_step at 2. rewrite H2. apply IH. exact H3.
Qed.

(** C9, as stated: "/NAME" is slash-prefixed, its loop succeeds with
    the parts ["NAME"] (no TRTP at a tag position), yet decoding raises
    [ValueError] (unpacking a one-element batch), not a key-lookup
    error. *)
Lemma parse_description_slash_no_trtp_odd :
  prefix "/" "/NAME" = true /\
  slash_loop [] (split_on "/"%char (str_drop 1 "/NAME")) = Ok ["NAME"] /\
  parse_description "/NAME" = Err ValueError.
Proof. vm_compute. auto. Qed.

(** C9, corrected: on slash-prefixed input, a first segment that is not a
    tag raises [IndexError] (pop from an empty list); and when the loop
    over the segments succeeds with no TRTP at a tag position, decoding
    raises [KeyError] (the "type" lookup) if the parts pair up, and
    [ValueError] (unpacking the last, one-element batch) otherwise. *)
Theorem parse_description_slash_partial :
  (forall s, prefix "/" s = true ->
   fullmatch_any slash_tags (hd "" (split_on "/"%char (str_drop 1 s))) = false ->
   parse_description s = Err IndexError) /\
  (forall s rp, prefix "/" s = true ->
   slash_loop [] (split_on "/"%char (str_drop 1 s)) = Ok rp ->
   existsb (String.eqb "TRTP") (tag_positions true (rev rp)) = false ->
   parse_description s = Err (if Nat.even (length rp) then KeyError else ValueError)).
Proof.
  split.
  - intros s Hs Hp. unfold parse_description. rewrite Hs. unfold parse_slash.
    destruct (split_on "/"%char (str_drop 1 s)) as [|p segs] eqn:E;
      [exfalso; exact (split_on_nonempty _ _ E)|].
    simpl hd in Hp. rewrite slash_loop_pop_empty by exact Hp. reflexivity.
  - intros s rp Hs Hl Hn. unfold parse_description. rewrite Hs. unfold parse_slash.
    rewrite Hl. cbn [bind].
    pose proof (slash_loop_tags _ [] rp Hl eq_refl) as Ht.
    pose proof (slash_pairs_no_trtp (rev rp) Ht Hn) as Hp.
    rewrite length_rev in Hp. destruct (Nat.even (length rp)).
    + destruct Hp as [l [Hp Hk]]. rewrite Hp. cbn [bind].
      unfold dict_of. rewrite dict_get_update.
      change (dict_get "type" []) with (@None string).
      rewrite fold_lookup_absent by exact Hk. reflexivity.
    + rewrite Hp. reflexivity.
Qed.

Lemma parse_description_slash_partial_witness :
  (prefix "/" "/foo/TRTP/x" = true /\
   fullmatch_any slash_tags (hd "" (split_on "/"%char (str_drop 1 "/foo/TRTP/x"))) = false /\
   parse_description "/foo/TRTP/x" = Err IndexError) /\
  (prefix "/" "/NAME/x/ID/y" = true /\
   slash_loop [] (split_on "/"%char (str_drop 1 "/NAME/x/ID/y")) = Ok ["y"; "ID"; "x"; "NAME"] /\
   existsb (String.eqb "TRTP") (tag_positions true (rev ["y"; "ID"; "x"; "NAME"])) = false /\
   parse_description "/NAME/x/ID/y" = Err KeyError).
Proof.
  split.
  - split; [reflexivity|]. split; [reflexivity|].
    apply (proj1 parse_description_slash_partial); reflexivity.
  - split; [reflexivity|]. split; [reflexivity|]. split; [reflexivity|].
    apply (proj2 parse_description_slash_partial "/NAME/x/ID/y" ["y"; "ID"; "x"; "NAME"]);
      reflexivity.
Defined.

(** ** Transaction equality *)

Lemma dec_eqb_refl : forall d, dec_eqb d d = true.
Proof. intros d. unfold dec_eqb. rewrite Z.min_id, Z.sub_diag. apply Z.eqb_refl. Qed.

Lemma money_eqb_refl : forall m, money_eqb m m = true.
Proof. intros m. unfold money_eqb. rewrite dec_eqb_refl, String.eqb_refl. reflexivity. Qed.

Lemma date_eqb_refl : forall d, date_eqb d d = true.
Proof. intros d. unfold date_eqb. rewrite !Z.eqb_refl. reflexivity. Qed.

(** C7: [Transaction.__eq__] reads only account, date, currency, amount,
    start_saldo and end_saldo: replacing order and description on either
    side never changes the result, so a transaction equals itself with
    another order and description; and replacing any one of the six
    fields by a value unequal to the old one makes the two unequal. *)
Theorem Transaction_eq_fields :
  (forall a b o1 d1 o2 d2,
     Transaction_eq (set_order_description a o1 d1) (set_order_description b o2 d2) =
     Transaction_eq a b) /\
  (forall a o d, Transaction_eq a (set_order_description a o d) = true) /\
  (forall a v, Z.eqb (account a) v = false -> Transaction_eq a (set_account a v) = false) /\
  (forall a v, date_eqb (tx_date a) v = false -> Transaction_eq a (set_date a v) = false) /\
  (forall a v, String.eqb (currency a) v = false -> Transaction_eq a (set_currency a v) = false) /\
  (forall a v, money_eqb (amount a) v = false -> Transaction_eq a (set_amount a v) = false) /\
  (forall a v, money_eqb (start_saldo a) v = false ->
     Transaction_eq a (set_start_saldo a v) = false) /\
  (forall a v, money_eqb (end_saldo a) v = false -> Transaction_eq a (set_end_saldo a v) = false).
Proof.
  repeat split; intros;
    unfold Transaction_eq, set_order_description, set_account, set_date, set_currency,
      set_amount, set_start_saldo, set_end_saldo; cbn -[date_eqb money_eqb];
    rewrite ?Z.eqb_refl, ?date_eqb_refl, ?String.eqb_refl, ?money_eqb_refl;
    rewrite ?H, ?andb_false_r; reflexivity.
Qed.

Lemma Transaction_eq_fields_witness :
  let eur := fun c e => mkmoney (mkdecimal false c e) "EUR" in
  let a := mkTransaction 1234 (mkdate 2024 1 1) 1 "EUR" (mkmoney (mkdecimal true 1234 (-2)) "EUR")
             (eur 11234%N (-2)%Z) (eur 10000%N (-2)%Z) "SEPA whatever" in
  money_eqb (amount a) (mkmoney (mkdecimal false 1234 (-2)) "USD") = false /\
  Transaction_eq a (set_amount a (mkmoney (mkdecimal false 1234 (-2)) "USD")) = false /\
  Transaction_eq a (set_order_description a 2 "/TRTP/SEPA whatever/") = true.
Proof.
  intros eur a. split; [reflexivity|]. split.
  - apply (proj1 (proj2 (proj2 (proj2 (proj2 (proj2 Transaction_eq_fields)))))). reflexivity.
  - apply (proj1 (proj2 Transaction_eq_fields)).
Defined.

(** ** money_format *)

Lemma zpad2_digits : forall n, (0 <= n < 100)%Z ->
  String.length (zpad 2 n) = 2%nat /\ all_chars is_digit (zpad 2 n) = true.
Proof.
  intros n Hn.
  assert (Hall : forallb (fun k => (String.length (zpad 2 (Z.of_nat k)) =? 2)%nat
                                   && all_chars is_digit (zpad 2 (Z.of_nat k)))
                   (seq 0 100) = true) by (vm_compute; reflexivity).
  rewrite forallb_forall in Hall.
  specialize (Hall (Z.to_nat n)). rewrite Z2Nat.id in Hall by lia.
  destruct (andb_prop _ _ (Hall ltac:(apply in_seq; lia))) as [H1 H2].
  split; [apply Nat.eqb_eq; exact H1 | exact H2].
Qed.

Lemma quantize_cents_nearest : forall d,
  (0 <= quantize_cents d)%Z /\
  nearest_even_cents (Z.of_N (dec_coef d)) (dec_exp d) (quantize_cents d).
Proof.
  intros d. unfold quantize_cents, nearest_even_cents.
  set (c := Z.of_N (dec_coef d)). assert (Hc : (0 <= c)%Z) by apply N2Z.is_nonneg.
  destruct (0 <=? dec_exp d + 2)%Z eqn:He.
  - split; [apply Z.mul_nonneg_nonneg; [exact Hc | apply Z.pow_nonneg; lia] | reflexivity].
  - apply Z.leb_gt in He.
    set (D := (10 ^ (- (dec_exp d + 2)))%Z).
    assert (HD : (0 < D)%Z) by (apply Z.pow_pos_nonneg; lia).
    unfold round_half_even_div.
    pose proof (Z.div_mod c D ltac:(lia)) as Hdm.
    pose proof (Z.mod_pos_bound c D HD) as Hr.
    pose proof (Z.div_pos c D Hc HD) as Hq.
    set (q := (c / D)%Z) in *. set (r := (c mod D)%Z) in *.
    destruct (2 * r <? D)%Z eqn:E1; [apply Z.ltb_lt in E1 | apply Z.ltb_ge in E1].
    + split; [exact Hq|]. left. lia.
    + destruct (D <? 2 * r)%Z eqn:E2; [apply Z.ltb_lt in E2 | apply Z.ltb_ge in E2].
      * split; [lia|]. left. lia.
      * destruct (Z.even q) eqn:E3.
        -- split; [exact Hq|]. right. split; [lia | exact E3].
        -- split; [lia|]. right. split; [lia|]. rewrite Z.even_add, E3. reflexivity.
Qed.

(** The examples of money_format's docstring, and a few half-cent and
    negative amounts as Python formats them. *)
Example money_format_doctest :
  map (fun d => money_format (mkmoney d "EUR"))
    [mkdecimal false 1 (-3); mkdecimal false 12 (-3); mkdecimal false 99 (-2);
     mkdecimal false 1 0; mkdecimal false 999 0; mkdecimal false 1000 0;
     mkdecimal false 123456789 (-2); mkdecimal false 2675 (-3); mkdecimal true 1 (-3);
     mkdecimal false 123456789995 (-3); mkdecimal false 1005 (-3); mkdecimal false 1 3;
     mkdecimal true 0 0; mkdecimal false 15 (-3)] =
  ["0.00"; "0.01"; "0.99"; "1.00"; "999.00"; "1000.00"; "1234567.89"; "2.68"; "-0.00";
   "123456790.00"; "1.00"; "1000.00"; "-0.00"; "0.02"].
Proof. vm_compute. reflexivity. Qed.

(** C4, as stated: the half-cent case 0.125 is formatted "0.12", where
    rounding half up would give "0.13". *)
Lemma money_format_half_cent :
  money_format (mkmoney (mkdecimal false 125 (-3)) "EUR") = "0.12" /\
  money_format (mkmoney (mkdecimal false 125 (-3)) "EUR") <> "0.13".
Proof. split; [reflexivity | vm_compute; congruence]. Qed.

(** C4, corrected: for every finite amount, money_format writes the sign
    (also on a zero), the integer part, "." and exactly two digits, for
    the number of cents nearest to the absolute value, a half-cent tie
    going to the even number of cents (banker's rounding); for example
    0.001 gives "0.00", 0.99 gives "0.99", 1000 gives "1000.00" and 0.125
    gives "0.12". *)
Theorem money_format_cents :
  (forall d cur, exists q, (0 <= q)%Z /\
     nearest_even_cents (Z.of_N (dec_coef d)) (dec_exp d) q /\
     money_format (mkmoney d cur) =
       (if dec_sign d then "-" else "") ++ dec_string (Z.to_N (q / 100)%Z) ++ "." ++
       zpad 2 (q mod 100)%Z /\
     String.length (zpad 2 (q mod 100)%Z) = 2%nat /\
     all_chars is_digit (zpad 2 (q mod 100)%Z) = true) /\
  money_format (mkmoney (mkdecimal false 1 (-3)) "EUR") = "0.00" /\
  money_format (mkmoney (mkdecimal false 99 (-2)) "EUR") = "0.99" /\
  money_format (mkmoney (mkdecimal false 1000 0) "EUR") = "1000.00" /\
  money_format (mkmoney (mkdecimal false 125 (-3)) "EUR") = "0.12".
Proof.
  split; [|repeat split; reflexivity].
  intros d cur. exists (quantize_cents d).
  destruct (quantize_cents_nearest d) as [H0 H1].
  destruct (zpad2_digits (quantize_cents d mod 100)%Z) as [H2 H3];
    [apply Z.mod_pos_bound; lia|].
  repeat split; assumption.
Qed.

(** ** read_tsv *)

Section ReadTsvProofs.
Variable csv_reader : list string -> list (list string).
Variable strptime_date : string -> result date.
Variable Currency : string -> result string.
Variable Money : string -> string -> result money.

Local Abbreviation build := (build_transaction strptime_date Currency Money).
Local Abbreviation rows_of := (read_rows strptime_date Currency Money).
Local Abbreviation read := (read_tsv csv_reader strptime_date Currency Money).

Lemma build_transaction_order : forall o row t, build o row = Ok t -> order t = o.
Proof.
  intros o row t H. unfold build_transaction in H.
  repeat match type of H with
         | bind ?m _ = Ok _ =>
             let E := fresh "E" in destruct m eqn:E; cbn [bind] in H; [|discriminate]
         end.
  injection H as <-. reflexivity.
Qed.

Lemma read_rows_orders : forall rows k,
  map order (fst (rows_of k rows)) =
  map (fun i => (k + Z.of_nat i)%Z) (seq 1 (length (fst (rows_of k rows)))).
Proof.
  induction rows as [|r rows IH]; intros k; [reflexivity|].
  cbn [read_rows]. destruct (make_row r) as [row|e]; [|reflexivity].
  destruct (build (k + 1)%Z row) as [t|e] eqn:Eb; [|reflexivity].
  specialize (IH (k + 1)%Z).
  destruct (rows_of (k + 1)%Z rows) as [ts err]. simpl fst in *. simpl length. simpl seq.
  simpl map. rewrite (build_transaction_order _ _ _ Eb), IH.
  rewrite <- (seq_shift _ 1), map_map. f_equal; try lia. apply map_ext. intros i. lia.
Qed.

Lemma read_rows_nth : forall rows k i t,
  nth_error (fst (rows_of k rows)) i = Some t ->
  exists r row, nth_error rows i = Some r /\ make_row r = Ok row /\
                build (k + Z.of_nat (S i))%Z row = Ok t.
Proof.
  induction rows as [|r rows IH]; intros k i t H; [destruct i; discriminate|].
  cbn [read_rows] in H. destruct (make_row r) as [row|e] eqn:Er; [|destruct i; discriminate].
  destruct (build (k + 1)%Z row) as [t'|e] eqn:Eb; [|destruct i; discriminate].
  destruct (rows_of (k + 1)%Z rows) as [ts err] eqn:Ers. simpl fst in H.
  destruct i as [|i].
  - injection H as <-. exists r, row. split; [reflexivity|]. split; [exact Er|].
    rewrite <- Eb. f_equal; lia.
  - simpl in H. destruct (IH (k + 1)%Z i t) as [r' [row' [H1 [H2 H3]]]];
      [rewrite Ers; exact H|].
    exists r', row'. split; [exact H1|]. split; [exact H2|].
    rewrite <- H3. f_equal; lia.
Qed.

Lemma sorted_seq : forall n a, Sorted Z.lt (map Z.of_nat (seq a n)).
Proof.
  induction n as [|n IH]; intros a; [constructor|].
  simpl. constructor; [apply IH|]. destruct n; simpl; constructor. lia.
Qed.

Lemma filter_comments_skip : forall l1 c l2, is_comment_or_blank c = true ->
  filter_comments (l1 ++ c :: l2) = filter_comments (l1 ++ l2).
Proof.
  intros l1 c l2 Hc. induction l1 as [|x l1 IH].
  - simpl. unfold is_comment_or_blank in Hc.
    destruct (prefix "#" (lstrip c)); [reflexivity|].
    simpl in Hc. rewrite Hc. reflexivity.
  - simpl. rewrite IH. reflexivity.
Qed.

(** C5: the transactions read_tsv yields (before the end of the input or
    the first row that raises) have the orders 1, 2, 3, ... in turn, so
    the orders strictly increase; the one at position i (from 0) was
    built from record i of the input with its comment and blank lines
    removed, with order i + 1; a comment or blank line inserted anywhere
    changes nothing, and three yielded transactions have orders 1, 2, 3. *)
Theorem read_tsv_order :
  (forall file,
     let ts := fst (read file) in
     map order ts = map Z.of_nat (seq 1 (length ts)) /\
     Sorted Z.lt (map order ts) /\
     (forall i t, nth_error ts i = Some t ->
        order t = Z.of_nat (S i) /\
        exists r row, nth_error (csv_reader (filter_comments file)) i = Some r /\
                      make_row r = Ok row /\ build (Z.of_nat (S i)) row = Ok t)) /\
  (forall l1 c l2, is_comment_or_blank c = true -> read (l1 ++ c :: l2) = read (l1 ++ l2)) /\
  (forall file, length (fst (read file)) = 3%nat -> map order (fst (read file)) = [1; 2; 3]%Z).
Proof.
  assert (Hmap : forall file, map order (fst (read file)) =
                              map Z.of_nat (seq 1 (length (fst (read file))))).
  { intros file. unfold read_tsv. rewrite read_rows_orders. apply map_ext. reflexivity. }
  split; [|split].
  - intros file ts. subst ts. split; [apply Hmap|]. split; [rewrite Hmap; apply sorted_seq|].
    intros i t H. unfold read_tsv in H.
    destruct (read_rows_nth _ 0 i t H) as [r [row [H1 [H2 H3]]]].
    split; [apply (build_transaction_order _ _ _ H3)|].
    exists r, row. split; [exact H1|]. split; [exact H2 | exact H3].
  - intros l1 c l2 Hc. unfold read_tsv. rewrite filter_comments_skip by exact Hc. reflexivity.
  - intros file H. rewrite Hmap, H. reflexivity.
Qed.

End ReadTsvProofs.

(** The example of filter_comments' docstring. *)
Example filter_comments_doctest :
  filter_comments [""; "first"; ""; "# foo"; "second"; "     # foo"; "last"] =
  ["first"; "second"; "last"].
Proof. reflexivity. Qed.

Lemma read_tsv_order_witness :
  let tab := String (ascii_of_nat 9) "" in
  let csv := map (split_on (ascii_of_nat 9)) in
  let strp := fun _ : string => Ok (mkdate 2024 1 1) in
  let cur := fun c : string => Ok c in
  let mon := fun (_ c : string) => Ok (mkmoney (mkdecimal false 0 0) c) in
  let row := "123" ++ tab ++ "EUR" ++ tab ++ "20240101" ++ tab ++ "1,00" ++ tab ++ "2,00"
             ++ tab ++ "20240101" ++ tab ++ "1,00" ++ tab ++ "/TRTP/x" in
  let file := ["# comment"; row; ""; "  # x"; row; "   "; row] in
  is_comment_or_blank "  # x" = true /\
  read_tsv csv strp cur mon (["# comment"; row] ++ "  # x" :: [row]) =
  read_tsv csv strp cur mon (["# comment"; row] ++ [row]) /\
  length (fst (read_tsv csv strp cur mon file)) = 3%nat /\
  map order (fst (read_tsv csv strp cur mon file)) = [1; 2; 3]%Z.
Proof.
  intros tab csv strp cur mon row file.
  split; [reflexivity|]. split.
  - apply (proj1 (proj2 (read_tsv_order csv strp cur mon))). reflexivity.
  - split; [vm_compute; reflexivity|].
    apply (proj2 (proj2 (read_tsv_order csv strp cur mon)) file). vm_compute. reflexivity.
Defined.

(** ** Page.convert_date *)

(** The examples of convert_date's docstring. *)
Example convert_date_doctest :
  map (fun pt => convert_date (fst pt) (snd pt))
    [(mkdate 2023 1 1, "01 jan"); (mkdate 2023 1 1, "1 jan"); (mkdate 2023 1 1, "31 dec");
     (mkdate 2023 1 1, "09 dec"); (mkdate 2023 1 1, "9 dec"); (mkdate 2023 1 1, "25 nov");
     (mkdate 2023 2 2, "01 feb"); (mkdate 2023 2 2, "1 feb"); (mkdate 2023 2 2, "20 jan");
     (mkdate 2023 2 2, "01 jan"); (mkdate 2023 2 2, "1 jan"); (mkdate 2023 2 2, "31 dec");
     (mkdate 2023 2 2, "09 dec"); (mkdate 2023 2 2, "9 dec");
     (mkdate 2023 6 1, "01 jun"); (mkdate 2023 6 1, "1 jun"); (mkdate 2023 6 1, "20 mei");
     (mkdate 2023 6 1, "01 mei"); (mkdate 2023 6 1, "1 mei"); (mkdate 2023 6 1, "28 apr");
     (mkdate 2023 6 1, "08 apr"); (mkdate 2023 6 1, "8 apr"); (mkdate 2023 7 1, " 20 jun ")] =
  map Ok
    [mkdate 2023 1 1; mkdate 2023 1 1; mkdate 2022 12 31; mkdate 2022 12 9; mkdate 2022 12 9;
     mkdate 2022 11 25; mkdate 2023 2 1; mkdate 2023 2 1; mkdate 2023 1 20; mkdate 2023 1 1;
     mkdate 2023 1 1; mkdate 2022 12 31; mkdate 2022 12 9; mkdate 2022 12 9;
     mkdate 2023 6 1; mkdate 2023 6 1; mkdate 2023 5 20; mkdate 2023 5 1; mkdate 2023 5 1;
     mkdate 2023 4 28; mkdate 2023 4 8; mkdate 2023 4 8; mkdate 2023 6 20].
Proof. vm_compute. reflexivity. Qed.

(** C6: with statement date 2024-03-01, "29 feb" names a day that exists
    in 2024 (2024-02-29, the day before) but not in 2023; convert_date
    builds both candidates and raises [ValueError] on the second instead
    of returning 2024-02-29. When both candidates exist it picks the
    closer one, as on the example 2023-02-01, "09 dec" -> 2022-12-09. *)
Theorem convert_date_missing_candidate :
  mk_date 2024 2 29 = Ok (mkdate 2024 2 29) /\
  date_diff_days (mkdate 2024 3 1) (mkdate 2024 2 29) = 1%Z /\
  mk_date 2023 2 29 = Err ValueError /\
  convert_date (mkdate 2024 3 1) "29 feb" = Err ValueError /\
  convert_date (mkdate 2023 2 1) "09 dec" = Ok (mkdate 2022 12 9).
Proof. vm_compute. repeat split. Qed.

(** ** The ICS PDF pipeline *)

Module IcsFacts.
Import Ics.

(** The example of get_transactions_from_pages' docstring, with
    [Money(a, c)] kept as the pair of its arguments and [float(s)] as
    its argument. *)
Example get_transactions_from_pages_doctest :
  let page1 := mkPage (mkdate 2023 2 1) 1
     [(789%Z, ["09 dec"; "09 dec"; "GEINCASSEERD VORIG SALDO"; ""; ""; ""; ""; "500,00"; "Bij"]);
      (678%Z, ["Uw Card met als laatste vier cijfers 1234"; ""; ""; ""; ""; ""; ""; ""; ""]);
      (567%Z, ["J SMITH VAN DE FOOBAR"; ""; ""; ""; ""; ""; ""; ""; ""]);
      (456%Z, ["02 jan"; "03 jan"; "Description here"; "Foobar"; "NLD"; ""; ""; "100,00"; "Af"]);
      (345%Z, ["03 jan"; "03 jan"; "Foreign purchase"; "Whatever"; "USA"; "6,05"; "USD"; "5,59"; "Af"]);
      (234%Z, [""; ""; "Wisselkoers USD"; "1,08229"; ""; ""; ""; ""; ""]);
      (123%Z, ["04 jan"; "04 jan"; "Blah blah blah"; "Fizzbuzz"; "LUX"; ""; ""; "6,99"; "Af"])] in
  let page2 := mkPage (mkdate 2023 2 1) 2
     [(789%Z, ["05 jan"; "05 jan"; "Boring stuff"; "123456789"; "NLD"; ""; ""; "1.234,56"; "Af"]);
      (678%Z, ["06 jan"; "06 jan"; "Money back"; "Fizzbuzz"; "LUX"; ""; ""; "6,99"; "Bij"]);
      (567%Z, ["Uw Card met als laatste vier cijfers 5678"; ""; ""; ""; ""; ""; ""; ""; ""]);
      (456%Z, ["M SMITH VAN DE FOOBAR"; ""; ""; ""; ""; ""; ""; ""; ""]);
      (345%Z, ["03 jan"; "03 jan"; "Foreign stuff"; "Hello"; "USA"; "6,05"; "USD"; "5,59"; "Af"]);
      (234%Z, [""; ""; "Wisselkoers USD"; "1,08229"; ""; ""; ""; ""; ""]);
      (123%Z, ["05 jan"; "05 jan"; "Is it over"; "Yet"; "NLD"; ""; ""; "1,99"; "Af"])] in
  get_transactions_from_pages (cell * cell) (fun a c => Ok (a, c)) string (fun s => Ok s)
    [page1; page2] =
  ([mkTransaction _ _ None (CDate (mkdate 2022 12 9)) [CStr "GEINCASSEERD VORIG SALDO"; CStr ""] (CStr "")
       None None (CStr "+500.00", CStr "EUR");
    mkTransaction _ _ (Some "1234") (CDate (mkdate 2023 1 2)) [CStr "Description here"; CStr "Foobar"] (CStr "NLD")
       None None (CStr "-100.00", CStr "EUR");
    mkTransaction _ _ (Some "1234") (CDate (mkdate 2023 1 3)) [CStr "Foreign purchase"; CStr "Whatever"] (CStr "USA")
       (Some (CStr "6.05", CStr "USD")) (Some "1.08229") (CStr "-5.59", CStr "EUR");
    mkTransaction _ _ (Some "1234") (CDate (mkdate 2023 1 4)) [CStr "Blah blah blah"; CStr "Fizzbuzz"] (CStr "LUX")
       None None (CStr "-6.99", CStr "EUR");
    mkTransaction _ _ (Some "1234") (CDate (mkdate 2023 1 5)) [CStr "Boring stuff"; CStr "123456789"] (CStr "NLD")
       None None (CStr "-1234.56", CStr "EUR");
    mkTransaction _ _ (Some "1234") (CDate (mkdate 2023 1 6)) [CStr "Money back"; CStr "Fizzbuzz"] (CStr "LUX")
       None None (CStr "+6.99", CStr "EUR");
    mkTransaction _ _ (Some "5678") (CDate (mkdate 2023 1 3)) [CStr "Foreign stuff"; CStr "Hello"] (CStr "USA")
       (Some (CStr "6.05", CStr "USD")) (Some "1.08229") (CStr "-5.59", CStr "EUR");
    mkTransaction _ _ (Some "5678") (CDate (mkdate 2023 1 5)) [CStr "Is it over"; CStr "Yet"] (CStr "NLD")
       None None (CStr "-1.99", CStr "EUR")], None).
Proof. vm_compute. reflexivity. Qed.
Section Pairs.
Variable money_t : Type.
Variable Money : cell -> cell -> result money_t.
Variable pyfloat : Type.
Variable py_float : string -> result pyfloat.

Lemma process_group_pair : forall card rows r,
  process_group money_t Money pyfloat py_float card rows = Ok r ->
  match snd r with Some t => foreign_pair_ok money_t pyfloat t | None => True end.
Proof.
  intros card rows r H. unfold process_group in H. cbv zeta in H.
  repeat match type of H with
         | bind ?m _ = Ok _ =>
             let E := fresh "E" in destruct m eqn:E; cbn [bind] in H; [|discriminate H]
         | (if ?b then _ else _) = Ok _ =>
             let E := fresh "E" in destruct b eqn:E
         | Err _ = Ok _ => discriminate H
         end;
  injection H as <-; exact I.
Qed.

Lemma part2_pairs : forall card groups,
  Forall (foreign_pair_ok money_t pyfloat) (fst (part2 money_t Money pyfloat py_float card groups)).
Proof.
  intros card groups. revert card. induction groups as [|rows groups IH]; intros card.
  - constructor.
  - cbn [part2].
    destruct (process_group money_t Money pyfloat py_float card rows) as [[c' [t|]]|e] eqn:E.
    + pose proof (process_group_pair _ _ _ E) as Ht. simpl in Ht.
      specialize (IH c').
      destruct (part2 money_t Money pyfloat py_float c' groups) as [ts err].
      constructor; assumption.
    + apply IH.
    + constructor.
Qed.

(** C8: every transaction get_transactions_from_pages yields has its
    foreign amount and its exchange rate both set (a two-row group) or
    both unset (a one-row group), for any pages and whatever [Money] and
    [float] return. *)
Theorem get_transactions_foreign_pair : forall pages,
  Forall (foreign_pair_ok money_t pyfloat)
    (fst (get_transactions_from_pages money_t Money pyfloat py_float pages)).
Proof.
  intros pages. unfold get_transactions_from_pages.
  destruct (part1 1 None pages) as [tbl|e]; [|constructor].
  destruct (group_related_rows tbl) as [groups gerr].
  pose proof (part2_pairs None groups) as H.
  destruct (part2 money_t Money pyfloat py_float None groups) as [ts err].
  exact H.
Qed.

End Pairs.

End IcsFacts.

(** * Further properties of the code *)

Lemma digit_of_char (d : N) : (d < 10)%N -> digit_of (digit_char d) = Some (Z.of_N d).
Proof.
  intros H.
  destruct (N.lt_decidable d 10) as [_|]; [|lia].
  assert (Hd : d = 0%N \/ d = 1%N \/ d = 2%N \/ d = 3%N \/ d = 4%N \/ d = 5%N \/
               d = 6%N \/ d = 7%N \/ d = 8%N \/ d = 9%N) by lia.
  repeat destruct Hd as [Hd|Hd]; subst d; reflexivity.
Qed.

Lemma dec_fuel_S f n acc : dec_fuel (S f) n acc =
  if (n <? 10)%N then String (digit_char (n mod 10)) acc
  else dec_fuel f (n / 10)%N (String (digit_char (n mod 10)) acc).
Proof. reflexivity. Qed.

Lemma dec_fuel_digits (f : nat) : forall n acc a b,
  (n < 10 ^ N.of_nat (S f))%N ->
  exists k, digits_val a b (dec_fuel (S f) n acc) =
            digits_val (a * 10 ^ Z.of_nat (S k) + Z.of_N n) true acc.
Proof.
  induction f as [|f IH]; intros n acc a b Hn.
  - cbn [dec_fuel]. assert (Hn' : (n < 10)%N) by (simpl in Hn; lia).
    rewrite (proj2 (N.ltb_lt _ _) Hn'). exists O. cbn [digits_val].
    rewrite N.mod_small by exact Hn'. rewrite digit_of_char by exact Hn'.
    f_equal; simpl; lia.
  - rewrite dec_fuel_S. destruct (n <? 10)%N eqn:E.
    + apply N.ltb_lt in E. exists O. cbn [digits_val].
      rewrite N.mod_small by exact E. rewrite digit_of_char by exact E. f_equal; simpl; lia.
    + idtac.
      destruct (IH (n / 10)%N (String (digit_char (n mod 10)) acc) a b) as [k Hk].
      { apply N.Div0.div_lt_upper_bound. rewrite <- N.pow_succ_r'.
        replace (N.succ (N.of_nat (S f))) with (N.of_nat (S (S f))) by lia. exact Hn. }
      exists (S k). rewrite Hk. cbn [digits_val].
      rewrite digit_of_char by (apply N.mod_lt; lia).
      f_equal. rewrite (N.div_mod n 10) at 3 by lia.
      rewrite (Nat2Z.inj_succ (S k)), Z.pow_succ_r by lia. rewrite N2Z.inj_add, N2Z.inj_mul. lia.

Qed.

Lemma of_nat_succ_N (k : nat) : N.of_nat (S k) = N.succ (N.of_nat k).
Proof. lia. Qed.

Lemma pos_size_bound (p : positive) : (Npos p < 2 ^ N.of_nat (Pos.size_nat p))%N.
Proof.
  induction p as [p IH|p IH|]; cbn [Pos.size_nat].
  - rewrite of_nat_succ_N, N.pow_succ_r'. lia.
  - rewrite of_nat_succ_N, N.pow_succ_r'. lia.
  - simpl. lia.
Qed.

Lemma pow2_le_pow10 (k : N) : (2 ^ k <= 10 ^ k)%N.
Proof. apply N.pow_le_mono_l. lia. Qed.

Lemma dec_string_digits (n : N) (a : Z) (b : bool) :
  exists k, digits_val a b (dec_string n) = Some (a * 10 ^ Z.of_nat (S k) + Z.of_N n)%Z.
Proof.
  unfold dec_string. destruct (dec_fuel_digits (N.size_nat n) n "" a b) as [k Hk].
  - destruct n as [|p]; [simpl; lia|].
    cbn [N.size_nat]. pose proof (pos_size_bound p). pose proof (pow2_le_pow10 (N.of_nat (Pos.size_nat p))).
    rewrite of_nat_succ_N, N.pow_succ_r'. lia.
  - exists k. rewrite Hk. reflexivity.
Qed.

Lemma zeros_S k : zeros (S k) = String "0" (zeros k).
Proof. unfold zeros. destruct k; reflexivity. Qed.

Lemma digits_val_zeros k s b :
  exists b', digits_val 0 b (zeros k ++ s) = digits_val 0 b' s.
Proof.
  induction k as [|k IH] in b |- *.
  - exists b. reflexivity.
  - rewrite zeros_S. cbn [append digits_val]. apply IH.
Qed.

Lemma all_chars_app f a b : all_chars f (a ++ b) = all_chars f a && all_chars f b.
Proof. induction a as [|c a IH]; simpl; [reflexivity|]. rewrite IH, andb_assoc. reflexivity. Qed.

Lemma digit_char_digit d : (d < 10)%N -> is_digit (digit_char d) = true.
Proof.
  intros H.
  assert (Hd : d = 0%N \/ d = 1%N \/ d = 2%N \/ d = 3%N \/ d = 4%N \/ d = 5%N \/
               d = 6%N \/ d = 7%N \/ d = 8%N \/ d = 9%N) by lia.
  repeat destruct Hd as [Hd|Hd]; subst d; reflexivity.
Qed.

Lemma dec_fuel_all_digits f : forall n acc,
  all_chars is_digit acc = true -> all_chars is_digit (dec_fuel f n acc) = true.
Proof.
  induction f as [|f IH]; intros n acc H; [exact H|].
  rewrite dec_fuel_S.
  assert (Hc : all_chars is_digit (String (digit_char (n mod 10)) acc) = true).
  { cbn [all_chars]. rewrite digit_char_digit, H by (apply N.mod_lt; lia). reflexivity. }
  destruct (n <? 10)%N; [exact Hc | apply IH, Hc].
Qed.

Lemma zpad_all_digits w n : all_chars is_digit (zpad w n) = true.
Proof.
  unfold zpad. rewrite all_chars_app. apply andb_true_intro. split.
  - generalize (w - String.length (dec_string (Z.to_N n))). intros k.
    induction k as [|k IH]; [reflexivity|]. fold (zeros (S k)) in *. rewrite zeros_S.
    exact IH.
  - apply dec_fuel_all_digits. reflexivity.
Qed.

Lemma dec_string_nonempty n : exists c t, dec_string n = String c t.
Proof.
  unfold dec_string. rewrite dec_fuel_S.
  generalize (N.size_nat n) as f. intros f.
  assert (forall f n acc, acc <> EmptyString -> dec_fuel f n acc <> EmptyString) as G.
  { induction f0 as [|f0 IH]; intros m acc Hacc; [exact Hacc|].
    rewrite dec_fuel_S. destruct (m <? 10)%N; [discriminate | apply IH; discriminate]. }
  destruct (n <? 10)%N; [eexists; eexists; reflexivity|].
  destruct (dec_fuel f (n / 10)%N (String (digit_char (n mod 10)) "")) as [|c t] eqn:E.
  - exfalso. revert E. apply G. discriminate.
  - exists c, t. reflexivity.
Qed.

Lemma digit_not_space c : is_digit c = true -> is_space c = false.
Proof.
  unfold is_digit, is_space. generalize (nat_of_ascii c). intros n H.
  apply andb_prop in H. destruct H as [H1 H2]. apply Nat.leb_le in H1, H2.
  repeat match goal with |- context [Nat.leb ?a ?b] => destruct (Nat.leb_spec a b) end;
  destruct (Nat.eqb_spec n 32); simpl; try reflexivity; lia.
Qed.

Lemma strip_id s : all_chars (fun c => negb (is_space c)) s = true -> strip s = s.
Proof.
  intros H. unfold strip.
  assert (Hr : rstrip s = s).
  { induction s as [|c s IH]; [reflexivity|]. cbn [all_chars] in H.
    apply andb_prop in H. destruct H as [Hc H]. cbn [rstrip]. rewrite (IH H).
    destruct s; [|reflexivity]. apply negb_true_iff in Hc. rewrite Hc. reflexivity. }
  rewrite Hr. destruct s as [|c s]; [reflexivity|]. cbn [all_chars] in H.
  apply andb_prop in H. destruct H as [Hc _]. apply negb_true_iff in Hc.
  cbn [lstrip]. rewrite Hc. reflexivity.
Qed.

Lemma all_chars_impl (f g : ascii -> bool) s :
  (forall c, f c = true -> g c = true) -> all_chars f s = true -> all_chars g s = true.
Proof.
  intros Hfg. induction s as [|c s IH]; [reflexivity|]. cbn [all_chars].
  intros H. apply andb_prop in H. destruct H as [H1 H2]. rewrite (Hfg c H1), (IH H2).
  reflexivity.
Qed.

Lemma count_digits_le s : (count_digits s <= String.length s)%nat.
Proof. induction s as [|c s IH]; cbn [count_digits String.length]; [lia|]. destruct (is_digit c); lia. Qed.

Lemma dec_fuel_length f : forall n acc k, (n < 10 ^ N.of_nat (S k))%N ->
  (String.length (dec_fuel f n acc) <= S k + String.length acc)%nat.
Proof.
  induction f as [|f IH]; intros n acc k Hn; [cbn [dec_fuel]; lia|].
  rewrite dec_fuel_S. destruct (n <? 10)%N eqn:E; [cbn [String.length]; lia|].
  apply N.ltb_ge in E. destruct k as [|k].
  - simpl in Hn. lia.
  - etransitivity; [apply (IH _ _ k)|cbn [String.length]; lia].
    apply N.Div0.div_lt_upper_bound. rewrite <- N.pow_succ_r'.
    replace (N.succ (N.of_nat (S k))) with (N.of_nat (S (S k))) by lia. exact Hn.
Qed.

Lemma zeros_length k : String.length (zeros k) = k.
Proof. induction k as [|k IH]; [reflexivity|]. rewrite zeros_S. cbn [String.length]. lia. Qed.

Lemma zpad_length_small w n : (w <= int_max_str_digits)%nat -> (0 <= n < 10000)%Z ->
  (String.length (zpad w n) <= int_max_str_digits)%nat.
Proof.
  intros Hw Hn. unfold zpad. fold (zeros (w - String.length (dec_string (Z.to_N n)))).
  rewrite slen_app, zeros_length.
  assert (L : (String.length (dec_string (Z.to_N n)) <= 4)%nat).
  { unfold dec_string. pose proof (dec_fuel_length (S (N.size_nat (Z.to_N n))) (Z.to_N n) "" 3) as H.
    cbn [String.length] in H. apply H. simpl. lia. }
  unfold int_max_str_digits in *. lia.
Qed.

Lemma py_int_zpad w n : (w <= int_max_str_digits)%nat -> (0 <= n < 10000)%Z ->
  py_int (zpad w n) = Ok n.
Proof.
  intros Hw Hn. unfold py_int.
  assert (Hc : (count_digits (zpad w n) <=? int_max_str_digits)%nat = true).
  { apply Nat.leb_le. etransitivity; [apply count_digits_le | apply zpad_length_small; assumption]. }
  rewrite Hc. clear Hc Hw. assert (Hn' : (0 <= n)%Z) by lia. clear Hn. rename Hn' into Hn.
  rewrite strip_id.
  2:{ apply (all_chars_impl is_digit); [|apply zpad_all_digits].
      intros c Hc. rewrite digit_not_space by exact Hc. reflexivity. }
  pose proof (zpad_all_digits w n) as Hd.
  assert (Hv : digits_val 0 false (zpad w n) = Some n).
  { unfold zpad. fold (zeros (w - String.length (dec_string (Z.to_N n)))).
    destruct (digits_val_zeros (w - String.length (dec_string (Z.to_N n)))
                (dec_string (Z.to_N n)) false) as [b' Hb]. rewrite Hb.
    destruct (dec_string_digits (Z.to_N n) 0 b') as [k Hk]. rewrite Hk.
    f_equal. rewrite Z2N.id by exact Hn. lia. }
  destruct (zpad w n) as [|c t] eqn:E; [discriminate|].
  cbn [all_chars] in Hd. apply andb_prop in Hd. destruct Hd as [Hc _].
  destruct (Ascii.eqb_spec c "-"%char); [subst c; discriminate|].
  destruct (Ascii.eqb_spec c "+"%char); [subst c; discriminate|].
  rewrite Hv. reflexivity.
Qed.

Lemma split_on_any_app seps x c r :
  all_chars (fun d => negb (existsb (Ascii.eqb d) seps)) x = true ->
  existsb (Ascii.eqb c) seps = true ->
  split_on_any seps (x ++ String c r) = x :: split_on_any seps r.
Proof.
  intros Hx Hc. induction x as [|d x IH]; cbn [append split_on_any].
  - rewrite Hc. reflexivity.
  - cbn [all_chars] in Hx. apply andb_prop in Hx. destruct Hx as [Hd Hx].
    apply negb_true_iff in Hd. rewrite Hd, (IH Hx). reflexivity.
Qed.

Lemma split_on_any_none seps x :
  all_chars (fun d => negb (existsb (Ascii.eqb d) seps)) x = true ->
  split_on_any seps x = [x].
Proof.
  intros Hx. induction x as [|d x IH]; [reflexivity|]. cbn [split_on_any].
  cbn [all_chars] in Hx. apply andb_prop in Hx. destruct Hx as [Hd Hx].
  apply negb_true_iff in Hd. rewrite Hd, (IH Hx). reflexivity.
Qed.

Lemma digit_not_sep c : is_digit c = true -> negb (existsb (Ascii.eqb c) nr_seps) = true.
Proof.
  intros H. unfold nr_seps. cbn [existsb].
  destruct (Ascii.eqb_spec c "-"%char); [subst c; discriminate|].
  destruct (Ascii.eqb_spec c ":"%char); [subst c; discriminate|].
  destruct (Ascii.eqb_spec c "."%char); [subst c; discriminate|].
  destruct (Ascii.eqb_spec c "/"%char); [subst c; discriminate|]. reflexivity.
Qed.

Lemma zpad_no_sep w n : all_chars (fun d => negb (existsb (Ascii.eqb d) nr_seps)) (zpad w n) = true.
Proof. apply (all_chars_impl is_digit); [exact digit_not_sep | apply zpad_all_digits]. Qed.

Lemma zpad_no_space w n : all_chars (fun c => negb (is_space c)) (zpad w n) = true.
Proof.
  apply (all_chars_impl is_digit); [|apply zpad_all_digits].
  intros c Hc. rewrite digit_not_space by exact Hc. reflexivity.
Qed.

Lemma sep_not_space c : In c nr_seps -> is_space c = false.
Proof. intros H. repeat destruct H as [H|H]; subst; try reflexivity. destruct H. Qed.

Lemma sep_in c : In c nr_seps -> existsb (Ascii.eqb c) nr_seps = true.
Proof. intros H. apply existsb_exists. exists c. split; [exact H | apply Ascii.eqb_refl]. Qed.

Lemma mk_date_ok y m d t : mk_date y m d = Ok t ->
  t = mkdate y m d /\ (1 <= y <= 9999)%Z /\ (1 <= m <= 12)%Z /\ (1 <= d <= days_in_month y m)%Z.
Proof.
  unfold mk_date. destruct (_ && _) eqn:E; [|discriminate]. injection 1 as <-.
  rewrite !andb_true_iff, !Z.leb_le in E. split; [reflexivity | lia].
Qed.

(** parse_nr_datetime reads back any date and time written as day,
    month, two-digit year, hour and minute, each in decimal zero-padded
    to a width of at most 4300 characters (the most [int()] accepts),
    separated by any of "-", ":", "." and "/": it gives the datetime in
    year 2000 + yy whenever that is a valid datetime. *)
Theorem parse_nr_datetime_roundtrip (w1 w2 w3 w4 w5 : nat) (dd mm yy hh mi : Z)
    (s1 s2 s3 s4 : ascii) (t : datetime) :
  In s1 nr_seps -> In s2 nr_seps -> In s3 nr_seps -> In s4 nr_seps ->
  (w1 <= int_max_str_digits)%nat -> (w2 <= int_max_str_digits)%nat ->
  (w3 <= int_max_str_digits)%nat -> (w4 <= int_max_str_digits)%nat ->
  (w5 <= int_max_str_digits)%nat ->
  (0 <= dd)%Z -> (0 <= mm)%Z -> (0 <= yy)%Z -> (0 <= hh)%Z -> (0 <= mi)%Z ->
  mk_datetime (2000 + yy) mm dd hh mi = Ok t ->
  parse_nr_datetime
    (zpad w1 dd ++ String s1 (zpad w2 mm ++ String s2 (zpad w3 yy ++
       String s3 (zpad w4 hh ++ String s4 (zpad w5 mi))))) = Ok t.
Proof.
  intros H1 H2 H3 H4 W1 W2 W3 W4 W5 Hd Hm Hy Hh Hi Ht.
  assert (B : (dd < 10000 /\ mm < 10000 /\ yy < 10000 /\ hh < 10000 /\ mi < 10000)%Z).
  { unfold mk_datetime in Ht. destruct (mk_date _ _ _) as [dt|] eqn:E; [|discriminate Ht].
    cbn [bind] in Ht. destruct (_ && _)%bool eqn:E'; [|discriminate Ht].
    apply mk_date_ok in E. rewrite !andb_true_iff, !Z.leb_le in E'.
    assert (days_in_month (2000 + yy) mm <= 31)%Z.
    { unfold days_in_month. destruct (_ =? _)%Z; [destruct (is_leap _)|destruct (existsb _ _)]; lia. }
    lia. }
  destruct B as (Bd & Bm & By & Bh & Bi).
  unfold parse_nr_datetime.
  rewrite strip_id.
  2:{ repeat (rewrite all_chars_app; cbn [all_chars]);
      rewrite !zpad_no_space, !sep_not_space by assumption; reflexivity. }
  change ["-"; ":"; "."; "/"]%char with nr_seps.
  rewrite !split_on_any_app by (apply zpad_no_sep || (apply sep_in; assumption)).
  rewrite split_on_any_none by apply zpad_no_sep.
  cbn [map_result]. rewrite !py_int_zpad by (assumption || lia). exact Ht.
Qed.

(** [int()] refuses a number of more than 4300 digits, leading zeros
    included. *)
Example py_int_digit_limit :
  py_int (zeros 4298 ++ "31") = Ok 31%Z /\ py_int (zeros 4299 ++ "31") = Err ValueError.
Proof. split; vm_compute; reflexivity. Qed.

Lemma parse_nr_datetime_roundtrip_witness :
  parse_nr_datetime "31.12.23/23.59" = Ok (mkdatetime (mkdate 2023 12 31) 23 59).
Proof.
  apply (parse_nr_datetime_roundtrip 2 2 2 2 2 31 12 23 23 59 "."%char "."%char "/"%char "."%char);
    try (cbn; tauto); try (unfold int_max_str_digits; lia); try lia; reflexivity.
Defined.

Lemma batched_fuel_spec {A} (n : nat) : 0 < n -> forall f (l : list A), length l <= f ->
  concat (batched_fuel f n l) = l /\
  Forall (fun b => 1 <= length b <= n) (batched_fuel f n l) /\
  Forall (fun b => length b = n) (removelast (batched_fuel f n l)).
Proof.
  intros Hn f. induction f as [|f IH]; intros l Hl.
  - destruct l; [|simpl in Hl; lia]. repeat split; constructor.
  - destruct l as [|x l']; [repeat split; constructor|].
    cbn [batched_fuel]. set (l := x :: l') in *.
    destruct (IH (skipn n l)) as [H1 [H2 H3]].
    { rewrite length_skipn. subst l. cbn [length] in Hl |- *. lia. }
    split; [|split].
    + cbn [concat]. rewrite H1. apply firstn_skipn.
    + constructor; [|exact H2]. rewrite length_firstn. subst l; simpl; lia.
    + destruct (batched_fuel f n (skipn n l)) as [|b bs] eqn:E.
      * constructor.
      * change (removelast (firstn n l :: b :: bs)) with (firstn n l :: removelast (b :: bs)).
        constructor; [|exact H3]. rewrite length_firstn.
        assert (n <= length l).
        { destruct (Nat.le_gt_cases n (length l)) as [|Hlt]; [assumption|].
          rewrite skipn_all2 in E by lia. destruct f; discriminate. }
        lia.
Qed.

Lemma batched_fuel_two (f : nat) (l : list string) : length l <= f ->
  batched_fuel f 2 l = batched2 l.
Proof.
  revert l. induction f as [|f IH]; intros l Hl.
  - destruct l; [reflexivity | simpl in Hl; lia].
  - destruct l as [|x [|y l]]; [reflexivity| |].
    + destruct f; reflexivity.
    + cbn [batched_fuel firstn skipn batched2]. rewrite IH by (simpl in Hl; lia). reflexivity.
Qed.

(** batched: [n < 1] raises [ValueError]; otherwise the batches, joined,
    give the input back, each holds between one and [n] items, and all
    but the last hold exactly [n]. For [n = 2] it is the pairing used by
    parse_description. *)
Theorem batched_props :
  (forall A (l : list A) n, (n < 1)%Z -> batched l n = Err ValueError) /\
  (forall A (l : list A) n, (1 <= n)%Z -> exists bs, batched l n = Ok bs /\
     concat bs = l /\
     Forall (fun b => (1 <= length b <= Z.to_nat n)%nat) bs /\
     Forall (fun b => length b = Z.to_nat n) (removelast bs)) /\
  (forall l : list string, batched l 2 = Ok (batched2 l)).
Proof.
  split; [|split].
  - intros A l n H. unfold batched. rewrite (proj2 (Z.ltb_lt n 1) H). reflexivity.
  - intros A l n H. unfold batched. rewrite (proj2 (Z.ltb_ge n 1) H).
    eexists. split; [reflexivity|]. apply batched_fuel_spec; lia.
  - intros l. unfold batched. cbn -[batched_fuel]. rewrite batched_fuel_two by lia. reflexivity.
Qed.

Lemma batched_props_witness :
  (1 <= 3)%Z /\ batched [1; 2; 3; 4; 5; 6; 7] 3 = Ok [[1; 2; 3]; [4; 5; 6]; [7]] /\
  (0 < 1)%Z /\ batched [1] 0 = Err ValueError.
Proof.
  split; [lia|]. split; [reflexivity|]. split; [lia|].
  apply (proj1 batched_props). lia.
Defined.

Lemma filter_comments_filter l :
  filter_comments l = filter (fun x => negb (is_comment_or_blank x)) l.
Proof.
  induction l as [|x l IH]; [reflexivity|]. cbn [filter_comments filter].
  unfold is_comment_or_blank. rewrite IH.
  destruct (prefix "#" (lstrip x)); [reflexivity|].
  destruct (String.eqb (strip x) ""); reflexivity.
Qed.

(** filter_comments works line by line: it distributes over
    concatenation, filtering twice is filtering once, and it keeps exactly
    the lines that are neither comments (after leading whitespace) nor
    blank, in their order. *)
Theorem filter_comments_props :
  (forall l1 l2, filter_comments (l1 ++ l2) = filter_comments l1 ++ filter_comments l2)%list /\
  (forall l, filter_comments (filter_comments l) = filter_comments l) /\
  (forall l, Forall (fun x => is_comment_or_blank x = false) (filter_comments l)) /\
  (forall l x, In x (filter_comments l) <-> In x l /\ is_comment_or_blank x = false).
Proof.
  split; [|split; [|split]].
  - intros l1 l2. rewrite !filter_comments_filter. apply filter_app.
  - intros l. rewrite !filter_comments_filter.
    induction l as [|x l IH]; [reflexivity|]. cbn [filter].
    destruct (negb (is_comment_or_blank x)) eqn:E; cbn [filter]; [rewrite E, IH; reflexivity | exact IH].
  - intros l. rewrite filter_comments_filter. apply Forall_forall. intros x Hx.
    apply filter_In in Hx. destruct Hx as [_ Hx]. apply negb_true_iff, Hx.
  - intros l x. rewrite filter_comments_filter, filter_In, negb_true_iff. reflexivity.
Qed.

Lemma filter_comments_props_witness :
  filter_comments ["# header"; "a"; "   "; "b"] = ["a"; "b"] /\
  (In "a" (filter_comments ["# header"; "a"; "   "; "b"])) /\
  (In "a" ["# header"; "a"; "   "; "b"] /\ is_comment_or_blank "a" = false).
Proof.
  split; [reflexivity|]. split.
  - apply (proj2 (proj2 (proj2 (proj2 filter_comments_props)) _ _)). split; [cbn; tauto | reflexivity].
  - apply (proj1 (proj2 (proj2 (proj2 filter_comments_props)) _ _)). vm_compute. left; reflexivity.
Defined.

Lemma pow_split (x a b : Z) : (0 <= a)%Z -> (0 <= b)%Z -> (x * 10 ^ (a + b) = x * 10 ^ a * 10 ^ b)%Z.
Proof. intros Ha Hb. rewrite Z.pow_add_r by lia. ring. Qed.

Lemma dec_eqb_iff a b : dec_eqb a b = true <->
  forall m, (m <= dec_exp a)%Z -> (m <= dec_exp b)%Z ->
    (dec_int a * 10 ^ (dec_exp a - m) = dec_int b * 10 ^ (dec_exp b - m))%Z.
Proof.
  unfold dec_eqb. rewrite Z.eqb_eq. set (e := Z.min (dec_exp a) (dec_exp b)). split.
  - intros H m Ha Hb.
    assert (He : (m <= e)%Z) by (apply Z.min_glb; assumption).
    replace (dec_exp a - m)%Z with ((dec_exp a - e) + (e - m))%Z by lia.
    replace (dec_exp b - m)%Z with ((dec_exp b - e) + (e - m))%Z by lia.
    rewrite !pow_split by (unfold e; lia). rewrite H. reflexivity.
  - intros H. apply H; unfold e; lia.
Qed.

Lemma dec_eqb_sym a b : dec_eqb a b = dec_eqb b a.
Proof. unfold dec_eqb. rewrite Z.min_comm, Z.eqb_sym. reflexivity. Qed.

Lemma dec_eqb_trans a b c : dec_eqb a b = true -> dec_eqb b c = true -> dec_eqb a c = true.
Proof.
  rewrite !dec_eqb_iff. intros H1 H2 m Ha Hc.
  set (m' := Z.min m (dec_exp b)).
  assert (K : forall x y, (m' <= x)%Z -> (m <= y)%Z -> (y <= x)%Z -> 
           (x - m' = (x - y) + (y - m) + (m - m'))%Z) by (intros; lia).
  assert (Hm : (m' <= m)%Z) by (unfold m'; lia).
  assert (Hab : (dec_int a * 10 ^ (dec_exp a - m') = dec_int b * 10 ^ (dec_exp b - m'))%Z)
    by (apply H1; unfold m'; lia).
  assert (Hbc : (dec_int b * 10 ^ (dec_exp b - m') = dec_int c * 10 ^ (dec_exp c - m'))%Z)
    by (apply H2; unfold m'; lia).
  rewrite Hbc in Hab.
  replace (dec_exp a - m')%Z with ((dec_exp a - m) + (m - m'))%Z in Hab by lia.
  replace (dec_exp c - m')%Z with ((dec_exp c - m) + (m - m'))%Z in Hab by lia.
  rewrite !pow_split in Hab by lia.
  apply Z.mul_reg_r in Hab; [exact Hab|]. apply Z.pow_nonzero; lia.
Qed.

Lemma money_eqb_sym a b : money_eqb a b = money_eqb b a.
Proof. unfold money_eqb. rewrite dec_eqb_sym, String.eqb_sym. reflexivity. Qed.

Lemma money_eqb_trans a b c : money_eqb a b = true -> money_eqb b c = true -> money_eqb a c = true.
Proof.
  unfold money_eqb. rewrite !andb_true_iff, !String.eqb_eq. intros [H1 H2] [H3 H4].
  split; [eapply dec_eqb_trans; eassumption | congruence].
Qed.

Lemma date_eqb_sym a b : date_eqb a b = date_eqb b a.
Proof. unfold date_eqb. rewrite (Z.eqb_sym (year a)), (Z.eqb_sym (month a)), (Z.eqb_sym (day a)). reflexivity. Qed.

Lemma date_eqb_trans3 a b c : date_eqb a b = true -> date_eqb b c = true -> date_eqb a c = true.
Proof.
  unfold date_eqb. rewrite !andb_true_iff, !Z.eqb_eq. intros [[H1 H2] H3] [[H4 H5] H6].
  repeat split; congruence.
Qed.

(** [Transaction.__eq__] is an equivalence relation: reflexive, symmetric
    and transitive, so it can be used to group or deduplicate the
    transactions of overlapping downloads. *)
Theorem Transaction_eq_equivalence :
  (forall a, Transaction_eq a a = true) /\
  (forall a b, Transaction_eq a b = Transaction_eq b a) /\
  (forall a b c, Transaction_eq a b = true -> Transaction_eq b c = true -> Transaction_eq a c = true).
Proof.
  split; [|split].
  - intros a. unfold Transaction_eq. rewrite Z.eqb_refl, date_eqb_refl, String.eqb_refl, !money_eqb_refl.
    reflexivity.
  - intros a b. unfold Transaction_eq.
    rewrite Z.eqb_sym, date_eqb_sym, String.eqb_sym, (money_eqb_sym (amount a)),
      (money_eqb_sym (start_saldo a)), (money_eqb_sym (end_saldo a)). reflexivity.
  - intros a b c. unfold Transaction_eq. rewrite !andb_true_iff, !Z.eqb_eq, !String.eqb_eq.
    intros [[[[[H1 H2] H3] H4] H5] H6] [[[[[K1 K2] K3] K4] K5] K6].
    repeat split; try congruence; eapply money_eqb_trans || eapply date_eqb_trans3; eassumption.
Qed.

Lemma Transaction_eq_equivalence_witness :
  let eur := fun (c : N) (e : Z) => mkmoney (mkdecimal false c e) "EUR" in
  let t := fun (a : money) (o : Z) => mkTransaction 1234%Z (mkdate 2024 1 1)%Z o "EUR" a (eur 11234%N (-2)%Z) (eur 100%N 0%Z) "x" in
  Transaction_eq (t (eur 1234%N (-2)%Z) 1%Z) (t (eur 12340%N (-3)%Z) 2%Z) = true /\
  Transaction_eq (t (eur 12340%N (-3)%Z) 2%Z) (t (eur 123400%N (-4)%Z) 3%Z) = true /\
  Transaction_eq (t (eur 1234%N (-2)%Z) 1%Z) (t (eur 123400%N (-4)%Z) 3%Z) = true.
Proof.
  intros eur t.
  assert (H1 : Transaction_eq (t (eur 1234%N (-2)%Z) 1%Z) (t (eur 12340%N (-3)%Z) 2%Z) = true) by reflexivity.
  assert (H2 : Transaction_eq (t (eur 12340%N (-3)%Z) 2%Z) (t (eur 123400%N (-4)%Z) 3%Z) = true) by reflexivity.
  split; [exact H1|]. split; [exact H2|].
  apply (proj2 (proj2 Transaction_eq_equivalence) _ _ _ H1 H2).
Defined.

(** Rescaling: the same value with [k] more digits in the coefficient. *)
Lemma quantize_scale s (c : N) e (k : Z) : (0 <= k)%Z ->
  quantize_cents (mkdecimal s (c * 10 ^ Z.to_N k) (e - k)) = quantize_cents (mkdecimal s c e).
Proof.
  intros Hk. unfold quantize_cents. cbn [dec_coef dec_exp].
  rewrite N2Z.inj_mul, N2Z.inj_pow, Z2N.id by exact Hk. cbn [Z.of_N Pos.of_succ_nat].
  change (Z.of_N 10) with 10%Z.
  set (x := Z.of_N c). assert (Hx : (0 <= x)%Z) by apply N2Z.is_nonneg.
  destruct (Z.leb_spec 0 (e - k + 2)) as [H1|H1]; destruct (Z.leb_spec 0 (e + 2)) as [H2|H2];
    try lia.
  - rewrite <- Z.mul_assoc, <- Z.pow_add_r by lia. f_equal. f_equal. lia.
  - unfold round_half_even_div.
    replace (- (e - k + 2))%Z with ((e + 2) + (- (e - k + 2) - (e + 2)) + 0)%Z by lia.
    replace (x * 10 ^ k)%Z with ((x * 10 ^ (e + 2)) * 10 ^ (- (e - k + 2)))%Z.
    2:{ rewrite <- Z.mul_assoc, <- Z.pow_add_r by lia. f_equal. f_equal. lia. }
    replace ((e + 2) + (- (e - k + 2) - (e + 2)) + 0)%Z with (- (e - k + 2))%Z by lia.
    assert (HD : (0 < 10 ^ (- (e - k + 2)))%Z) by (apply Z.pow_pos_nonneg; lia).
    rewrite Z.div_mul, Z_mod_mult by lia.
    replace (2 * 0)%Z with 0%Z by reflexivity.
    destruct (Z.ltb_spec 0 (10 ^ (- (e - k + 2)))); [reflexivity | lia].
  - unfold round_half_even_div.
    replace (- (e - k + 2))%Z with (- (e + 2) + k)%Z by lia.
    rewrite Z.pow_add_r by lia.
    assert (HD : (0 < 10 ^ (- (e + 2)))%Z) by (apply Z.pow_pos_nonneg; lia).
    assert (HK : (0 < 10 ^ k)%Z) by (apply Z.pow_pos_nonneg; lia).
    rewrite Z.div_mul_cancel_r by lia. rewrite Z.mul_mod_distr_r by lia.
    set (D := (10 ^ (- (e + 2)))%Z). set (K := (10 ^ k)%Z).
    set (r := (x mod D)%Z).
    replace (2 * (r * K))%Z with ((2 * r) * K)%Z by ring.
    destruct (Z.ltb_spec (2 * r) D) as [L1|L1];
      destruct (Z.ltb_spec (2 * r * K) (D * K)) as [L2|L2]; try nia;
      destruct (Z.ltb_spec D (2 * r)) as [L3|L3];
      destruct (Z.ltb_spec (D * K) (2 * r * K)) as [L4|L4]; try nia; reflexivity.
Qed.

Lemma quantize_value a b : dec_eqb a b = true -> dec_sign a = dec_sign b ->
  quantize_cents a = quantize_cents b.
Proof.
  revert a b.
  assert (W : forall a b, (dec_exp b <= dec_exp a)%Z -> dec_eqb a b = true -> dec_sign a = dec_sign b ->
             quantize_cents a = quantize_cents b).
  { intros [sa ca ea] [sb cb eb] Hle H Hs. cbn [dec_exp dec_sign] in *. subst sb.
    rewrite dec_eqb_iff in H. specialize (H eb Hle (Z.le_refl _)). cbn [dec_exp dec_int dec_sign dec_coef] in H.
    rewrite Z.sub_diag, Z.mul_1_r in H.
    assert (Hc : cb = (ca * 10 ^ Z.to_N (ea - eb))%N).
    { apply N2Z.inj. rewrite N2Z.inj_mul, N2Z.inj_pow, Z2N.id by lia.
      change (Z.of_N 10) with 10%Z. destruct sa; cbn [dec_int dec_sign dec_coef] in H; lia. }
    subst cb. replace eb with (ea - (ea - eb))%Z at 2 by lia.
    rewrite quantize_scale by lia. reflexivity. }
  intros a b H Hs. destruct (Z.le_ge_cases (dec_exp b) (dec_exp a)).
  - apply W; assumption.
  - symmetry. apply W; [lia | rewrite dec_eqb_sym; exact H | symmetry; exact Hs].
Qed.

(** money_format reads only the value and the sign of the amount: equal
    amounts with the same sign are written alike, whatever their number
    of decimals and currency; the sign is kept on a zero, so the equal
    amounts -0 and 0 are written "-0.00" and "0.00". *)
Theorem money_format_value :
  (forall a b cur1 cur2, dec_eqb a b = true -> dec_sign a = dec_sign b ->
     money_format (mkmoney a cur1) = money_format (mkmoney b cur2)) /\
  dec_eqb (mkdecimal true 0 0) (mkdecimal false 0 (-2)) = true /\
  money_format (mkmoney (mkdecimal true 0 0) "EUR") = "-0.00" /\
  money_format (mkmoney (mkdecimal false 0 (-2)) "EUR") = "0.00".
Proof.
  split; [|repeat split; reflexivity].
  intros a b cur1 cur2 H Hs. unfold money_format, format_2f. cbn [m_amount].
  rewrite (quantize_value a b H Hs), Hs. reflexivity.
Qed.

Lemma money_format_value_witness :
  money_format (mkmoney (mkdecimal false 12 (-1)) "EUR") =
  money_format (mkmoney (mkdecimal false 1200 (-3)) "USD").
Proof. apply (proj1 money_format_value); reflexivity. Defined.

Lemma rstrip_cons c s : rstrip (String c s) =
  match rstrip s with
  | EmptyString => if is_space c then EmptyString else String c EmptyString
  | r => String c r
  end.
Proof. reflexivity. Qed.

Lemma rstrip_idem s : rstrip (rstrip s) = rstrip s.
Proof.
  induction s as [|c s IH]; [reflexivity|]. rewrite rstrip_cons.
  destruct (rstrip s) as [|d r] eqn:E.
  - destruct (is_space c) eqn:Ec; [reflexivity|]. rewrite rstrip_cons. cbn [rstrip]. rewrite Ec. reflexivity.
  - rewrite rstrip_cons, IH. reflexivity.
Qed.

Lemma lstrip_idem s : lstrip (lstrip s) = lstrip s.
Proof.
  induction s as [|c s IH]; [reflexivity|]. cbn [lstrip].
  destruct (is_space c) eqn:Ec; [exact IH|]. cbn [lstrip]. rewrite Ec. reflexivity.
Qed.

Lemma rstrip_lstrip r : rstrip r = r -> rstrip (lstrip r) = lstrip r.
Proof.
  induction r as [|c r IH]; [reflexivity|]. rewrite rstrip_cons. cbn [lstrip]. intros H.
  destruct (is_space c) eqn:Ec.
  - destruct (rstrip r) as [|d t] eqn:E; [discriminate|].
    injection H as H. subst r. apply IH. reflexivity.
  - rewrite rstrip_cons, Ec. exact H.
Qed.

Lemma strip_idem s : strip (strip s) = strip s.
Proof.
  unfold strip. rewrite (rstrip_lstrip (rstrip s)) by apply rstrip_idem. apply lstrip_idem.
Qed.

Lemma split_on_pred_app f x c r :
  all_chars (fun d => negb (f d)) x = true -> f c = true ->
  split_on_pred f (x ++ String c r) = x :: split_on_pred f r.
Proof.
  intros Hx Hc. induction x as [|d x IH]; cbn [append split_on_pred].
  - rewrite Hc. reflexivity.
  - cbn [all_chars] in Hx. apply andb_prop in Hx. destruct Hx as [Hd Hx].
    apply negb_true_iff in Hd. rewrite Hd, (IH Hx). reflexivity.
Qed.

Lemma split_on_pred_none f x :
  all_chars (fun d => negb (f d)) x = true -> split_on_pred f x = [x].
Proof.
  induction x as [|d x IH]; intros Hx; [reflexivity|]. cbn [all_chars] in Hx.
  apply andb_prop in Hx. destruct Hx as [Hd Hx]. apply negb_true_iff in Hd.
  cbn [split_on_pred]. rewrite Hd, (IH Hx). reflexivity.
Qed.

Lemma zpad_nonempty w n : String.eqb (zpad w n) "" = false.
Proof.
  unfold zpad. destruct (dec_string_nonempty (Z.to_N n)) as [c [t Ht]]. rewrite Ht.
  destruct (String.concat "" (repeat "0" (w - String.length (String c t)))); reflexivity.
Qed.

Lemma assoc_get_in {A} k (l : list (string * A)) v : assoc_get k l = Ok v -> In (k, v) l.
Proof.
  induction l as [|[k' v'] l IH]; cbn [assoc_get]; [discriminate|].
  destruct (String.eqb_spec k k') as [->|_]; [injection 1 as <-; left; reflexivity|].
  intros H. right. exact (IH H).
Qed.

Lemma month_name_word mmm m : assoc_get mmm MONTHS_SHORT = Ok m ->
  all_chars (fun c => negb (is_space c)) mmm = true /\ String.eqb mmm "" = false.
Proof.
  intros H. apply assoc_get_in in H. cbn [MONTHS_SHORT In] in H.
  repeat (destruct H as [H|H]; [injection H as <- _; split; reflexivity|]). destruct H.
Qed.

Lemma py_split_two dd mmm :
  all_chars (fun c => negb (is_space c)) dd = true -> String.eqb dd "" = false ->
  all_chars (fun c => negb (is_space c)) mmm = true -> String.eqb mmm "" = false ->
  py_split (dd ++ " " ++ mmm) = [dd; mmm].
Proof.
  intros H1 H2 H3 H4. unfold py_split. change (" " ++ mmm) with (String " "%char mmm).
  rewrite split_on_pred_app by (assumption || reflexivity).
  rewrite split_on_pred_none by assumption. cbn [filter]. rewrite H2, H4. reflexivity.
Qed.

(** A year more on the calendar moves a date forward by at least 363 days. *)
Lemma toordinal_prev_year y m d : (1 <= m <= 12)%Z ->
  (363 <= toordinal (mkdate y m d) - toordinal (mkdate (y - 1) m d))%Z.
Proof.
  intros Hm. unfold toordinal, days_before_year, days_before_month. cbn [year month day].
  replace (y - 1 - 1)%Z with (y - 2)%Z by lia.
  set (a := (y - 1)%Z). replace (y - 2)%Z with (a - 1)%Z by (unfold a; lia).
  set (n := nth _ _ _).
  assert (L : forall k : Z, (0 < k)%Z -> (0 <= a / k - (a - 1) / k <= 1)%Z).
  { intros k Hk. split.
    - assert ((a - 1) / k <= a / k)%Z by (apply Z.div_le_mono; lia). lia.
    - assert (a / k <= ((a - 1) / k * k + k) / k)%Z.
      { apply Z.div_le_mono; [lia|]. pose proof (Z.mul_div_le (a - 1) k Hk).
        pose proof (Z.mod_pos_bound (a - 1) k Hk). pose proof (Z.div_mod (a - 1) k ltac:(lia)). lia. }
      replace ((a - 1) / k * k + k)%Z with (((a - 1) / k + 1) * k)%Z in H by ring.
      rewrite Z.div_mul in H by lia. lia. }
  pose proof (L 4%Z ltac:(lia)). pose proof (L 100%Z ltac:(lia)). pose proof (L 400%Z ltac:(lia)).
  destruct ((2 <? m)%Z && is_leap y); destruct ((2 <? m)%Z && is_leap a); lia.
Qed.

(** Page.convert_date: a text that is not two words raises [ValueError];
    a date it returns has the day and month the text names and the year
    of the page date or the one before; the page's own day and month give
    the page date back, unless that is 29 February or in year 1 (the
    candidate in the year before is then no date, and [ValueError] is
    raised). *)
Theorem convert_date_props :
  (forall pd text, length (py_split text) <> 2%nat -> convert_date pd text = Err ValueError) /\
  (forall pd text d, convert_date pd text = Ok d ->
     exists dd mmm, py_split text = [dd; mmm] /\ py_int dd = Ok (day d) /\
       assoc_get mmm MONTHS_SHORT = Ok (month d) /\
       (year d = year pd \/ year d = (year pd - 1)%Z) /\ mk_date (year d) (month d) (day d) = Ok d) /\
  (forall pd mmm, (2 <= year pd)%Z -> mk_date (year pd) (month pd) (day pd) = Ok pd ->
     ~ (month pd = 2%Z /\ day pd = 29%Z) -> assoc_get mmm MONTHS_SHORT = Ok (month pd) ->
     convert_date pd (zpad 2 (day pd) ++ " " ++ mmm) = Ok pd).
Proof.
  split; [|split].
  - intros pd text H. unfold convert_date.
    destruct (py_split text) as [|a [|b [|c l]]]; try reflexivity. exfalso. apply H. reflexivity.
  - intros pd text d H. unfold convert_date in H.
    destruct (py_split text) as [|dd [|mmm [|c l]]]; try discriminate H.
    exists dd, mmm. split; [reflexivity|].
    destruct (py_int dd) as [dv|] eqn:Ed; [|discriminate H]. cbn [bind] in H.
    destruct (assoc_get mmm MONTHS_SHORT) as [m|] eqn:Em; [|discriminate H]. cbn [bind] in H.
    destruct (mk_date (year pd) m dv) as [t1|] eqn:E1; [|discriminate H]. cbn [bind] in H.
    destruct (mk_date (year pd - 1) m dv) as [t2|] eqn:E2; [|discriminate H]. cbn [bind] in H.
    destruct (mk_date_ok _ _ _ _ E1) as [-> _]. destruct (mk_date_ok _ _ _ _ E2) as [-> _].
    destruct (_ <? _)%Z; injection H as <-; cbn [year month day];
      (split; [reflexivity|]); (split; [reflexivity|]); split; auto.
  - intros [y m d] mmm Hy Hpd Hfeb Hm. cbn [year month day] in *.
    destruct (mk_date_ok _ _ _ _ Hpd) as [_ [Hy' [Hm' Hd']]].
    destruct (month_name_word _ _ Hm) as [W1 W2].
    unfold convert_date. rewrite py_split_two by (apply zpad_no_space || apply zpad_nonempty || assumption).
    assert (Hd31 : (d <= 31)%Z).
    { revert Hd'. unfold days_in_month. destruct (_ =? _)%Z; [destruct (is_leap _)|destruct (existsb _ _)]; lia. }
    rewrite py_int_zpad by (unfold int_max_str_digits; lia). cbn [bind]. rewrite Hm. cbn [bind]. cbv zeta. cbn [year month day]. rewrite Hpd. cbn [bind].
    assert (E2 : mk_date (y - 1) m d = Ok (mkdate (y - 1) m d)).
    { unfold mk_date.
      assert (Hdm : (d <= days_in_month (y - 1) m)%Z).
      { revert Hd'. unfold days_in_month. destruct (Z.eqb_spec m 2); [|lia].
        destruct (is_leap y), (is_leap (y - 1)); lia. }
      replace ((1 <=? y - 1) && (y - 1 <=? 9999) && (1 <=? m) && (m <=? 12) && (1 <=? d) &&
               (d <=? days_in_month (y - 1) m))%Z with true; [reflexivity|].
      symmetry. rewrite !andb_true_iff, !Z.leb_le. lia. }
    rewrite E2. cbn [bind]. unfold date_diff_days.
    pose proof (toordinal_prev_year y m d ltac:(lia)).
    rewrite Z.sub_diag. destruct (Z.ltb_spec (Z.abs 0) (Z.abs (toordinal (mkdate y m d) - toordinal (mkdate (y - 1) m d))));
      [reflexivity | lia].
Qed.

Lemma convert_date_props_witness :
  convert_date (mkdate 2023 6 1) "01 jun" = Ok (mkdate 2023 6 1) /\
  convert_date (mkdate 2023 6 1) "01jun" = Err ValueError.
Proof.
  split.
  - apply (proj2 (proj2 convert_date_props) (mkdate 2023 6 1) "jun"); cbn; try lia; reflexivity.
  - apply (proj1 convert_date_props). vm_compute. discriminate.
Defined.

Section ReadRowsProps.
Variable strptime_date : string -> result date.
Variable Currency : string -> result string.
Variable Money : string -> string -> result money.

Lemma read_rows_app_eq : forall rs1 rs2 o,
  read_rows strptime_date Currency Money o (rs1 ++ rs2) =
    match read_rows strptime_date Currency Money o rs1 with
    | (ts, None) =>
        let '(ts2, e) := read_rows strptime_date Currency Money (o + Z.of_nat (length rs1))%Z rs2 in
        ((ts ++ ts2)%list, e)
    | r => r
    end.
Proof.
  induction rs1 as [|r rs1 IH]; intros rs2 o.
  - cbn [app length read_rows]. replace (o + Z.of_nat 0)%Z with o by lia.
    destruct (read_rows _ _ _ o rs2). reflexivity.
  - cbn [app length read_rows].
    destruct (make_row r) as [row|e]; [|reflexivity].
    destruct (build_transaction strptime_date Currency Money (o + 1) row) as [t|e]; [|reflexivity].
    rewrite IH. destruct (read_rows _ _ _ (o + 1)%Z rs1) as [ts [e|]]; [reflexivity|].
    replace (o + 1 + Z.of_nat (length rs1))%Z with (o + Z.of_nat (S (length rs1)))%Z by lia.
    destruct (read_rows _ _ _ (o + Z.of_nat (S (length rs1)))%Z rs2). reflexivity.
Qed.

(** read_tsv's loop as a stream: on a longer input it yields the
    transactions of the shorter one first; once a record has failed, the
    records after it are never read; a record without eight fields ends
    the output with [TypeError], after the transactions of the records
    before it; and the transactions of the second part are numbered on
    from where the first part stopped. *)
Theorem read_rows_stream :
  (forall rs1 rs2 o,
     read_rows strptime_date Currency Money o (rs1 ++ rs2) =
       match read_rows strptime_date Currency Money o rs1 with
       | (ts, None) =>
           let '(ts2, e) := read_rows strptime_date Currency Money (o + Z.of_nat (length rs1))%Z rs2 in
           ((ts ++ ts2)%list, e)
       | r => r
       end) /\
  (forall rs1 r rs2 o ts, read_rows strptime_date Currency Money o rs1 = (ts, None) ->
     length r <> 8%nat ->
     read_rows strptime_date Currency Money o (rs1 ++ r :: rs2) = (ts, Some TypeError)).
Proof.
  split; [exact read_rows_app_eq|].
  intros rs1 r rs2 o ts H1 Hr. rewrite read_rows_app_eq, H1. cbn [read_rows].
  replace (make_row r) with (@Err RowTuple TypeError).
  - rewrite app_nil_r. reflexivity.
  - unfold make_row. destruct r as [|a [|b [|c [|d [|e [|f [|g [|h [|i l]]]]]]]]]; try reflexivity.
    exfalso. apply Hr. reflexivity.
Qed.

End ReadRowsProps.

Lemma read_rows_stream_witness :
  let sd := fun _ : string => Ok (mkdate 2024 1 2) in
  let cur := fun s : string => Ok s in
  let mon := fun (_ c : string) => Ok (mkmoney (mkdecimal false 100 (-2)) c) in
  exists ts, read_rows sd cur mon 0 [["123"; "EUR"; "20240102"; "1,00"; "1,00"; "20240102"; "1,00"; "/TRTP/SEPA/NAME/x"]] = (ts, None) /\
  read_rows sd cur mon 0 [["123"; "EUR"; "20240102"; "1,00"; "1,00"; "20240102"; "1,00"; "/TRTP/SEPA/NAME/x"]; ["123"; "EUR"]] =
    (ts, Some TypeError).
Proof.
  intros sd cur mon. eexists. split.
  - reflexivity.
  - apply (proj2 (read_rows_stream sd cur mon) [["123"; "EUR"; "20240102"; "1,00"; "1,00"; "20240102"; "1,00"; "/TRTP/SEPA/NAME/x"]]
      ["123"; "EUR"] [] 0%Z).
    + reflexivity.
    + discriminate.
Defined.

Lemma fold_lookup_some k l v : exists w, fold_left (lookup_step k) l (Some v) = Some w.
Proof.
  revert v. induction l as [|kv l IH]; intros v; [exists v; reflexivity|].
  cbn [fold_left]. unfold lookup_step at 2. destruct (String.eqb k (fst kv)); apply IH.
Qed.

Lemma dict_update_type_get head l : exists w, dict_get "type" (dict_update [("type", head)] l) = Some w.
Proof. rewrite dict_get_update. apply fold_lookup_some. Qed.

(** Closes a goal on [dict_update [("type", head)] costs]. *)
Ltac upd_type := match goal with
  | Hn : forall t, dict_get "type" ?d = Some t -> _ |- context [dict_get "type" ?d] =>
      match goal with
      | |- context [dict_update [("type", ?h)] ?l] =>
          destruct (dict_update_type_get h l) as [w Hw]; exact (Hn _ Hw)
      end
  end.

(** Every description parse_description accepts gets a "type" key; in the
    slash format its value is never "iDEAL", which becomes "SEPA iDEAL". *)
Theorem parse_description_type : forall s d, parse_description s = Ok d ->
  exists t, dict_get "type" d = Some t /\ (prefix "/" s = true -> t <> "iDEAL").
Proof.
  intros s d H. unfold parse_description in H.
  destruct (prefix "/" s) eqn:Hs.
  - unfold parse_slash in H.
    destruct (slash_loop _ _) as [rp|]; [|discriminate H]. cbn [bind] in H.
    destruct (slash_pairs _) as [pairs|]; [|discriminate H]. cbn [bind] in H.
    destruct (dict_get "type" (dict_of pairs)) as [t|] eqn:Et; [|discriminate H].
    destruct (String.eqb_spec t "iDEAL") as [->|Hne]; injection H as <-.
    + exists "SEPA iDEAL". rewrite dict_get_set. split; [reflexivity | intros _; discriminate].
    + exists t. split; [exact Et | intros _; exact Hne].
  - assert (Hn : forall t, dict_get "type" d = Some t -> exists t, dict_get "type" d = Some t /\
                  (false = true -> t <> "iDEAL")) by (intros t Ht; exists t; split; [exact Ht | discriminate]).
    revert H. set (head := rstrip (str_take 32 s)). set (tail := rstrip (str_drop 32 s)).
    repeat match goal with |- context [if ?b then _ else _] => destruct b end; intros H;
      first
      [ injection H as <-; apply (Hn _ eq_refl)
      | unfold parse_bank_fees in H; cbv zeta in H; destruct (map_result _ _) as [l|]; [|discriminate H];
        injection H as <-; upd_type
      | unfold parse_bea_legacy in H; destruct (bea_legacy_match head) as [[[ty nr] dts]|]; [|discriminate H];
        destruct (partition _ _) as [[nm sep] pas]; destruct (parse_nr_datetime dts); [|discriminate H];
        injection H as <-; apply (Hn _ eq_refl)
      | unfold parse_bea in H; destruct (partition _ _) as [[nm sep] pas];
        destruct (bea_nr_match _) as [[nr dts]|]; [|discriminate H];
        destruct (parse_nr_datetime dts); [|discriminate H]; injection H as <-; apply (Hn _ eq_refl)
      | unfold parse_sepa in H; destruct (sepa_loop _ _) as [l|]; [|discriminate H];
        injection H as <-; upd_type ].
Qed.

Lemma parse_description_type_witness :
  parse_description "/TRTP/iDEAL/NAME/x" = Ok [("type", "SEPA iDEAL"); ("Naam", "x")] /\
  exists t, dict_get "type" [("type", "SEPA iDEAL"); ("Naam", "x")] = Some t /\ t <> "iDEAL".
Proof.
  assert (H : parse_description "/TRTP/iDEAL/NAME/x" = Ok [("type", "SEPA iDEAL"); ("Naam", "x")])
    by reflexivity.
  split; [exact H|].
  destruct (parse_description_type _ _ H) as [t [H1 H2]].
  exists t. split; [exact H1 | apply H2; reflexivity].
Defined.

(** [Transaction.desc]: while every description parses, the property
    returns the parse of the current description, computed once and then
    served from the cache. When parsing raises, the object is recorded as
    cached anyway, with the old [_desc]: the next access to the same
    description does not raise but returns that old value, [None] on a
    fresh transaction, or the dict of the description held before. *)
Theorem desc_cache_props (content : nat -> string) :
  cache_ok content desc_init /\
  (forall st o d, cache_ok content st -> parse_description (content o) = Ok d ->
     fst (desc content st o) = Ok (Some d) /\ cache_ok content (snd (desc content st o))) /\
  (forall st o e, _desc_str st <> Some o -> parse_description (content o) = Err e ->
     fst (desc content st o) = Err e /\
     desc content (snd (desc content st o)) o = (Ok (_desc st), snd (desc content st o))).
Proof.
  split; [|split].
  - intros o H. discriminate H.
  - intros [s c] o d Hok Hp. unfold desc. cbn [_desc_str _desc].
    destruct (is_obj s o) eqn:Ei.
    + destruct s as [o'|]; [|discriminate Ei]. apply Nat.eqb_eq in Ei. subst o'.
      destruct (Hok o eq_refl) as [d' [Hd' Hp']]. cbn [_desc] in Hd'. subst c.
      rewrite Hp in Hp'. injection Hp' as <-. split; [reflexivity | exact Hok].
    + rewrite Hp. split; [reflexivity|]. intros o' Ho'. cbn in Ho'. injection Ho' as <-.
      exists d. split; [reflexivity | exact Hp].
  - intros [s c] o e Hs Hp. unfold desc. cbn [_desc_str _desc] in *.
    destruct (is_obj s o) eqn:Ei.
    + destruct s as [o'|]; [|discriminate Ei]. apply Nat.eqb_eq in Ei. subst o'. contradiction.
    + rewrite Hp. cbn [fst snd _desc_str _desc is_obj]. rewrite Nat.eqb_refl. split; reflexivity.
Qed.

Lemma desc_cache_props_witness :
  let content := fun n => match n with O => "/TRTP/iDEAL/NAME/x" | _ => "/NAME/x" end in
  let st1 := snd (desc content desc_init 0) in
  let st2 := snd (desc content st1 1) in
  fst (desc content desc_init 0) = Ok (Some [("type", "SEPA iDEAL"); ("Naam", "x")]) /\
  fst (desc content st1 1) = Err KeyError /\
  desc content st2 1 = (Ok (Some [("type", "SEPA iDEAL"); ("Naam", "x")]), st2).
Proof.
  intros content st1 st2.
  assert (H0 : parse_description (content 0%nat) = Ok [("type", "SEPA iDEAL"); ("Naam", "x")]) by reflexivity.
  assert (H1 : parse_description (content 1%nat) = Err KeyError) by reflexivity.
  destruct (desc_cache_props content) as [I [P Q]].
  split; [exact (proj1 (P desc_init 0%nat _ I H0))|].
  destruct (Q st1 1%nat KeyError ltac:(discriminate) H1) as [Q1 Q2].
  split; [exact Q1|]. exact Q2.
Defined.

Module IcsProps.
Import Ics.

Lemma remove_char_app o a b : remove_char o (a ++ b) = remove_char o a ++ remove_char o b.
Proof.
  induction a as [|c a IH]; [reflexivity|]. cbn [append remove_char].
  rewrite IH. destruct (Ascii.eqb c o); reflexivity.
Qed.

Lemma replace_char_app o n a b : replace_char o n (a ++ b) = replace_char o n a ++ replace_char o n b.
Proof. induction a as [|c a IH]; [reflexivity|]. cbn [append replace_char]. rewrite IH. reflexivity. Qed.

Lemma remove_char_none o s : all_chars (fun c => negb (Ascii.eqb c o)) s = true -> remove_char o s = s.
Proof.
  induction s as [|c s IH]; [reflexivity|]. cbn [all_chars remove_char]. intros H.
  apply andb_prop in H. destruct H as [H1 H2]. apply negb_true_iff in H1. rewrite H1, IH by exact H2.
  reflexivity.
Qed.

Lemma replace_char_none o n s : all_chars (fun c => negb (Ascii.eqb c o)) s = true -> replace_char o n s = s.
Proof.
  induction s as [|c s IH]; [reflexivity|]. cbn [all_chars replace_char]. intros H.
  apply andb_prop in H. destruct H as [H1 H2]. apply negb_true_iff in H1. rewrite H1, IH by exact H2.
  reflexivity.
Qed.

Lemma all_chars_weaken (f g : ascii -> bool) s :
  (forall c, f c = true -> g c = true) -> all_chars f s = true -> all_chars g s = true.
Proof.
  intros Hfg. induction s as [|c s IH]; [reflexivity|]. cbn [all_chars].
  intros H. apply andb_prop in H. destruct H as [H1 H2]. rewrite (Hfg c H1), (IH H2). reflexivity.
Qed.

Lemma npc_no_point s : no_point_comma s = true -> all_chars (fun c => negb (Ascii.eqb c ".")) s = true.
Proof. apply all_chars_weaken. intros c H. apply andb_prop in H. apply H. Qed.

Lemma npc_no_comma s : no_point_comma s = true -> all_chars (fun c => negb (Ascii.eqb c ",")) s = true.
Proof. apply all_chars_weaken. intros c H. apply andb_prop in H. apply H. Qed.

Lemma remove_point_concat groups :
  Forall (fun g => no_point_comma g = true) groups ->
  remove_char "."%char (String.concat "." groups) = String.concat "" groups /\
  all_chars (fun c => negb (Ascii.eqb c ",")) (String.concat "" groups) = true.
Proof.
  induction groups as [|g gs IH]; intros H; [split; reflexivity|].
  inversion H as [|? ? Hg Hgs]; subst.
  destruct gs as [|g' gs'].
  - cbn [String.concat]. split; [apply remove_char_none, npc_no_point, Hg | apply npc_no_comma, Hg].
  - change (String.concat "." (g :: g' :: gs')) with (g ++ "." ++ String.concat "." (g' :: gs')).
    change (String.concat "" (g :: g' :: gs')) with (g ++ "" ++ String.concat "" (g' :: gs')).
    destruct (IH Hgs) as [IH1 IH2].
    rewrite !remove_char_app, IH1, remove_char_none by (apply npc_no_point, Hg).
    split; [reflexivity|]. rewrite all_chars_app. rewrite npc_no_comma by exact Hg. exact IH2.
Qed.

(** [Page.convert_amount]: with a decimal comma, the points grouping the
    thousands are dropped and the comma becomes the decimal point; without
    a comma every point is dropped; the result never holds a comma. *)
Theorem convert_amount_props :
  (forall groups b, Forall (fun g => no_point_comma g = true) groups -> no_point_comma b = true ->
     convert_amount (String.concat "." groups ++ "," ++ b) = String.concat "" groups ++ "." ++ b) /\
  (forall s, all_chars (fun c => negb (Ascii.eqb c ",")) s = true ->
     convert_amount s = remove_char "."%char s /\
     all_chars (fun c => negb (Ascii.eqb c ".")) (convert_amount s) = true) /\
  (forall s, all_chars (fun c => negb (Ascii.eqb c ",")) (convert_amount s) = true).
Proof.
  assert (Hrc : forall s, all_chars (fun c => negb (Ascii.eqb c ",")) s = true ->
                all_chars (fun c => negb (Ascii.eqb c ",")) (remove_char "."%char s) = true /\
                all_chars (fun c => negb (Ascii.eqb c ".")) (remove_char "."%char s) = true).
  { induction s as [|c s IH]; [split; reflexivity|]. cbn [all_chars remove_char]. intros H.
    apply andb_prop in H. destruct H as [H1 H2]. destruct (IH H2) as [IH1 IH2].
    destruct (Ascii.eqb c ".") eqn:E; [split; assumption|]. cbn [all_chars].
    rewrite H1, IH1, E, IH2. split; reflexivity. }
  split; [|split].
  - intros groups b Hg Hb. unfold convert_amount.
    rewrite remove_char_app. destruct (remove_point_concat groups Hg) as [H1 H2]. rewrite H1.
    cbn [append remove_char Ascii.eqb]. cbn -[remove_char replace_char].
    rewrite remove_char_none by (apply npc_no_point, Hb).
    rewrite replace_char_app, replace_char_none by exact H2. cbn [replace_char].
    rewrite replace_char_none by (apply npc_no_comma, Hb). reflexivity.
  - intros s Hs. unfold convert_amount. destruct (Hrc s Hs) as [H1 H2].
    rewrite replace_char_none by exact H1. split; [reflexivity | exact H2].
  - intros s. unfold convert_amount. generalize (remove_char "."%char s). intros t.
    induction t as [|c t IH]; [reflexivity|]. cbn [replace_char all_chars].
    rewrite IH. destruct (Ascii.eqb c ",") eqn:E; [reflexivity|]. rewrite E. reflexivity.
Qed.

Lemma convert_amount_props_witness :
  convert_amount ("1" ++ "." ++ "234" ++ "." ++ "567" ++ "," ++ "89") = "1234567.89" /\
  convert_amount "1.234" = "1234".
Proof.
  split.
  - apply (proj1 convert_amount_props ["1"; "234"; "567"] "89"); repeat constructor.
  - apply (proj1 (proj1 (proj2 convert_amount_props) "1.234" eq_refl)).
Defined.

(** [Page.convert_cell_text]: surrounding whitespace never matters; a
    blank cell gives "" whatever the method, without raising; a cell
    with no method is returned stripped; the amount method applies
    [convert_amount] to the stripped text; the Bij/Af method gives "+"
    for "Bij", "-" for "Af" and raises [KeyError] on any other text. *)
Theorem convert_cell_text_props :
  forall p text m,
    convert_cell_text p (strip text) m = convert_cell_text p text m /\
    (strip text = "" -> convert_cell_text p text m = Ok (CStr "")) /\
    (strip text <> "" ->
       convert_cell_text p text None = Ok (CStr (strip text)) /\
       convert_cell_text p text (Some convert_amount_m) = Ok (CStr (convert_amount (strip text))) /\
       convert_cell_text p text (Some convert_bij_af_m) =
         (if String.eqb (strip text) "Bij" then Ok (CStr "+")
          else if String.eqb (strip text) "Af" then Ok (CStr "-")
          else Err KeyError)).
Proof.
  intros p text m. split; [|split].
  - unfold convert_cell_text. rewrite strip_idem. reflexivity.
  - intros H. unfold convert_cell_text. rewrite H. reflexivity.
  - intros H. unfold convert_cell_text. apply String.eqb_neq in H. rewrite H.
    split; [reflexivity|]. split; [reflexivity|].
    unfold convert_bij_af. cbn [assoc_get].
    destruct (String.eqb (strip text) "Bij"); [reflexivity|].
    destruct (String.eqb (strip text) "Af"); reflexivity.
Qed.

Lemma convert_cell_text_props_witness :
  let p := mkPage (mkdate 2023 7 1) 1 [] in
  convert_cell_text p "  " (Some convert_bij_af_m) = Ok (CStr "") /\
  convert_cell_text p " Bij " (Some convert_bij_af_m) = Ok (CStr "+") /\
  convert_cell_text p " Xyz " (Some convert_bij_af_m) = Err KeyError.
Proof.
  intros p. split; [|split].
  - apply (proj1 (proj2 (convert_cell_text_props p "  " _))). reflexivity.
  - destruct (convert_cell_text_props p " Bij " None) as [_ [_ H]].
    destruct H as [_ [_ H]]; [vm_compute; congruence|]. rewrite H. reflexivity.
  - destruct (convert_cell_text_props p " Xyz " None) as [_ [_ H]].
    destruct H as [_ [_ H]]; [vm_compute; congruence|]. rewrite H. reflexivity.
Defined.

(** Insertion into a list ordered by decreasing position. *)
Lemma insert_desc_perm x l : Permutation (insert_desc x l) (x :: l).
Proof.
  induction l as [|y l IH]; [reflexivity|]. cbn [insert_desc].
  destruct (fst y <? fst x)%Z; [reflexivity|].
  eapply perm_trans; [apply perm_skip, IH | apply perm_swap].
Qed.

Lemma insert_desc_sorted x l : Sorted pos_ge l -> Sorted pos_ge (insert_desc x l).
Proof.
  induction l as [|y l IH]; intros H; cbn [insert_desc].
  - repeat constructor.
  - destruct (fst y <? fst x)%Z eqn:E.
    + constructor; [exact H|]. constructor. unfold pos_ge. apply Z.ltb_lt in E. lia.
    + apply Sorted_inv in H. destruct H as [Hl Hh]. constructor; [apply IH, Hl|].
      destruct l as [|z l]; cbn [insert_desc].
      * constructor. unfold pos_ge. apply Z.ltb_ge in E. exact E.
      * inversion Hh; subst. destruct (fst z <? fst x)%Z; constructor; unfold pos_ge;
          [apply Z.ltb_ge in E; exact E | assumption].
Qed.

(** [Page.table_as_list]: the rows of the table, each exactly once, by
    decreasing vertical position (top of the page first). *)
Theorem table_as_list_sorted : forall p, exists l,
  Permutation l (table p) /\ Sorted pos_ge l /\ table_as_list p = map snd l.
Proof.
  intros p. exists (fold_right insert_desc [] (table p)). split; [|split].
  - induction (table p) as [|x t IH]; [reflexivity|]. cbn [fold_right].
    eapply perm_trans; [apply insert_desc_perm | apply perm_skip, IH].
  - induction (table p) as [|x t IH]; [constructor|]. cbn [fold_right].
    apply insert_desc_sorted, IH.
  - reflexivity.
Qed.

Lemma group_rows_spec : forall rows buf,
  Forall (fun r => r <> []) rows ->
  Forall (fun r => starts_group r = false) (tl buf) ->
  let '(gs, e) := group_rows buf rows in
  e = None /\ concat gs = (buf ++ rows)%list /\ Forall group_ok gs /\
  Forall (fun g => starts_group (hd [] g) = true) (tl gs) /\
  (buf <> [] -> exists g gs', gs = g :: gs' /\ hd [] g = hd [] buf).
Proof.
  induction rows as [|row rows IH]; intros buf Hrows Hbuf; cbn [group_rows].
  - destruct buf as [|b buf'].
    + cbn. repeat split; try constructor. intros H; congruence.
    + cbn [length Nat.ltb Nat.leb]. split; [reflexivity|].
      split; [cbn; rewrite ?app_nil_r; reflexivity|].
      split; [constructor; [split; [discriminate | exact Hbuf] | constructor]|].
      split; [constructor|].
      intros _. exists (b :: buf'), []. split; reflexivity.
  - inversion Hrows as [|? ? Hrow Hrows']; subst.
    destruct row as [|c0 rest]; [congruence|].
    destruct (match c0 with CDate _ => true | CStr s => prefix "Uw Card" s end) eqn:Hs.
    + specialize (IH [c0 :: rest] Hrows' (Forall_nil _)).
      destruct (group_rows [c0 :: rest] rows) as [gs e].
      destruct IH as [He [Hc [Hg [Ht Hh]]]].
      destruct (Hh ltac:(discriminate)) as [g [gs' [Hgs Hhd]]].
      assert (Hstart : Forall (fun g => starts_group (hd [] g) = true) gs).
      { rewrite Hgs. constructor; [rewrite Hhd; exact Hs|]. rewrite Hgs in Ht. exact Ht. }
      destruct buf as [|b buf'].
      * cbn [length Nat.ltb Nat.leb app]. split; [exact He|].
        split; [rewrite Hc; reflexivity|]. split; [exact Hg|]. split; [exact Ht|].
        intros H; congruence.
      * cbn [length Nat.ltb Nat.leb]. split; [exact He|].
        split; [cbn [app concat]; rewrite Hc; reflexivity|].
        split; [constructor; [split; [discriminate | exact Hbuf] | exact Hg]|].
        split; [exact Hstart|].
        intros _. exists (b :: buf'), gs. split; reflexivity.
    + specialize (IH (buf ++ [c0 :: rest])%list Hrows').
      destruct (group_rows (buf ++ [c0 :: rest])%list rows) as [gs e].
      destruct IH as [He [Hc [Hg [Ht Hh]]]].
      { destruct buf as [|b buf']; [constructor|]. cbn [app tl].
        apply Forall_app. split; [exact Hbuf | constructor; [exact Hs | constructor]]. }
      split; [exact He|]. split; [rewrite Hc, <- app_assoc; reflexivity|].
      split; [exact Hg|]. split; [exact Ht|].
      intros Hb. destruct Hh as [g [gs' [H1 H2]]].
      { destruct buf; [congruence | discriminate]. }
      exists g, gs'. split; [exact H1|]. rewrite H2. destruct buf; [congruence | reflexivity].
Qed.

(** [group_related_rows]: on a table whose rows all have a first cell, it
    raises nothing and cuts the table, in order and without losing a row,
    into non-empty groups; every group after the first starts with a row
    whose first cell is a date or a "Uw Card" text, and no other row of a
    group does. A row without cells raises [IndexError]. *)
Theorem group_related_rows_partition : forall tbl,
  (Forall (fun r => r <> []) tbl ->
   let '(gs, e) := group_related_rows tbl in
   e = None /\ concat gs = tbl /\ Forall group_ok gs /\
   Forall (fun g => starts_group (hd [] g) = true) (tl gs)) /\
  (In [] tbl -> snd (group_related_rows tbl) = Some IndexError).
Proof.
  intros tbl. split.
  - intros H. unfold group_related_rows.
    pose proof (group_rows_spec tbl [] H (Forall_nil _)) as G.
    destruct (group_rows [] tbl) as [gs e]. destruct G as [G1 [G2 [G3 [G4 _]]]].
    repeat split; assumption.
  - unfold group_related_rows. generalize (@nil (list cell)) as buf.
    induction tbl as [|row tbl IH]; intros buf H; [destruct H|].
    destruct H as [H|H].
    + subst row. reflexivity.
    + cbn [group_rows]. destruct row as [|c0 rest]; [reflexivity|].
      destruct (match c0 with CDate _ => true | CStr s => prefix "Uw Card" s end).
      * specialize (IH [c0 :: rest] H). destruct (group_rows [c0 :: rest] tbl) as [gs e].
        exact IH.
      * apply IH, H.
Qed.

(** The example of group_related_rows' docstring. *)
Example group_related_rows_doctest :
  let dt := CDate (mkdate 2023 1 1) in
  group_related_rows
    [[dt; CStr "foobar1"]; [dt; CStr "foobar2"];
     [CStr "Uw Card met als laatste vier cijfers 1234"]; [CStr "J SMITH VAN DE FOOBAR"];
     [dt; CStr "foobar3"]; [CStr ""; CStr "Wisselkoers USD"];
     [dt; CStr "foobar4"]; [dt; CStr "foobar5"]; [dt; CStr "foobar6"];
     [CStr ""; CStr "Wisselkoers BRL"]] =
  ([[[dt; CStr "foobar1"]]; [[dt; CStr "foobar2"]];
    [[CStr "Uw Card met als laatste vier cijfers 1234"]; [CStr "J SMITH VAN DE FOOBAR"]];
    [[dt; CStr "foobar3"]; [CStr ""; CStr "Wisselkoers USD"]];
    [[dt; CStr "foobar4"]]; [[dt; CStr "foobar5"]];
    [[dt; CStr "foobar6"]; [CStr ""; CStr "Wisselkoers BRL"]]], None).
Proof. reflexivity. Qed.

Lemma group_related_rows_partition_witness :
  let dt := CDate (mkdate 2023 1 1) in
  let tbl := [[dt; CStr "a"]; [CStr ""; CStr "Wisselkoers USD"]; [dt; CStr "b"]] in
  (let '(gs, e) := group_related_rows tbl in
   e = None /\ concat gs = tbl /\ Forall group_ok gs /\
   Forall (fun g => starts_group (hd [] g) = true) (tl gs)) /\
  snd (group_related_rows [[dt]; []]) = Some IndexError.
Proof.
  intros dt tbl. split.
  - apply (proj1 (group_related_rows_partition tbl)). repeat constructor; discriminate.
  - apply (proj2 (group_related_rows_partition [[dt]; []])). right; left; reflexivity.
Defined.

Lemma date_eqb_trans d x y : date_eqb d x = true -> date_eqb d y = true -> date_eqb x y = true.
Proof.
  unfold date_eqb. rewrite !andb_true_iff, !Z.eqb_eq. intros [[H1 H2] H3] [[H4 H5] H6].
  repeat split; congruence.
Qed.

Lemma part1_ok : forall pages nr sd tbl, (1 <= nr)%Z -> part1 nr sd pages = Ok tbl ->
  map page_nr pages = map (fun i => nr + Z.of_nat i)%Z (seq 0 (length pages)) /\
  (forall p, In p pages -> exists d,
     (if (nr =? 1)%Z then Some (page_date (hd p pages)) else sd) = Some d /\
     date_eqb d (page_date p) = true).
Proof.
  induction pages as [|page pages IH]; intros nr sd tbl Hnr H.
  - split; [reflexivity | intros p []].
  - cbn [part1] in H.
    destruct (Z.eqb_spec nr (page_nr page)) as [Hp|]; [|discriminate H]. cbn [py_assert bind] in H.
    destruct (nr =? 1)%Z eqn:E1.
    + cbn [bind] in H.
      destruct (map_result (convert_row page) (table_as_list page)); [|discriminate H].
      cbn [bind] in H.
      destruct (part1 (nr + 1) (Some (page_date page)) pages) as [rest|] eqn:Hr; [|discriminate H].
      destruct (IH (nr + 1)%Z _ _ ltac:(lia) Hr) as [IH1 IH2].
      split.
      * cbn [map length seq]. rewrite <- Hp. f_equal; [lia|]. rewrite IH1, <- seq_shift, map_map.
        apply map_ext. intros i. lia.
      * intros p [->|Hin]; [exists (page_date p); split; [reflexivity | apply date_eqb_refl]|].
        destruct (IH2 p Hin) as [d [Hd Hdp]].
        replace (nr + 1 =? 1)%Z with false in Hd by lia. exists d. split; [exact Hd | exact Hdp].
    + destruct sd as [d|]; [|discriminate H].
      destruct (date_eqb d (page_date page)) eqn:Ed; [|discriminate H]. cbn [py_assert bind] in H.
      destruct (map_result (convert_row page) (table_as_list page)); [|discriminate H].
      cbn [bind] in H.
      destruct (part1 (nr + 1) (Some d) pages) as [rest|] eqn:Hr; [|discriminate H].
      destruct (IH (nr + 1)%Z _ _ ltac:(lia) Hr) as [IH1 IH2].
      split.
      * cbn [map length seq]. rewrite <- Hp. f_equal; [lia|]. rewrite IH1, <- seq_shift, map_map.
        apply map_ext. intros i. lia.
      * intros p [->|Hin]; [exists d; split; [reflexivity | exact Ed]|].
        destruct (IH2 p Hin) as [d' [Hd Hdp]].
        replace (nr + 1 =? 1)%Z with false in Hd by lia. exists d'. split; [exact Hd | exact Hdp].
Qed.

Section Checks.
Variable money_t : Type.
Variable Money : cell -> cell -> result money_t.
Variable pyfloat : Type.
Variable py_float : string -> result pyfloat.

(** The sanity checks of get_transactions_from_pages' Part 1: when it
    succeeds, the pages were numbered 1, 2, ... in turn and all carry the
    same statement date; otherwise not a single transaction is yielded,
    also none from the rows of earlier pages, as Part 1 reads every page
    before Part 2 yields the first transaction. *)
Theorem get_transactions_page_checks :
  (forall pages tbl, part1 1 None pages = Ok tbl ->
     map page_nr pages = map Z.of_nat (seq 1 (length pages)) /\
     (forall p q, In p pages -> In q pages -> date_eqb (page_date p) (page_date q) = true)) /\
  (forall pages,
     (map page_nr pages <> map Z.of_nat (seq 1 (length pages)) \/
      exists p q, In p pages /\ In q pages /\ date_eqb (page_date p) (page_date q) = false) ->
     exists e, get_transactions_from_pages money_t Money pyfloat py_float pages = ([], Some e)).
Proof.
  assert (A : forall pages tbl, part1 1 None pages = Ok tbl ->
     map page_nr pages = map Z.of_nat (seq 1 (length pages)) /\
     (forall p q, In p pages -> In q pages -> date_eqb (page_date p) (page_date q) = true)).
  { intros pages tbl H. destruct (part1_ok pages 1 None tbl ltac:(lia) H) as [H1 H2]. split.
    - rewrite H1, <- seq_shift, map_map. apply map_ext. intros i. lia.
    - intros p q Hp Hq. destruct (H2 p Hp) as [d [Hd Hdp]]. destruct (H2 q Hq) as [d' [Hd' Hdq]].
      cbn [Z.eqb Pos.eqb] in Hd, Hd'. destruct pages as [|p0 ps]; [destruct Hp|].
      cbn [hd] in Hd, Hd'. injection Hd as <-. injection Hd' as <-.
      eapply date_eqb_trans; eassumption. }
  split; [exact A|].
  intros pages Hbad. unfold get_transactions_from_pages.
  destruct (part1 1 None pages) as [tbl|e] eqn:E.
  - exfalso. destruct (A pages tbl E) as [A1 A2].
    destruct Hbad as [Hbad|[p [q [Hp [Hq Hpq]]]]]; [exact (Hbad A1)|].
    rewrite (A2 p q Hp Hq) in Hpq. discriminate.
  - exists e. reflexivity.
Qed.

Lemma card_number_of_digits c cn : card_number_of c = Ok cn ->
  nonempty cn = true /\ all_chars is_digit cn = true.
Proof.
  destruct c as [d|s]; cbn [card_number_of]; [discriminate|].
  destruct (prefix _ s); [|discriminate].
  assert (Hs : forall t, all_chars is_digit (fst (span is_digit t)) = true).
  { induction t as [|c t IH]; [reflexivity|]. cbn [span].
    destruct (is_digit c) eqn:Ec; [|reflexivity].
    destruct (span is_digit t) as [a b] eqn:Et. cbn [fst all_chars] in *. rewrite Ec, IH. reflexivity. }
  match goal with |- context [span is_digit ?t] => pose proof (Hs t) as Ht; destruct (fst (span is_digit t)) end.
  - discriminate.
  - cbn [nonempty]. intros H. injection H as <-. split; [reflexivity | exact Ht].
Qed.

Lemma process_group_card card rows r :
  process_group money_t Money pyfloat py_float card rows = Ok r ->
  (card_ok card -> card_ok (fst r)) /\
  match snd r with Some t => card_number _ _ t = card | None => True end.
Proof.
  intros H. unfold process_group in H. cbv zeta in H.
  repeat match type of H with
         | bind (card_number_of ?c) _ = Ok _ =>
             let E := fresh "E" in destruct (card_number_of c) eqn:E; cbn [bind] in H; [|discriminate H]
         | bind ?m _ = Ok _ =>
             let E := fresh "E" in destruct m eqn:E; cbn [bind] in H; [|discriminate H]
         | (if ?b then _ else _) = Ok _ =>
             let E := fresh "E" in destruct b eqn:E
         | Err _ = Ok _ => discriminate H
         end;
  injection H as <-; cbn [fst snd]; try (split; [intros Hc; exact Hc | reflexivity]).
  split; [intros _; apply (card_number_of_digits _ _ E1) | exact I].
Qed.

Lemma part2_card : forall groups card, card_ok card ->
  Forall (fun t => card_ok (card_number _ _ t)) (fst (part2 money_t Money pyfloat py_float card groups)).
Proof.
  induction groups as [|rows groups IH]; intros card Hc; [constructor|].
  cbn [part2].
  destruct (process_group money_t Money pyfloat py_float card rows) as [[c' [t|]]|e] eqn:E.
  - destruct (process_group_card _ _ _ E) as [H1 H2]. cbn [fst snd] in H1, H2.
    specialize (IH c' (H1 Hc)).
    destruct (part2 money_t Money pyfloat py_float c' groups) as [ts err].
    constructor; [rewrite H2; exact Hc | exact IH].
  - destruct (process_group_card _ _ _ E) as [H1 _]. apply IH, H1, Hc.
  - constructor.
Qed.

(** The card number of every transaction get_transactions_from_pages
    yields is unset (no "Uw Card" line before it) or a non-empty string
    of digits, read from the last "Uw Card met als laatste vier cijfers"
    line. *)
Theorem get_transactions_card_number : forall pages,
  Forall (fun t => match card_number _ _ t with
                   | None => True
                   | Some cn => nonempty cn = true /\ all_chars is_digit cn = true
                   end)
    (fst (get_transactions_from_pages money_t Money pyfloat py_float pages)).
Proof.
  intros pages. unfold get_transactions_from_pages.
  destruct (part1 1 None pages) as [tbl|e]; [|constructor].
  destruct (group_related_rows tbl) as [groups gerr].
  pose proof (part2_card groups None I) as H.
  destruct (part2 money_t Money pyfloat py_float None groups) as [ts err].
  exact H.
Qed.
End Checks.

Lemma get_transactions_page_checks_witness :
  let pg := fun n => mkPage (mkdate 2024 3 1) n [] in
  part1 1 None [pg 1%Z; pg 2%Z] = Ok [] /\
  (forall p q, In p [pg 1%Z; pg 2%Z] -> In q [pg 1%Z; pg 2%Z] -> date_eqb (page_date p) (page_date q) = true) /\
  exists e, get_transactions_from_pages (cell * cell) (fun a b => Ok (a, b)) string (fun s => Ok s)
              [pg 2%Z; pg 1%Z] = ([], Some e).
Proof.
  intros pg.
  assert (H : part1 1 None [pg 1%Z; pg 2%Z] = Ok []) by reflexivity.
  split; [exact H|]. split.
  - exact (proj2 (proj1 (get_transactions_page_checks (cell * cell) (fun a b => Ok (a, b)) string (fun s => Ok s))
      _ _ H)).
  - apply (proj2 (get_transactions_page_checks (cell * cell) (fun a b => Ok (a, b)) string (fun s => Ok s))).
    left. discriminate.
Defined.

(** The docstring's examples of [table_as_string], the second with the
    separator [", "] and without quotes around the cells. *)
Example table_as_string_doctest :
  table_as_string doctest_page "|" "|" "|" true = Ok (String.concat (String newline "") [
"|09 dec|09 dec|GEINCASSEERD VORIG SALDO|             |   |        |   |500,00  |Bij|";
"|Uw Card met als laatste vier cijfers 1234                                         |";
"|J SMITH VAN DE FOOBAR                                                             |";
"|02 jan|03 jan|Description here        |Foobar       |NLD|        |   |100,00  |Af |";
"|03 jan|03 jan|Foreign purchase        |Whatever     |USA|6,05    |USD|5,59    |Af |";
"|      |      |Wisselkoers USD         |1,08229      |   |        |   |        |   |";
"|04 jan|04 jan|Blah blah blah          |Fizzbuzz     |LUX|        |   |6,99    |Af |"]) /\
  table_as_string doctest_page ", " "[" "]," false = Ok (String.concat (String newline "") [
"[09 dec, 09 dec, GEINCASSEERD VORIG SALDO, , , , , 500,00, Bij],";
"[Uw Card met als laatste vier cijfers 1234],";
"[J SMITH VAN DE FOOBAR],";
"[02 jan, 03 jan, Description here, Foobar, NLD, , , 100,00, Af],";
"[03 jan, 03 jan, Foreign purchase, Whatever, USA, 6,05, USD, 5,59, Af],";
"[, , Wisselkoers USD, 1,08229, , , , , ],";
"[04 jan, 04 jan, Blah blah blah, Fizzbuzz, LUX, , , 6,99, Af],"]).
Proof. split; vm_compute; reflexivity. Qed.


Lemma ljust_0 s : ljust s 0 = s.
Proof. unfold ljust. cbn [Nat.sub repeat String.concat]. apply str_app_empty_r. Qed.



Lemma split_on_none c s : all_chars (fun d => negb (Ascii.eqb d c)) s = true -> split_on c s = [s].
Proof.
  induction s as [|d s IH]; intros H; [reflexivity|]. cbn [all_chars] in H.
  apply andb_prop in H. destruct H as [Hd H]. apply negb_true_iff in Hd.
  cbn [split_on]. rewrite Hd, (IH H). reflexivity.
Qed.

(** Without padding and with a one-character separator [c], the line of a
    row that fits the column layout splits on [c] back into the row's
    cells, when no cell contains [c]: the CSV use of the docstring. *)
Theorem table_line_split : forall c row line,
  (String.length (hd "" row) <= COLUMN0_max_length)%nat ->
  Forall (fun t => all_chars (fun d => negb (Ascii.eqb d c)) t = true) row ->
  table_line (String c "") false row = Ok line -> split_on c line = row.
Proof.
  intros c row line Hhd Hc H. destruct row as [|c0 rest]; [discriminate H|].
  cbn [hd] in Hhd. unfold table_line in H.
  destruct (Nat.ltb_spec COLUMN0_max_length (String.length c0)); [lia|].
  assert (M : forall k l, map_result (fun ic : nat * string => Ok (ljust (snd ic) 0))
                            (combine (seq k (length l)) l) = Ok l).
  { intros k l. revert k. induction l as [|x l IH]; intros k; [reflexivity|].
    cbn [length seq combine map_result snd]. rewrite ljust_0, IH. reflexivity. }
  cbn iota beta in H. rewrite M in H. cbn [bind] in H. injection H as <-.
  change (split_on c (String.concat (String c "") (c0 :: rest)) = c0 :: rest).
  rewrite split_on_concat by discriminate.
  clear - Hc. induction Hc as [|x l Hx _ IH]; [reflexivity|].
  cbn [flat_map]. rewrite split_on_none by exact Hx. cbn [app]. rewrite IH. reflexivity.
Qed.


Lemma table_line_split_witness :
  split_on ","%char "02 jan,03 jan,Description here,Foobar,NLD,,,100.00,Af" =
    ["02 jan"; "03 jan"; "Description here"; "Foobar"; "NLD"; ""; ""; "100.00"; "Af"].
Proof.
  apply (table_line_split ","%char ["02 jan"; "03 jan"; "Description here"; "Foobar"; "NLD"; ""; ""; "100.00"; "Af"]).
  - apply Nat.leb_le; reflexivity.
  - repeat constructor.
  - reflexivity.
Defined.

End IcsProps.
